(** * pumpdotfun-go-sdk: bonding-curve quotes, reserve decoding and
      trade-instruction assembly

    A shallow embedding of the Go package [pumpdotfunsdk]
    (the reserve decoder, the buy and sell flows with their quotes, and
    the compute-unit price of the create flow) together with the
    properties its specification states about it.

    Conventions of the embedding:
    - a Go [uint64], [uint32] or [int] is a [Z] whose range is stated where
      it matters; conversions between them are written out with their
      wrap-around;
    - a [*big.Int] is an [option Z], [None] being the nil pointer;
    - a [float64] is a [spec_float] of the standard library, operated on
      with the binary64 instances of [SFdiv] and [SFsub];
    - a [*big.Float] is a value of [BigFloat.t] (sign, integer mantissa,
      binary exponent and precision);
    - a call that can return an [error] or panic yields a [result]. *)

From Stdlib Require Import ZArith List Bool Lia String Ascii.
From Stdlib Require Import Strings.Byte.
From Stdlib Require Import Floats.SpecFloat.
Import ListNotations.
Local Open Scope Z_scope.

(** ** Outcomes of Go calls *)

(** The run-time panics the modelled code can raise. *)
Inductive panic_value : Type :=
  | DivisionByZero        (* big.Int.Div by zero, "division by zero" *)
  | IntegerDivideByZero   (* the run-time's integer divide by zero *)
  | ErrNaN                (* big.ErrNaN: NewFloat(NaN), 0 * Inf *)
  | NilDereference        (* method call through a nil pointer *)
  | IndexOutOfRange.

(** An [error] value: a message, possibly wrapping another error
    ([fmt.Errorf] with the verb [%w]). *)
Inductive error : Type :=
  | NewError (msg : string)
  | Wrap (msg : string) (inner : error).

Inductive result (A : Type) : Type :=
  | Ok (a : A)
  | Err (e : error)
  | Panic (p : panic_value).
Arguments Ok {A} a.
Arguments Err {A} e.
Arguments Panic {A} p.

Definition bind {A B : Type} (r : result A) (k : A -> result B) : result B :=
  match r with
  | Ok a => k a
  | Err e => Err e
  | Panic p => Panic p
  end.

(** [wrap msg r] is the Go idiom
    [if err != nil { return nil, fmt.Errorf(msg + ": %w", err) }]. *)
Definition wrap {A : Type} (msg : string) (r : result A) : result A :=
  match r with
  | Err e => Err (Wrap msg e)
  | _ => r
  end.

Declare Scope go_scope.
Delimit Scope go_scope with go.
Notation "x <- c ;; k" := (bind c (fun x => k))
  (at level 61, c at next level, right associativity) : go_scope.
Notation "' pat <- c ;; k" := (bind c (fun x => match x with pat => k end))
  (at level 61, pat pattern, c at next level, right associativity) : go_scope.

(** ** Machine integers *)

Module GoInt.

Definition is_uint64 (x : Z) : Prop := 0 <= x < 2 ^ 64.
Definition is_int64 (x : Z) : Prop := - 2 ^ 63 <= x < 2 ^ 63.

(** The conversion [int64(x)] of a [uint64]: the same 64 bits read in
    two's complement. *)
Definition int64_of_uint64 (x : Z) : Z :=
  if x <? 2 ^ 63 then x else x - 2 ^ 64.

(** The conversion [uint64(x)] of an [int]. *)
Definition uint64_of_int (x : Z) : Z := x mod 2 ^ 64.

(** The method [Uint64] of [big.Int]: the low 64 bits of the absolute
    value. *)
Definition big_Uint64 (x : Z) : Z := Z.abs x mod 2 ^ 64.

End GoInt.

(** ** math/big.Int division *)

(** The method [Div] of [big.Int] is Euclidean division (the remainder is
    never negative) and panics on a zero divisor. *)
Definition euclid_div (x y : Z) : Z := Z.sgn y * (x / Z.abs y).

Definition big_Div (x y : Z) : result Z :=
  if y =? 0 then Panic DivisionByZero else Ok (euclid_div x y).

(** ** math/big.Float *)

Module BigFloat.

(** A [big.Float]: zero, infinity or [(-1)^neg * mant * 2^exp] with
    [mant > 0], each carrying its precision in bits. *)
Inductive t : Type :=
  | Zero (neg : bool) (prec : Z)
  | Inf (neg : bool) (prec : Z)
  | Finite (neg : bool) (mant : Z) (exp : Z) (prec : Z).

Definition prec_of (x : t) : Z :=
  match x with
  | Zero _ p | Inf _ p | Finite _ _ _ p => p
  end.

(** [x.BitLen()] of the absolute value. *)
Definition BitLen (m : Z) : Z :=
  if Z.abs m =? 0 then 0 else Z.log2 (Z.abs m) + 1.

(** Rounding of the mantissa [m] (of value [m * 2^e]) to [prec] bits,
    to nearest, ties to even ([ToNearestEven], the default mode). *)
Definition round (prec m e : Z) : Z * Z :=
  let k := BitLen m - prec in
  if k <=? 0 then (m, e)
  else
    let q := Z.shiftr m k in
    let r := m mod 2 ^ k in
    let half := 2 ^ (k - 1) in
    let q' :=
      if r <? half then q
      else if half <? r then q + 1
      else if Z.even q then q else q + 1 in
    (q', e + k).

(** [big.NewFloat(x)]: precision 53, panics on NaN. *)
Definition NewFloat (x : spec_float) : result t :=
  match x with
  | S754_nan => Panic ErrNaN
  | S754_zero s => Ok (Zero s 53)
  | S754_infinity s => Ok (Inf s 53)
  | S754_finite s m e => Ok (Finite s (Zpos m) e 53)
  end.

(** [new(big.Float).SetInt(x)]: the receiver's precision is 0, so it
    becomes [max(x.BitLen(), 64)] and the value is exact. *)
Definition SetInt (x : Z) : t :=
  let p := Z.max (BitLen x) 64 in
  if x =? 0 then Zero false p
  else Finite (x <? 0) (Z.abs x) 0 p.

(** [new(big.Float).Mul(x, y)]: the receiver's precision is 0, so it
    becomes the larger of the operands' precisions; the exact product is
    rounded to it. *)
Definition Mul (x y : t) : result t :=
  let p := Z.max (prec_of x) (prec_of y) in
  match x, y with
  | Zero _ _, Inf _ _ | Inf _ _, Zero _ _ => Panic ErrNaN
  | Inf sx _, Inf sy _ | Inf sx _, Finite sy _ _ _
  | Finite sx _ _ _, Inf sy _ => Ok (Inf (xorb sx sy) p)
  | Zero sx _, Zero sy _ | Zero sx _, Finite sy _ _ _
  | Finite sx _ _ _, Zero sy _ => Ok (Zero (xorb sx sy) p)
  | Finite sx mx ex _, Finite sy my ey _ =>
      let '(m, e) := round p (mx * my) (ex + ey) in
      Ok (Finite (xorb sx sy) m e p)
  end.

(** [x.Int(nil)]: truncation toward zero; nil for an infinity. *)
Definition Int (x : t) : option Z :=
  match x with
  | Zero _ _ => Some 0
  | Inf _ _ => None
  | Finite s m e _ =>
      let a := if 0 <=? e then Z.shiftl m e else Z.shiftr m (- e) in
      Some (if s then - a else a)
  end.

End BigFloat.

(** ** bonding-curve.go: the reserve decoder *)

(** [BondingCurveData]: the three reserves, as [*big.Int] values. *)
Record BondingCurveData : Type := {
  RealTokenReserves : Z;
  VirtualTokenReserves : Z;
  VirtualSolReserves : Z
}.

(** [data[lo:hi]]: a slice expression panics when [hi] exceeds the
    length. *)
Definition slice (data : list byte) (lo hi : nat) : result (list byte) :=
  if (hi <=? List.length data)%nat
  then Ok (firstn (hi - lo) (skipn lo data))
  else Panic IndexOutOfRange.

(** The conversion [uint64(b)] of a byte. *)
Definition u64 (b : byte) : Z := Z.of_N (Byte.to_N b).

(** [binary.LittleEndian.Uint64(b)]:
    [uint64(b[0]) | uint64(b[1])<<8 | ... | uint64(b[7])<<56], after the
    bounds check [_ = b[7]]. *)
Definition LittleEndian_Uint64 (b : list byte) : result Z :=
  match b with
  | b0 :: b1 :: b2 :: b3 :: b4 :: b5 :: b6 :: b7 :: _ =>
      Ok (Z.lor (u64 b0)
         (Z.lor (Z.shiftl (u64 b1) 8)
         (Z.lor (Z.shiftl (u64 b2) 16)
         (Z.lor (Z.shiftl (u64 b3) 24)
         (Z.lor (Z.shiftl (u64 b4) 32)
         (Z.lor (Z.shiftl (u64 b5) 40)
         (Z.lor (Z.shiftl (u64 b6) 48)
                (Z.shiftl (u64 b7) 56))))))))
  | _ => Panic IndexOutOfRange
  end.

(** The decoding half of [fetchBondingCurve]: everything after
    [data := accountInfo.Value.Data.GetBinary()]. *)
Definition decodeReserves (data : list byte) : result BondingCurveData :=
  (if (List.length data <? 24)%nat
   then Err (NewError "FBCD: insufficient data length")
   else
     b0 <- slice data 0 8 ;;
     realTokenReserves <- LittleEndian_Uint64 b0 ;;
     b1 <- slice data 8 16 ;;
     virtualTokenReserves <- LittleEndian_Uint64 b1 ;;
     b2 <- slice data 16 24 ;;
     virtualSolReserves <- LittleEndian_Uint64 b2 ;;
     Ok {| RealTokenReserves := realTokenReserves;
           VirtualTokenReserves := virtualTokenReserves;
           VirtualSolReserves := virtualSolReserves |})%go.

(** ** The quote engine of the buy and sell flows *)

(** The float multiplication and truncation that ends both quotes:
    [big.NewFloat(percentage)], [new(big.Float).SetInt(a)],
    [new(big.Float).Mul(..)], [.Int(nil)]. *)
Definition applyPercentage (a : Z) (percentage : spec_float)
  : result (option Z) :=
  (percentageMultiplier <- BigFloat.NewFloat percentage ;;
   let aFloat := BigFloat.SetInt a in
   final <- BigFloat.Mul aFloat percentageMultiplier ;;
   Ok (BigFloat.Int final))%go.

(** The body of [calculateBuyQuote] from the converted amount
    [solAmountBig] on. *)
Definition buyQuoteBig (solAmountBig : Z) (bondingCurve : BondingCurveData)
    (percentage : spec_float) : result (option Z) :=
  (let virtualSolReserves := VirtualSolReserves bondingCurve in
   let virtualTokenReserves := VirtualTokenReserves bondingCurve in
   let newVirtualSolReserves := virtualSolReserves + solAmountBig in
   let invariant := virtualSolReserves * virtualTokenReserves in
   newVirtualTokenReserves <- big_Div invariant newVirtualSolReserves ;;
   let tokensToBuy := virtualTokenReserves - newVirtualTokenReserves in
   applyPercentage tokensToBuy percentage)%go.

(** [calculateBuyQuote]: [big.NewInt(int64(solAmount))], then the body. *)
Definition calculateBuyQuote (solAmount : Z) (bondingCurve : BondingCurveData)
    (percentage : spec_float) : result (option Z) :=
  let solAmountBig := GoInt.int64_of_uint64 solAmount in
  buyQuoteBig solAmountBig bondingCurve percentage.

(** The body of [calculateSellQuote] from the converted amount [amount]
    on. *)
Definition sellQuoteBig (amount : Z) (bondingCurve : BondingCurveData)
    (percentage : spec_float) : result (option Z) :=
  (let virtualSolReserves := VirtualSolReserves bondingCurve in
   let virtualTokenReserves := VirtualTokenReserves bondingCurve in
   let x := virtualSolReserves * amount in
   let y := virtualTokenReserves + amount in
   a <- big_Div x y ;;
   applyPercentage a percentage)%go.

(** [calculateSellQuote]: [big.NewInt(int64(tokenAmount))], then the
    body. *)
Definition calculateSellQuote (tokenAmount : Z) (bondingCurve : BondingCurveData)
    (percentage : spec_float) : result (option Z) :=
  let amount := GoInt.int64_of_uint64 tokenAmount in
  sellQuoteBig amount bondingCurve percentage.

(** Binary64 constants and operations. *)
Module F64.
Definition prec : Z := 53.
Definition emax : Z := 1024.
Definition div := SFdiv prec emax.
Definition sub := SFsub prec emax.
(** The conversion [float64(n)] of an unsigned integer. *)
Definition of_uint (n : Z) : spec_float := binary_normalize prec emax n 0 false.
(** A decimal literal [d e k] with a non-negative exponent, which is an
    exact integer constant converted to [float64]. *)
Definition of_literal (d k : Z) : spec_float := of_uint (d * 10 ^ k).
Definition one : spec_float := of_literal 1 0.
(** A decimal literal with the value [n / d], [n] and [d] exactly
    representable: the correctly rounded quotient. *)
Definition of_ratio (n d : Z) : spec_float := div (of_uint n) (of_uint d).
End F64.

(** [convertSlippageBasisPointsToPercentage]:
    [1.0 - float64(slippageBasisPoint)/10e3]. *)
Definition convertSlippageBasisPointsToPercentage (slippageBasisPoint : Z)
  : spec_float :=
  F64.sub F64.one (F64.div (F64.of_uint slippageBasisPoint) (F64.of_literal 10 3)).

(** ** create.go: the compute-unit price of the create flow *)

(** An element of the response of [GetRecentPrioritizationFees]. *)
Record PriorizationFeeResult : Type := {
  Slot : Z;
  PrioritizationFee : Z
}.

(** The value handed to [cb.NewSetComputeUnitPriceInstruction] by
    [getComputUnitPriceInstr], given the response [out] of the ledger
    client: the loop overwrites [median] with each sample, and the
    division by [length] is the run-time's unsigned division. *)
Definition computeUnitPrice (out : list PriorizationFeeResult) : result Z :=
  let median := 0 in
  let length := Z.of_nat (List.length out) in
  let median := fold_left (fun _ fee => PrioritizationFee fee) out median in
  if length =? 0 then Panic IntegerDivideByZero
  else Ok (median / length).

(** ** strconv.Atoi *)

Definition digit_of (c : ascii) : option Z :=
  let n := Z.of_N (N_of_ascii c) in
  if (48 <=? n) && (n <=? 57) then Some (n - 48) else None.

Fixpoint parse_digits (acc : Z) (s : string) : option Z :=
  match s with
  | EmptyString => Some acc
  | String c rest =>
      match digit_of c with
      | Some d => parse_digits (10 * acc + d) rest
      | None => None
      end
  end.

(** [strconv.Atoi]: an optional sign, then one or more decimal digits; the
    value has to fit the 64-bit [int]. *)
Definition Atoi (s : string) : result Z :=
  let '(neg, body) :=
    match s with
    | String "-"%char rest => (true, rest)
    | String "+"%char rest => (false, rest)
    | _ => (false, s)
    end in
  match body with
  | EmptyString => Err (NewError "strconv.Atoi: invalid syntax")
  | _ =>
      match parse_digits 0 body with
      | None => Err (NewError "strconv.Atoi: invalid syntax")
      | Some n =>
          let v := if neg then - n else n in
          if (- 2 ^ 63 <=? v) && (v <? 2 ^ 63) then Ok v
          else Err (NewError "strconv.Atoi: value out of range")
      end
  end.

(** ** The ledger client and the Solana library *)

(** The outcome of a request to the ledger client: a response or an
    error, among them the client's [ErrNotFound]. *)
Inductive response (A : Type) : Type :=
  | Response (a : A)
  | RpcError (e : error).
Arguments Response {A} a.
Arguments RpcError {A} e.

Definition ErrNotFound : error := NewError "not found".

Definition of_response {A : Type} (r : response A) : result A :=
  match r with
  | Response a => Ok a
  | RpcError e => Err e
  end.

(** Identities, secret keys and block references of the Solana library,
    and the library functions and constants the package uses. *)
Class Solana : Type := {
  PublicKey : Type;
  PrivateKey : Type;
  Hash : Type;
  PrivateKey_PublicKey : PrivateKey -> PublicKey;
  PublicKey_Equals : PublicKey -> PublicKey -> bool;
  PublicKey_Bytes : PublicKey -> list byte;
  MustPublicKeyFromBase58 : string -> PublicKey;
  FindProgramAddress :
    list (list byte) -> PublicKey -> result (PublicKey * Z);
  FindAssociatedTokenAddress :
    PublicKey -> PublicKey -> result (PublicKey * Z);
  system_ProgramID : PublicKey;
  token_ProgramID : PublicKey;
  associatedtokenaccount_ProgramID : PublicKey;
  SysVarRentPubkey : PublicKey;
  TokenMetadataProgramID : PublicKey;
  pump_ProgramID : PublicKey
}.

Section Flows.

Context {L : Solana}.

(** The instructions the flows emit, by their builders' arguments. *)
Inductive Instruction : Type :=
  | SetComputeUnitLimit (units : Z)
  | SetComputeUnitPrice (microLamports : Z)
  | CreateAssociatedTokenAccount (payer wallet mint : PublicKey)
  | PumpBuy (amount maxSolCost : Z) (accounts : list PublicKey)
  | PumpSell (amount minSolOutput : Z) (accounts : list PublicKey).

(** [ValidateAndBuild] of the associated-token-account builder and of
    the generated sell builder: [None] when the instruction is valid.
    The generated package [pump] is taken as a parameter. *)
Class Builders : Type := {
  associatedtokenaccount_Validate :
    PublicKey -> PublicKey -> PublicKey -> option error;
  pump_Sell_Validate : Instruction -> option error;
  (** The keys of a message that have to sign it. *)
  requiredSigners : list Instruction -> PublicKey -> list PublicKey
}.
Context {B : Builders}.

Definition ValidateAndBuild (check : option error) (i : Instruction)
  : result Instruction :=
  match check with
  | None => Ok i
  | Some e => Err e
  end.

Record Transaction : Type := {
  tx_instructions : list Instruction;
  tx_blockhash : Hash;
  tx_payer : PublicKey;
  tx_signers : list PrivateKey
}.

(** [solana.NewTransaction]: refuses an empty instruction list. *)
Definition NewTransaction (instructions : list Instruction)
    (recentBlockHash : Hash) (payer : PublicKey) : result Transaction :=
  match instructions with
  | [] => Err (NewError "requires at-least one instruction to create a transaction")
  | _ => Ok {| tx_instructions := instructions;
               tx_blockhash := recentBlockHash;
               tx_payer := payer;
               tx_signers := [] |}
  end.

(** [tx.Sign(getter)]: every required key is looked up with the
    callback. *)
Fixpoint collectSigners (getter : PublicKey -> option PrivateKey)
    (keys : list PublicKey) : result (list PrivateKey) :=
  match keys with
  | [] => Ok []
  | key :: rest =>
      match getter key with
      | None => Err (NewError "signer key not found")
      | Some priv =>
          (privs <- collectSigners getter rest ;; Ok (priv :: privs))%go
      end
  end.

Definition Sign (tx : Transaction) (getter : PublicKey -> option PrivateKey)
  : result Transaction :=
  (privs <- collectSigners getter
              (requiredSigners (tx_instructions tx) (tx_payer tx)) ;;
   Ok {| tx_instructions := tx_instructions tx;
         tx_blockhash := tx_blockhash tx;
         tx_payer := tx_payer tx;
         tx_signers := privs |})%go.

(** The ledger client, by its answers. An account lookup answers with
    an error or with a response whose [Value] may be nil and otherwise
    carries the account's binary data. *)
Record rpc_Client : Type := {
  GetAccountInfo : PublicKey -> response (option (list byte));
  GetAccountInfoWithOpts : PublicKey -> response (option (list byte));
  GetTokenAccountBalance : PublicKey -> response string;
  GetRecentPrioritizationFees :
    list PublicKey -> response (list PriorizationFeeResult);
  GetLatestBlockhash : response Hash;
  SendTransaction : Transaction -> response string
}.

(** *** bonding-curve.go: the fetch *)

(** [fetchBondingCurve]: the account lookup, then the decoding. An
    error and a nil [Value] end in the same [fmt.Errorf]. *)
Definition fetchBondingCurve (rpcClient : rpc_Client)
    (bondingCurvePubKey : PublicKey) : result BondingCurveData :=
  match GetAccountInfoWithOpts rpcClient bondingCurvePubKey with
  | RpcError err => Err (Wrap "FBCD: failed to get account info" err)
  | Response None =>
      Err (NewError "FBCD: failed to get account info: %!w(<nil>)")
  | Response (Some data) => decodeReserves data
  end.

(** *** create.go: addresses *)

Definition globalPumpFunAddress : PublicKey :=
  MustPublicKeyFromBase58 "4wTV1YmiEkRvAtNtsSGPtUrqRYQMe5SKy2uB4Jjaxnjf".
Definition pumpFunMintAuthority : PublicKey :=
  MustPublicKeyFromBase58 "TSLvdd1pWpHVjahSpsvCXUbgwsL3JAcvokwaKt1eokM".
Definition pumpFunEventAuthority : PublicKey :=
  MustPublicKeyFromBase58 "Ce6TQqeHC9p8KetsN6JsjHK7UTZk7nasjjnr7XxXp9F1".

(** The package variable [pumpFunFeeRecipient] is mutable: the flows
    take its current value as an argument. *)
Definition initialFeeRecipient : PublicKey :=
  MustPublicKeyFromBase58 "CebN5WGQ4jvEPvsVU4EoHEpgzq1VV7AbicfhtW4xC9iM".
Definition SetDevnetMode (pumpFunFeeRecipient : PublicKey) : PublicKey :=
  MustPublicKeyFromBase58 "68yFSZxzLWJXkxxRGydZ63C6mHx1NLEDWmwN9Lb5yySg".

Record BondingCurvePublicKeys : Type := {
  BondingCurve : PublicKey;
  AssociatedBondingCurve : PublicKey
}.

Definition getBondingCurveAndAssociatedBondingCurve (mint : PublicKey)
  : result BondingCurvePublicKeys :=
  (let seeds := [list_byte_of_string "bonding-curve"; PublicKey_Bytes mint] in
   '(bondingCurve, _) <-
      wrap "failed to derive bonding curve address"
        (FindProgramAddress seeds pump_ProgramID) ;;
   '(associatedBondingCurve, _) <-
      wrap "failed to derive associated bonding curve address"
        (FindAssociatedTokenAddress bondingCurve mint) ;;
   Ok {| BondingCurve := bondingCurve;
         AssociatedBondingCurve := associatedBondingCurve |})%go.

(** [getComputUnitPriceInstr]. *)
Definition getComputUnitPriceInstr (rpcClient : rpc_Client)
    (user : PrivateKey) : result Instruction :=
  (out <- wrap "failed to get recent prioritization fees"
            (of_response
               (GetRecentPrioritizationFees rpcClient
                  [PrivateKey_PublicKey user; pump_ProgramID;
                   pumpFunMintAuthority; globalPumpFunAddress;
                   TokenMetadataProgramID;
                   system_ProgramID; token_ProgramID;
                   associatedtokenaccount_ProgramID; SysVarRentPubkey;
                   pumpFunEventAuthority])) ;;
   median <- computeUnitPrice out ;;
   Ok (SetComputeUnitPrice median))%go.

(** *** The buy flow *)

Definition shouldCreateAta (rpcClient : rpc_Client) (ata : PublicKey)
  : result bool :=
  match GetAccountInfo rpcClient ata with
  | Response _ => Ok false
  | RpcError _ => Ok true
  end.

(** [x.Uint64()] on a possibly nil [*big.Int]. *)
Definition Uint64 (x : option Z) : result Z :=
  match x with
  | None => Panic NilDereference
  | Some v => Ok (GoInt.big_Uint64 v)
  end.

(** The accounts of the buy instruction, in the builder's order. *)
Definition buyAccounts (pumpFunFeeRecipient mint : PublicKey)
    (bondingCurveData : BondingCurvePublicKeys) (ata user : PublicKey)
  : list PublicKey :=
  [globalPumpFunAddress; pumpFunFeeRecipient; mint;
   BondingCurve bondingCurveData;
   AssociatedBondingCurve bondingCurveData;
   ata; user; system_ProgramID; token_ProgramID; SysVarRentPubkey;
   pumpFunEventAuthority; pump_ProgramID].

Definition getBuyInstructions (rpcClient : rpc_Client)
    (pumpFunFeeRecipient : PublicKey) (mint user : PublicKey)
    (solAmount slippageBasisPoint : Z) : result (list Instruction) :=
  (bondingCurveData <-
     wrap "failed to get bonding curve data"
       (getBondingCurveAndAssociatedBondingCurve mint) ;;
   let instructions := [] in
   '(ata, _) <-
     wrap "failed to derive associated token account"
       (FindAssociatedTokenAddress user mint) ;;
   shouldCreateATA <-
     wrap "can't check if we should create ATA"
       (shouldCreateAta rpcClient ata) ;;
   instructions <-
     (if shouldCreateATA : bool then
        ataInstr <-
          wrap "can't create associated token account"
            (ValidateAndBuild
               (associatedtokenaccount_Validate user user mint)
               (CreateAssociatedTokenAccount user user mint)) ;;
        Ok (instructions ++ [ataInstr])
      else Ok instructions) ;;
   bondingCurve <-
     wrap "can't fetch bonding curve"
       (fetchBondingCurve rpcClient (BondingCurve bondingCurveData)) ;;
   let percentage :=
     convertSlippageBasisPointsToPercentage slippageBasisPoint in
   buy <- calculateBuyQuote solAmount bondingCurve percentage ;;
   buyAmount <- Uint64 buy ;;
   let buyInstruction :=
     PumpBuy buyAmount solAmount
       (buyAccounts pumpFunFeeRecipient mint bondingCurveData ata user) in
   Ok (instructions ++ [buyInstruction]))%go.

(** The signing callback of [BuyToken] and [SellToken]. *)
Definition userGetter (user : PrivateKey) (key : PublicKey)
  : option PrivateKey :=
  if PublicKey_Equals (PrivateKey_PublicKey user) key then Some user
  else None.

(** The rest of a flow once its instruction list is complete: latest
    block hash, transaction, signature, submission. *)
Definition submit (rpcClient : rpc_Client) (user : PrivateKey)
    (instructions : list Instruction) : result string :=
  (recent <- wrap "error while getting recent block hash"
               (of_response (GetLatestBlockhash rpcClient)) ;;
   tx <- wrap "error while creating new transaction"
           (NewTransaction instructions recent (PrivateKey_PublicKey user)) ;;
   tx <- wrap "can't sign transaction" (Sign tx (userGetter user)) ;;
   sig <- wrap "can't send transaction"
            (of_response (SendTransaction rpcClient tx)) ;;
   Ok sig)%go.

(** The instruction list [BuyToken] hands to [solana.NewTransaction]. *)
Definition BuyToken_instructions (rpcClient : rpc_Client)
    (pumpFunFeeRecipient : PublicKey) (user : PrivateKey) (mint : PublicKey)
    (buyAmountLamports slippageBasisPoint : Z) : result (list Instruction) :=
  (let instructions :=
     [SetComputeUnitLimit 250000; SetComputeUnitPrice 100000] in
   buyInstructions <-
     wrap "failed to get buy instructions"
       (getBuyInstructions rpcClient pumpFunFeeRecipient mint
          (PrivateKey_PublicKey user) buyAmountLamports slippageBasisPoint) ;;
   Ok (instructions ++ buyInstructions))%go.

Definition BuyToken (rpcClient : rpc_Client)
    (pumpFunFeeRecipient : PublicKey) (user : PrivateKey) (mint : PublicKey)
    (buyAmountLamports slippageBasisPoint : Z) : result string :=
  (instructions <-
     BuyToken_instructions rpcClient pumpFunFeeRecipient user mint
       buyAmountLamports slippageBasisPoint ;;
   submit rpcClient user instructions)%go.

(** *** sell.go: the sell flow *)

(** The amount [getSellInstructions] goes on with: the caller's, or
    with [all] the balance of the associated token account, read as a
    decimal string and converted with [uint64(amount)]. *)
Definition sellAmount (rpcClient : rpc_Client) (ata : PublicKey)
    (sellTokenAmount : Z) (all : bool) : result Z :=
  (if all then
     tokenAccounts <-
       wrap "can't get amount of token in balance"
         (of_response (GetTokenAccountBalance rpcClient ata)) ;;
     amount <-
       wrap "can't convert token amount to integer"
         (Atoi tokenAccounts) ;;
     Ok (GoInt.uint64_of_int amount)
   else Ok sellTokenAmount)%go.

(** The accounts of the sell instruction, in the builder's order. *)
Definition sellAccounts (pumpFunFeeRecipient mint : PublicKey)
    (bondingCurveData : BondingCurvePublicKeys) (ata user : PublicKey)
  : list PublicKey :=
  [globalPumpFunAddress; pumpFunFeeRecipient; mint;
   BondingCurve bondingCurveData;
   AssociatedBondingCurve bondingCurveData;
   ata; user; system_ProgramID;
   associatedtokenaccount_ProgramID; token_ProgramID;
   pumpFunEventAuthority; pump_ProgramID].

Definition getSellInstructions (rpcClient : rpc_Client)
    (pumpFunFeeRecipient : PublicKey) (user : PrivateKey) (mint : PublicKey)
    (sellTokenAmount slippageBasisPoint : Z) (all : bool)
  : result Instruction :=
  ('(ata, _) <-
     wrap "failed to derive associated token account"
       (FindAssociatedTokenAddress (PrivateKey_PublicKey user) mint) ;;
   sellTokenAmount <- sellAmount rpcClient ata sellTokenAmount all ;;
   bondingCurveData <-
     wrap "can't get bonding curve data"
       (getBondingCurveAndAssociatedBondingCurve mint) ;;
   bondingCurve <-
     wrap "can't fetch bonding curve"
       (fetchBondingCurve rpcClient (BondingCurve bondingCurveData)) ;;
   let percentage :=
     convertSlippageBasisPointsToPercentage slippageBasisPoint in
   minSolOutput <- calculateSellQuote sellTokenAmount bondingCurve percentage ;;
   minSol <- Uint64 minSolOutput ;;
   let sellInstr :=
     PumpSell sellTokenAmount minSol
       (sellAccounts pumpFunFeeRecipient mint bondingCurveData ata
          (PrivateKey_PublicKey user)) in
   wrap "can't validate and build sell instruction"
     (ValidateAndBuild (pump_Sell_Validate sellInstr) sellInstr))%go.

(** The instruction list [SellToken] hands to [solana.NewTransaction]. *)
Definition SellToken_instructions (rpcClient : rpc_Client)
    (pumpFunFeeRecipient : PublicKey) (user : PrivateKey) (mint : PublicKey)
    (sellTokenAmount slippageBasisPoint : Z) (all : bool)
  : result (list Instruction) :=
  (let instructions :=
     [SetComputeUnitLimit 250000; SetComputeUnitPrice 10000] in
   sellInstructions <-
     wrap "failed to get sell instructions"
       (getSellInstructions rpcClient pumpFunFeeRecipient user mint
          sellTokenAmount slippageBasisPoint all) ;;
   Ok (instructions ++ [sellInstructions]))%go.

Definition SellToken (rpcClient : rpc_Client)
    (pumpFunFeeRecipient : PublicKey) (user : PrivateKey) (mint : PublicKey)
    (sellTokenAmount slippageBasisPoint : Z) (all : bool) : result string :=
  (instructions <-
     SellToken_instructions rpcClient pumpFunFeeRecipient user mint
       sellTokenAmount slippageBasisPoint all ;;
   submit rpcClient user instructions)%go.

End Flows.

(** ** The instruction lists as the specification words them *)

Section FlowSpec.

Context {L : Solana} {B : Builders}.

(** The optional step of the buy flow, from the answer of the ledger
    client about the buyer's associated token account: present when
    the lookup returned an error, absent when it returned a response. *)
Definition createAtaStep (lookup : response (option (list byte)))
    (user mint : PublicKey) : list Instruction :=
  match lookup with
  | RpcError _ => [CreateAssociatedTokenAccount user user mint]
  | Response _ => []
  end.

(** The specification's reading of the lookup: the step is wanted
    exactly when the client reports that the account was not found. *)
Definition reportsNotFound (lookup : response (option (list byte))) : Prop :=
  lookup = RpcError ErrNotFound.

End FlowSpec.


(** ** The quotes as the specification words them *)

(** [quoteBuy]: [newSol = virtualSol + solIn],
    [invariant = virtualSol * virtualToken],
    [newToken = invariant / newSol] truncating toward zero,
    [rawTokensOut = virtualToken - newToken], then the float multiplication
    and truncation; a zero divisor is a division-by-zero failure. *)
Definition quoteBuy (solIn : Z) (snapshot : BondingCurveData)
    (toleranceMultiplier : spec_float) : result (option Z) :=
  let newSol := VirtualSolReserves snapshot + solIn in
  let invariant := VirtualSolReserves snapshot * VirtualTokenReserves snapshot in
  if newSol =? 0 then Panic DivisionByZero
  else
    let newToken := Z.quot invariant newSol in
    let rawTokensOut := VirtualTokenReserves snapshot - newToken in
    applyPercentage rawTokensOut toleranceMultiplier.

(** [quoteSell]: [x = virtualSol * tokensIn], [y = virtualToken + tokensIn],
    [rawSolOut = floor(x / y)], then the float multiplication and
    truncation. *)
Definition quoteSell (tokensIn : Z) (snapshot : BondingCurveData)
    (toleranceMultiplier : spec_float) : result (option Z) :=
  let x := VirtualSolReserves snapshot * tokensIn in
  let y := VirtualTokenReserves snapshot + tokensIn in
  if y =? 0 then Panic DivisionByZero
  else
    let rawSolOut := x / y in
    applyPercentage rawSolOut toleranceMultiplier.

(** The round trip of the specification's testable property: the tokens
    quoted for [solIn] are sold back against the same snapshot, both at
    multiplier 1.0. *)
Definition roundTrip (solIn : Z) (snapshot : BondingCurveData)
  : result (option Z) :=
  (tokens <- calculateBuyQuote solIn snapshot F64.one ;;
   tokenAmount <- match tokens with
                  | None => Panic NilDereference
                  | Some v => Ok (GoInt.big_Uint64 v)
                  end ;;
   calculateSellQuote tokenAmount snapshot F64.one)%go.

Definition mkCurve (real virtualToken virtualSol : Z) : BondingCurveData :=
  {| RealTokenReserves := real;
     VirtualTokenReserves := virtualToken;
     VirtualSolReserves := virtualSol |}.

(** ** The decoder and the estimator as the specification words them *)

(** The unsigned little-endian value of a byte string: the first byte is
    the least significant. *)
Fixpoint le_value (bs : list byte) : Z :=
  match bs with
  | [] => 0
  | b :: rest => u64 b + 256 * le_value rest
  end.

(** The little-endian unsigned 64-bit integer at bytes
    [off .. off + 7] of [data]. *)
Definition le_uint64_at (data : list byte) (off : nat) : Z :=
  le_value (firstn 8 (skipn off data)).

Definition InsufficientDataError : error :=
  NewError "FBCD: insufficient data length".

Definition NoFeeDataError : error := NewError "no fee data".

(** [estimatePriorityFee]: the arithmetic mean of the sample values, and
    a [NoFeeDataError] on the empty sequence. *)
Definition estimatePriorityFee (recentFeeSamples : list Z) : result Z :=
  match recentFeeSamples with
  | [] => Err NoFeeDataError
  | _ => Ok (fold_right Z.add 0 recentFeeSamples
             / Z.of_nat (List.length recentFeeSamples))
  end.

Definition feeSample (fee : Z) : PriorizationFeeResult :=
  {| Slot := 0; PrioritizationFee := fee |}.

(** The 24-byte buffer of the specification: 1, 2 and 3 in the three
    little-endian fields. *)
Definition buffer123 : list byte :=
  [x01; x00; x00; x00; x00; x00; x00; x00;
   x02; x00; x00; x00; x00; x00; x00; x00;
   x03; x00; x00; x00; x00; x00; x00; x00].

(** ** Binary64 rounding: the quantities the proofs speak about *)

Module Rounding.

(** The exponent function of binary64. *)
Definition fexp64 : Z -> Z := fexp 53 1024.

(** The float built from a rounded mantissa and exponent. *)
Definition build (s : bool) (m e : Z) : spec_float :=
  match m with
  | Z0 => S754_zero s
  | Zpos p => if e <=? 1024 - 53 then S754_finite s p e else S754_infinity s
  | Zneg _ => S754_nan
  end.

(** The amount of the first right shift, and of the second one. *)
Definition shift_of (m e : Z) : Z := Z.max 0 (fexp64 (Zdigits2 m + e) - e).

(** A float of binary64 in the normal range: 53 significant bits. *)
Definition normal (x : spec_float) (s : bool) (m e : Z) : Prop :=
  exists p, x = S754_finite s p e /\ m = Z.pos p /\ 2 ^ 52 <= m < 2 ^ 53.

(** The mantissa of the float [10e3], which is [ten4 * 2^-39]. *)
Definition ten4 : Z := 5497558138880000.

(** The value of a positive normal float is above one. *)
Definition above_one (m e : Z) : Prop := 0 <= e \/ 2 ^ (- e) < m.

(** A float that is a number: neither NaN nor an infinity. *)
Definition is_number (x : spec_float) : Prop :=
  match x with
  | S754_zero _ | S754_finite _ _ _ => True
  | S754_infinity _ | S754_nan => False
  end.

(** A negative number: finite, non-zero, with the sign bit set. *)
Definition is_negative (x : spec_float) : Prop :=
  match x with
  | S754_finite true _ _ => True
  | _ => False
  end.

End Rounding.

(** ** The slippage conversion as the specification words it *)

(** [basisPointsToMultiplier]: [1.0 - bp / 10000.0], in binary64. *)
Definition basisPointsToMultiplier (bp : Z) : spec_float :=
  F64.sub (F64.of_uint 1) (F64.div (F64.of_uint bp) (F64.of_uint 10000)).

(** ** A small ledger for concrete runs *)

Module Demo.

Local Open Scope string_scope.

#[export] Instance solana : Solana := {|
  PublicKey := string;
  PrivateKey := string;
  Hash := string;
  PrivateKey_PublicKey := fun k => k;
  PublicKey_Equals := String.eqb;
  PublicKey_Bytes := list_byte_of_string;
  MustPublicKeyFromBase58 := fun s => s;
  FindProgramAddress := fun _ _ => Ok ("curve", 255);
  FindAssociatedTokenAddress :=
    fun wallet mint => Ok (String.append wallet (String.append "/" mint), 255);
  system_ProgramID := "system";
  token_ProgramID := "token";
  associatedtokenaccount_ProgramID := "ata-program";
  SysVarRentPubkey := "rent";
  TokenMetadataProgramID := "metadata";
  pump_ProgramID := "pump"
|}.

#[export] Instance builders : Builders := {|
  associatedtokenaccount_Validate := fun _ _ _ => None;
  pump_Sell_Validate := fun _ => None;
  requiredSigners := fun _ payer => [payer]
|}.

(** A ledger whose bonding-curve account holds [buffer123], and which
    answers the lookup of the associated token account and the balance
    request as given. *)
Definition client (lookup : response (option (list byte)))
    (balance : string) : rpc_Client := {|
  GetAccountInfo := fun _ => lookup;
  GetAccountInfoWithOpts := fun _ => Response (Some buffer123);
  GetTokenAccountBalance := fun _ => Response balance;
  GetRecentPrioritizationFees := fun _ => Response [];
  GetLatestBlockhash := Response "blockhash";
  SendTransaction := fun _ => Response "signature"
|}.

Definition connectionRefused : error := NewError "connection refused".

Definition user : @PrivateKey solana := "user".
Definition mint : @PublicKey solana := "mint".
Definition userAta : @PublicKey solana := "user/mint".
Definition curveKeys : @BondingCurvePublicKeys solana :=
  {| BondingCurve := "curve"; AssociatedBondingCurve := "curve/mint" |}.

End Demo.


(** ** create.go: the create flow *)

Section CreateFlow.

Context {L : Solana} {B : Builders}.

(** The instructions of the create flow: the create instruction of the
    generated package, by its builder's arguments, beside the
    instructions the other flows emit. *)
Inductive CreateFlowInstruction : Type :=
  | PumpCreate (name symbol uri : string) (accounts : list PublicKey)
  | FlowInstruction (i : Instruction).

Record CreateTransaction : Type := {
  ctx_instructions : list CreateFlowInstruction;
  ctx_blockhash : Hash;
  ctx_payer : PublicKey;
  ctx_signers : list PrivateKey
}.

(** What the create flow needs beyond the other flows:
    [solana.FindTokenMetadataAddress], the keys that have to sign a
    message of the create flow, and
    [confirm.SendAndConfirmTransaction]. *)
Class CreateLibrary : Type := {
  FindTokenMetadataAddress : PublicKey -> result (PublicKey * Z);
  createRequiredSigners :
    list CreateFlowInstruction -> PublicKey -> list PublicKey;
  SendAndConfirmTransaction : CreateTransaction -> response string
}.
Context {C : CreateLibrary}.

(** The accounts of the create instruction, in the builder's order. *)
Definition createAccounts (mint : PublicKey)
    (bondingCurveData : BondingCurvePublicKeys) (metadata user : PublicKey)
  : list PublicKey :=
  [mint; pumpFunMintAuthority;
   BondingCurve bondingCurveData;
   AssociatedBondingCurve bondingCurveData;
   globalPumpFunAddress; TokenMetadataProgramID; metadata; user;
   system_ProgramID; token_ProgramID; associatedtokenaccount_ProgramID;
   SysVarRentPubkey; pumpFunEventAuthority; pump_ProgramID].

(** The signing callback of [CreateToken]: the user's key, then the
    mint's. *)
Definition createGetter (user mint : PrivateKey) (key : PublicKey)
  : option PrivateKey :=
  if PublicKey_Equals (PrivateKey_PublicKey user) key then Some user
  else if PublicKey_Equals (PrivateKey_PublicKey mint) key then Some mint
  else None.

(** [solana.NewTransaction] and [tx.Sign] on the instructions of the
    create flow. *)
Definition NewCreateTransaction (instructions : list CreateFlowInstruction)
    (recentBlockHash : Hash) (payer : PublicKey) : result CreateTransaction :=
  match instructions with
  | [] => Err (NewError "requires at-least one instruction to create a transaction")
  | _ => Ok {| ctx_instructions := instructions;
               ctx_blockhash := recentBlockHash;
               ctx_payer := payer;
               ctx_signers := [] |}
  end.

Definition SignCreate (tx : CreateTransaction)
    (getter : PublicKey -> option PrivateKey) : result CreateTransaction :=
  (privs <- collectSigners getter
              (createRequiredSigners (ctx_instructions tx) (ctx_payer tx)) ;;
   Ok {| ctx_instructions := ctx_instructions tx;
         ctx_blockhash := ctx_blockhash tx;
         ctx_payer := ctx_payer tx;
         ctx_signers := privs |})%go.

(** [CreateToken]. The mint wallet is given by its private key. *)
Definition CreateToken (rpcClient : rpc_Client)
    (pumpFunFeeRecipient : PublicKey) (user mint : PrivateKey)
    (name symbol uri : string) (buyAmountLamports slippageBasisPoint : Z)
  : result string :=
  (bondingCurveData <-
     wrap "failed to get bonding curve and associated bonding curve"
       (getBondingCurveAndAssociatedBondingCurve (PrivateKey_PublicKey mint)) ;;
   '(metadata, _) <-
     wrap "can't find token metadata address"
       (FindTokenMetadataAddress (PrivateKey_PublicKey mint)) ;;
   let culInst := SetComputeUnitLimit 250000 in
   cupInst <-
     wrap "failed to get compute unit price instructions"
       (getComputUnitPriceInstr rpcClient user) ;;
   let instruction :=
     PumpCreate name symbol uri
       (createAccounts (PrivateKey_PublicKey mint) bondingCurveData metadata
          (PrivateKey_PublicKey user)) in
   recent <- wrap "error while getting recent block hash"
               (of_response (GetLatestBlockhash rpcClient)) ;;
   let instructions :=
     [FlowInstruction culInst; FlowInstruction cupInst; instruction] in
   instructions <-
     (if 0 <? buyAmountLamports then
        buyInstructions <-
          wrap "failed to get buy instructions"
            (getBuyInstructions rpcClient pumpFunFeeRecipient
               (PrivateKey_PublicKey mint) (PrivateKey_PublicKey user)
               buyAmountLamports slippageBasisPoint) ;;
        Ok (instructions ++ map FlowInstruction buyInstructions)
      else Ok instructions) ;;
   tx <- wrap "error while creating new transaction"
           (NewCreateTransaction instructions recent
              (PrivateKey_PublicKey user)) ;;
   tx <- wrap "can't sign transaction"
           (SignCreate tx (createGetter user mint)) ;;
   sig <- wrap "can't send and confirm new transaction"
            (of_response (SendAndConfirmTransaction tx)) ;;
   Ok sig)%go.

End CreateFlow.

(** ** Multipliers between zero and one *)

Module Multiplier.

(** A float that is [+0] or positive with a value of at most one: the
    mantissa [m] and the exponent [e <= 0] satisfy [m <= 2^(-e)]. *)
Definition at_most_one (x : spec_float) : Prop :=
  x = S754_zero false
  \/ exists p e, x = S754_finite false p e /\ e <= 0 /\ Z.pos p <= 2 ^ (- e).

End Multiplier.

(** ** The raw quotes *)

(** The tokens of the buy quote before the multiplier:
    [virtualToken - virtualSol * virtualToken / (virtualSol + solIn)]. *)
Definition rawTokensOut (solIn : Z) (bc : BondingCurveData) : Z :=
  VirtualTokenReserves bc
  - VirtualSolReserves bc * VirtualTokenReserves bc
    / (VirtualSolReserves bc + solIn).

(** The SOL of the sell quote before the multiplier:
    [virtualSol * tokensIn / (virtualToken + tokensIn)]. *)
Definition rawSolOut (tokensIn : Z) (bc : BondingCurveData) : Z :=
  VirtualSolReserves bc * tokensIn / (VirtualTokenReserves bc + tokensIn).

Module DemoCreate.

Local Open Scope string_scope.

#[export] Instance library : @CreateLibrary Demo.solana := {|
  FindTokenMetadataAddress := fun (mint : @PublicKey Demo.solana) =>
    Ok (String.append "metadata/" mint, 255);
  createRequiredSigners := fun _ payer => [payer; Demo.mint];
  SendAndConfirmTransaction := fun _ => Response "confirmed"
|}.

(** The ledger of [Demo.client] with the given fee samples. *)
Definition client (fees : list PriorizationFeeResult)
  : @rpc_Client Demo.solana := {|
  GetAccountInfo := fun _ => RpcError ErrNotFound;
  GetAccountInfoWithOpts := fun _ => Response (Some buffer123);
  GetTokenAccountBalance := fun _ => Response "0";
  GetRecentPrioritizationFees := fun _ => Response fees;
  GetLatestBlockhash := Response ("blockhash" : @Hash Demo.solana);
  SendTransaction := fun _ => Response "signature"
|}.

(** The key pair of the new token's mint. *)
Definition mintKey : @PrivateKey Demo.solana := "mint".

End DemoCreate.


(** * Properties *)

(** ** Machine integers and big-integer division *)

Lemma int64_of_uint64_small (x : Z) :
  x < 2 ^ 63 -> GoInt.int64_of_uint64 x = x.
Proof.
  intros H. unfold GoInt.int64_of_uint64.
  destruct (Z.ltb_spec x (2 ^ 63)); lia.
Qed.

Lemma int64_of_uint64_large (x : Z) :
  2 ^ 63 <= x -> GoInt.int64_of_uint64 x = x - 2 ^ 64.
Proof.
  intros H. unfold GoInt.int64_of_uint64.
  destruct (Z.ltb_spec x (2 ^ 63)); lia.
Qed.

Lemma int64_of_uint64_range (x : Z) :
  GoInt.is_uint64 x -> GoInt.is_int64 (GoInt.int64_of_uint64 x).
Proof.
  unfold GoInt.is_uint64, GoInt.is_int64, GoInt.int64_of_uint64.
  intros H. destruct (Z.ltb_spec x (2 ^ 63)); lia.
Qed.

Lemma euclid_div_pos (x y : Z) : 0 < y -> euclid_div x y = x / y.
Proof.
  intros H. unfold euclid_div.
  rewrite Z.sgn_pos, Z.abs_eq by lia. lia.
Qed.

Lemma euclid_div_quot (x y : Z) :
  0 <= x -> 0 < y -> euclid_div x y = Z.quot x y.
Proof.
  intros Hx Hy. rewrite euclid_div_pos by assumption.
  symmetry. apply Z.quot_div_nonneg; assumption.
Qed.

(** The defining property of Euclidean division: a remainder in
    [0, |y|). *)
Lemma euclid_div_spec (x y : Z) :
  y <> 0 -> 0 <= x - y * euclid_div x y < Z.abs y.
Proof.
  intros Hy. unfold euclid_div.
  assert (Ha : 0 < Z.abs y) by lia.
  pose proof (Z.mod_pos_bound x (Z.abs y) Ha) as Hm.
  pose proof (Z.div_mod x (Z.abs y) ltac:(lia)) as Hd.
  assert (Hs : y * Z.sgn y = Z.abs y).
  { destruct y; simpl; lia. }
  replace (y * (Z.sgn y * (x / Z.abs y)))
    with (Z.abs y * (x / Z.abs y)) by (rewrite <- Hs; ring).
  lia.
Qed.

Lemma big_Div_nonzero (x y : Z) :
  y <> 0 -> big_Div x y = Ok (euclid_div x y).
Proof.
  intros H. unfold big_Div. destruct (Z.eqb_spec y 0); [contradiction | reflexivity].
Qed.

Lemma big_Div_zero (x : Z) : big_Div x 0 = Panic DivisionByZero.
Proof. reflexivity. Qed.

(** ** The float step of the quotes *)

Lemma F64_one_eq : F64.one = S754_finite false 4503599627370496 (-52).
Proof. reflexivity. Qed.

Lemma BitLen_pos (m : Z) : 0 < m -> BigFloat.BitLen m = Z.log2 m + 1.
Proof.
  intros H. unfold BigFloat.BitLen.
  rewrite Z.abs_eq by lia.
  destruct (Z.eqb_spec m 0); [lia | reflexivity].
Qed.

Lemma BitLen_abs (m : Z) : BigFloat.BitLen (Z.abs m) = BigFloat.BitLen m.
Proof. unfold BigFloat.BitLen. now rewrite Z.abs_idemp. Qed.

Lemma BitLen_nonneg (m : Z) : 0 <= BigFloat.BitLen m.
Proof.
  unfold BigFloat.BitLen. destruct (Z.abs m =? 0); [lia|].
  pose proof (Z.log2_nonneg (Z.abs m)). lia.
Qed.

Lemma BitLen_mul_pow2 (m j : Z) :
  0 < m -> 0 <= j -> BigFloat.BitLen (m * 2 ^ j) = BigFloat.BitLen m + j.
Proof.
  intros Hm Hj.
  assert (0 < 2 ^ j) by (apply Z.pow_pos_nonneg; lia).
  rewrite !BitLen_pos by nia.
  rewrite Z.log2_mul_pow2 by lia. lia.
Qed.

(** Rounding a mantissa whose discarded bits are all zero is exact. *)
Lemma round_trailing_zeros (prec m j e : Z) :
  0 < m -> 0 <= j -> BigFloat.BitLen (m * 2 ^ j) - prec <= j ->
  exists k, 0 <= k <= j /\
    BigFloat.round prec (m * 2 ^ j) e = (m * 2 ^ (j - k), e + k).
Proof.
  intros Hm Hj Hk. unfold BigFloat.round.
  set (k := BigFloat.BitLen (m * 2 ^ j) - prec) in *.
  destruct (Z.leb_spec k 0) as [Hle | Hgt].
  - exists 0. split; [lia|]. now rewrite Z.sub_0_r, Z.add_0_r.
  - exists k. split; [lia|].
    assert (Hsplit : m * 2 ^ j = (m * 2 ^ (j - k)) * 2 ^ k).
    { rewrite <- Z.mul_assoc, <- Z.pow_add_r by lia. do 2 f_equal. lia. }
    assert (H2k : 0 < 2 ^ k) by (apply Z.pow_pos_nonneg; lia).
    assert (Hhalf : 0 < 2 ^ (k - 1)) by (apply Z.pow_pos_nonneg; lia).
    rewrite Z.shiftr_div_pow2 by lia.
    assert (Hq : m * 2 ^ j / 2 ^ k = m * 2 ^ (j - k))
      by (rewrite Hsplit; apply Z.div_mul; lia).
    assert (Hr : (m * 2 ^ j) mod 2 ^ k = 0)
      by (rewrite Hsplit; apply Z.mod_mul; lia).
    rewrite Hq, Hr.
    destruct (Z.ltb_spec 0 (2 ^ (k - 1))); [reflexivity | lia].
Qed.

(** Multiplying by the float [1.0] and truncating gives the integer
    back, whatever its size and sign. *)
Lemma applyPercentage_one (a : Z) : applyPercentage a F64.one = Ok (Some a).
Proof.
  unfold applyPercentage. rewrite F64_one_eq. cbn [BigFloat.NewFloat bind].
  unfold BigFloat.SetInt.
  destruct (Z.eqb_spec a 0) as [-> | Hne]; [reflexivity|].
  cbn [BigFloat.Mul BigFloat.prec_of].
  assert (Hpos : 0 < Z.abs a) by lia.
  change (Z.pos 4503599627370496) with (2 ^ 52).
  destruct (round_trailing_zeros (Z.max (Z.max (BigFloat.BitLen a) 64) 53)
              (Z.abs a) 52 (0 + -52) Hpos ltac:(lia)) as (k & Hk & Hr).
  { rewrite BitLen_mul_pow2, BitLen_abs by lia. lia. }
  rewrite Hr. cbn [bind BigFloat.Int]. do 2 f_equal.
  assert (Habs : (if 0 <=? 0 + -52 + k
                  then Z.shiftl (Z.abs a * 2 ^ (52 - k)) (0 + -52 + k)
                  else Z.shiftr (Z.abs a * 2 ^ (52 - k)) (- (0 + -52 + k)))
                 = Z.abs a).
  { destruct (Z.leb_spec 0 (0 + -52 + k)).
    - assert (k = 52) by lia. subst k. simpl. lia.
    - rewrite Z.shiftr_div_pow2 by lia.
      replace (- (0 + -52 + k)) with (52 - k) by lia.
      apply Z.div_mul. apply Z.pow_nonzero; lia. }
  rewrite Habs.
  destruct (Z.ltb_spec a 0); cbn [xorb]; lia.
Qed.

(** Multiplying zero by any finite float gives zero. *)
Lemma applyPercentage_zero (m : spec_float) :
  m <> S754_nan -> (forall s, m <> S754_infinity s) ->
  applyPercentage 0 m = Ok (Some 0).
Proof.
  intros Hnan Hinf. destruct m as [s | s | | s mm e]; cbn.
  - reflexivity.
  - now specialize (Hinf s).
  - contradiction.
  - reflexivity.
Qed.

(** ** The quote engine *)

(** Below 2^63 and on a valid snapshot the buy quote is the specified
    constant-product formula. *)
Lemma calculateBuyQuote_formula (solIn : Z) (bc : BondingCurveData)
    (m : spec_float) :
  0 < VirtualSolReserves bc -> 0 < VirtualTokenReserves bc ->
  0 <= solIn < 2 ^ 63 ->
  calculateBuyQuote solIn bc m = quoteBuy solIn bc m.
Proof.
  intros HS HT Hin.
  unfold calculateBuyQuote, buyQuoteBig, quoteBuy.
  rewrite int64_of_uint64_small by lia.
  unfold big_Div.
  destruct (Z.eqb_spec (VirtualSolReserves bc + solIn) 0); [lia|].
  cbn [bind]. rewrite euclid_div_quot by nia. reflexivity.
Qed.

(** Below 2^63 and with positive virtual token reserves the sell quote is
    the specified spot-price formula. *)
Lemma calculateSellQuote_formula (tokensIn : Z) (bc : BondingCurveData)
    (m : spec_float) :
  0 < VirtualTokenReserves bc -> 0 <= tokensIn < 2 ^ 63 ->
  calculateSellQuote tokensIn bc m = quoteSell tokensIn bc m.
Proof.
  intros HT Hin.
  unfold calculateSellQuote, sellQuoteBig, quoteSell.
  rewrite int64_of_uint64_small by lia.
  unfold big_Div.
  destruct (Z.eqb_spec (VirtualTokenReserves bc + tokensIn) 0); [lia|].
  cbn [bind]. rewrite euclid_div_pos by lia. reflexivity.
Qed.

Example calculateBuyQuote_example :
  calculateBuyQuote 1000 (mkCurve 0 1000000000 1000000) F64.one
  = Ok (Some (1000000000 - 1000000000000000 / 1001000)).
Proof. reflexivity. Qed.

(** The integer core of the round trip: selling back the tokens bought
    for [s] returns at most [s] when tokens are not dearer than SOL. *)
Lemma roundtrip_core (V T s : Z) :
  0 < V -> V <= T -> 0 <= s ->
  V * (T - V * T / (V + s)) / (T + (T - V * T / (V + s))) <= s.
Proof.
  intros HV HVT Hs.
  set (D := V + s). set (n := V * T / D). set (t := T - n).
  assert (HD : 0 < D) by (unfold D; lia).
  pose proof (Z.div_mod (V * T) D ltac:(lia)) as Hdm.
  pose proof (Z.mod_pos_bound (V * T) D HD) as Hr.
  fold n in Hdm. set (r := (V * T) mod D) in *.
  assert (Hn0 : 0 <= n) by (apply Z.div_pos; nia).
  assert (HnT : n <= T).
  { unfold n. apply Z.div_le_upper_bound; [lia|]. unfold D. nia. }
  assert (Ht0 : 0 <= t) by (unfold t; lia).
  assert (HtD : t * D = T * s + r) by (unfold t, D in *; nia).
  assert (Hy : 0 < T + t) by lia.
  apply Z.lt_succ_r. apply Z.div_lt_upper_bound; [lia|].
  (* V * t < (T + t) * (s + 1), proved after multiplying by D *)
  assert (Hmul : D * (V * t) < D * ((T + t) * Z.succ s)).
  { replace (D * (V * t)) with (V * (t * D)) by ring.
    replace (D * ((T + t) * Z.succ s)) with ((T * D + t * D) * (s + 1)) by ring.
    rewrite HtD. unfold D in *. nia. }
  nia.
Qed.

(** The quotes panic exactly when the divisor they compute is zero. *)
Lemma buyQuoteBig_zero_divisor (a : Z) (bc : BondingCurveData) (m : spec_float) :
  VirtualSolReserves bc + a = 0 -> buyQuoteBig a bc m = Panic DivisionByZero.
Proof. intros H. unfold buyQuoteBig. rewrite H. reflexivity. Qed.

Lemma sellQuoteBig_zero_divisor (a : Z) (bc : BondingCurveData) (m : spec_float) :
  VirtualTokenReserves bc + a = 0 -> sellQuoteBig a bc m = Panic DivisionByZero.
Proof. intros H. unfold sellQuoteBig. rewrite H. reflexivity. Qed.

(** C6. Whenever the divisor of a quote is zero, the quote fails with the
    division-by-zero panic of the big-integer division: in the buy quote
    when the new virtual SOL reserves are zero, in the sell quote when the
    virtual token reserves plus the amount are zero; this covers the
    uninitialised snapshot with a zero amount. *)
Theorem quote_division_by_zero (bc : BondingCurveData) (m : spec_float) :
  (forall solIn,
      VirtualSolReserves bc + GoInt.int64_of_uint64 solIn = 0 ->
      calculateBuyQuote solIn bc m = Panic DivisionByZero)
  /\ (forall tokensIn,
      VirtualTokenReserves bc + GoInt.int64_of_uint64 tokensIn = 0 ->
      calculateSellQuote tokensIn bc m = Panic DivisionByZero)
  /\ (forall solIn,
      0 <= VirtualSolReserves bc -> GoInt.is_uint64 solIn ->
      VirtualSolReserves bc + solIn = 0 ->
      calculateBuyQuote solIn bc m = Panic DivisionByZero)
  /\ (forall tokensIn,
      0 <= VirtualTokenReserves bc -> GoInt.is_uint64 tokensIn ->
      VirtualTokenReserves bc + tokensIn = 0 ->
      calculateSellQuote tokensIn bc m = Panic DivisionByZero).
Proof.
  repeat split.
  - intros solIn H. now apply buyQuoteBig_zero_divisor.
  - intros tokensIn H. now apply sellQuoteBig_zero_divisor.
  - intros solIn HS [H0 _] H. apply buyQuoteBig_zero_divisor.
    rewrite int64_of_uint64_small by lia. assumption.
  - intros tokensIn HT [H0 _] H. apply sellQuoteBig_zero_divisor.
    rewrite int64_of_uint64_small by lia. assumption.
Qed.

(** C1. At the amount 2^64 - 1, a well-formed [uint64], the buy quote is
    computed with the amount -1: on the snapshot with virtual SOL 2 and
    virtual tokens 3 it returns -3, where the specified formula gives 3. *)
Theorem calculateBuyQuote_wraps_large_amount :
  calculateBuyQuote (2 ^ 64 - 1) (mkCurve 0 3 2) F64.one = Ok (Some (-3))
  /\ quoteBuy (2 ^ 64 - 1) (mkCurve 0 3 2) F64.one = Ok (Some 3).
Proof. split; reflexivity. Qed.

(** C2. At the amount 2^64 - 1, a well-formed [uint64], the sell quote is
    computed with the amount -1: on the snapshot with virtual SOL 2 and
    virtual tokens 3 it returns -1, where the specified formula gives 1. *)
Theorem calculateSellQuote_wraps_large_amount :
  calculateSellQuote (2 ^ 64 - 1) (mkCurve 0 3 2) F64.one = Ok (Some (-1))
  /\ quoteSell (2 ^ 64 - 1) (mkCurve 0 3 2) F64.one = Ok (Some 1).
Proof. split; reflexivity. Qed.

(** C10. The trade amount reaches the big-integer arithmetic through a
    signed 64-bit conversion: below 2^63 it is unchanged, from 2^63 on it
    is the amount minus 2^64, a negative number, and both quotes are
    computed with that converted amount; so on a valid snapshot the
    specified formulas hold for amounts below 2^63, and they fail for
    some amount from 2^63 on. *)
Theorem quote_amount_conversion (amount : Z) (bc : BondingCurveData)
    (m : spec_float) :
  GoInt.is_uint64 amount ->
  (amount < 2 ^ 63 -> GoInt.int64_of_uint64 amount = amount)
  /\ (2 ^ 63 <= amount ->
      GoInt.int64_of_uint64 amount = amount - 2 ^ 64
      /\ GoInt.int64_of_uint64 amount < 0
      /\ calculateBuyQuote amount bc m = buyQuoteBig (amount - 2 ^ 64) bc m
      /\ calculateSellQuote amount bc m = sellQuoteBig (amount - 2 ^ 64) bc m)
  /\ (amount < 2 ^ 63 ->
      0 < VirtualSolReserves bc -> 0 < VirtualTokenReserves bc ->
      calculateBuyQuote amount bc m = quoteBuy amount bc m
      /\ calculateSellQuote amount bc m = quoteSell amount bc m)
  /\ (exists a c,
        2 ^ 63 <= a < 2 ^ 64
        /\ 0 < VirtualSolReserves c /\ 0 < VirtualTokenReserves c
        /\ calculateBuyQuote a c F64.one <> quoteBuy a c F64.one
        /\ calculateSellQuote a c F64.one <> quoteSell a c F64.one).
Proof.
  intros [H0 H64]. repeat split.
  - intros H. now apply int64_of_uint64_small.
  - now apply int64_of_uint64_large.
  - rewrite int64_of_uint64_large by assumption. lia.
  - unfold calculateBuyQuote. now rewrite int64_of_uint64_large.
  - unfold calculateSellQuote. now rewrite int64_of_uint64_large.
  - apply calculateBuyQuote_formula; lia.
  - apply calculateSellQuote_formula; lia.
  - exists (2 ^ 64 - 1), (mkCurve 0 3 2). cbn [VirtualSolReserves VirtualTokenReserves mkCurve].
    repeat split; try lia; vm_compute; discriminate.
Qed.

Lemma quote_amount_conversion_witness :
  GoInt.int64_of_uint64 (2 ^ 63) = 2 ^ 63 - 2 ^ 64
  /\ calculateBuyQuote 1000 (mkCurve 0 1000000000 1000000) F64.one
     = quoteBuy 1000 (mkCurve 0 1000000000 1000000) F64.one.
Proof.
  split.
  - apply (quote_amount_conversion (2 ^ 63) (mkCurve 0 3 2) F64.one);
      unfold GoInt.is_uint64; lia.
  - apply (quote_amount_conversion 1000 (mkCurve 0 1000000000 1000000) F64.one);
      unfold GoInt.is_uint64; simpl; lia.
Defined.

(** ** The round trip *)

Lemma big_Uint64_small (v : Z) : 0 <= v < 2 ^ 64 -> GoInt.big_Uint64 v = v.
Proof.
  intros H. unfold GoInt.big_Uint64.
  rewrite Z.abs_eq by lia. apply Z.mod_small. assumption.
Qed.

(** The tokens bought for an amount below 2^63 on a valid snapshot. *)
Lemma buy_tokens_range (V T s : Z) :
  0 < V -> 0 < T -> 0 <= s ->
  0 <= T - Z.quot (V * T) (V + s) <= T.
Proof.
  intros HV HT Hs.
  rewrite Z.quot_div_nonneg by nia.
  assert (0 <= V * T / (V + s)) by (apply Z.div_pos; nia).
  assert (V * T / (V + s) <= T).
  { apply Z.div_le_upper_bound; [lia | nia]. }
  lia.
Qed.

(** C4 as stated fails: with virtual SOL 10, virtual tokens 3 and 1 unit
    of SOL in, the buy quote is 1 token and selling it back quotes 2. *)
Lemma roundtrip_counterexample :
  ~ (forall bc solIn,
        0 < VirtualSolReserves bc -> 0 < VirtualTokenReserves bc ->
        GoInt.is_uint64 solIn ->
        forall sol, roundTrip solIn bc = Ok (Some sol) -> sol <= solIn).
Proof.
  intros H.
  specialize (H (mkCurve 0 3 10) 1).
  cbn [VirtualSolReserves VirtualTokenReserves mkCurve] in H.
  specialize (H ltac:(lia) ltac:(lia) ltac:(unfold GoInt.is_uint64; lia) 2 eq_refl).
  lia.
Qed.

(** C4, amended. On a snapshot whose virtual SOL reserves are positive and
    at most its virtual token reserves (themselves below 2^64), and for an
    amount below 2^63, buying and selling the quoted tokens back against
    the same snapshot at multiplier 1.0 returns a quote, and it is at most
    the amount that went in. *)
Theorem roundtrip_bounded (bc : BondingCurveData) (solIn : Z) :
  0 < VirtualSolReserves bc ->
  VirtualSolReserves bc <= VirtualTokenReserves bc ->
  VirtualTokenReserves bc < 2 ^ 64 ->
  0 <= solIn < 2 ^ 63 ->
  exists sol, roundTrip solIn bc = Ok (Some sol) /\ sol <= solIn.
Proof.
  intros HV HVT HT64 Hs. unfold roundTrip.
  rewrite calculateBuyQuote_formula by lia.
  unfold quoteBuy.
  destruct (Z.eqb_spec (VirtualSolReserves bc + solIn) 0); [lia|].
  rewrite applyPercentage_one. cbn [bind].
  set (V := VirtualSolReserves bc) in *. set (T := VirtualTokenReserves bc) in *.
  pose proof (buy_tokens_range V T solIn HV ltac:(lia) ltac:(lia)) as Ht.
  rewrite big_Uint64_small by lia.
  set (t := T - Z.quot (V * T) (V + solIn)) in *.
  destruct (Z.lt_ge_cases t (2 ^ 63)) as [Hlt | Hge].
  - rewrite calculateSellQuote_formula by (fold T; lia).
    unfold quoteSell. fold V T.
    destruct (Z.eqb_spec (T + t) 0); [lia|].
    rewrite applyPercentage_one. eexists. split; [reflexivity|].
    unfold t. rewrite Z.quot_div_nonneg by nia.
    apply roundtrip_core; lia.
  - unfold calculateSellQuote, sellQuoteBig. fold V T.
    rewrite int64_of_uint64_large by lia.
    assert (Hn : 1 <= Z.quot (V * T) (V + solIn)).
    { rewrite Z.quot_div_nonneg by nia.
      apply Z.div_le_lower_bound; nia. }
    assert (Hy : 0 < T + (t - 2 ^ 64)) by (unfold t in *; lia).
    rewrite big_Div_nonzero by lia. cbn [bind].
    rewrite applyPercentage_one. eexists. split; [reflexivity|].
    rewrite euclid_div_pos by lia.
    assert (V * (t - 2 ^ 64) / (T + (t - 2 ^ 64)) < 0).
    { apply Z.div_lt_upper_bound; nia. }
    lia.
Qed.

Lemma roundtrip_bounded_witness :
  exists sol, roundTrip 1000 (mkCurve 0 1000000000 1000000) = Ok (Some sol)
              /\ sol <= 1000.
Proof.
  apply (roundtrip_bounded (mkCurve 0 1000000000 1000000) 1000);
    cbn [VirtualSolReserves VirtualTokenReserves mkCurve]; lia.
Defined.


(** ** The reserve decoder *)

Lemma u64_range (b : byte) : 0 <= u64 b < 2 ^ 8.
Proof.
  unfold u64. pose proof (Byte.to_N_bounded b). change (2 ^ 8) with 256. lia.
Qed.

(** An OR of two numbers with no common bit is their sum. *)
Lemma lor_disjoint (a c k : Z) :
  0 <= k -> 0 <= a < 2 ^ k -> Z.lor a (c * 2 ^ k) = a + c * 2 ^ k.
Proof.
  intros Hk Ha.
  rewrite <- Z.add_lor_land.
  assert (Hland : Z.land a (c * 2 ^ k) = 0).
  { apply Z.bits_inj'. intros n Hn.
    rewrite Z.land_spec, Z.bits_0.
    destruct (Z.lt_ge_cases n k) as [Hlt | Hge].
    - rewrite Z.mul_pow2_bits_low by lia. apply andb_false_r.
    - destruct (Z.eq_dec a 0) as [-> | Hne].
      + now rewrite Z.bits_0.
      + assert (Z.log2 a < k) by (apply Z.log2_lt_pow2; lia).
        rewrite (Z.bits_above_log2 a n) by lia. reflexivity. }
  rewrite Hland. lia.
Qed.

Lemma le_value_range (bs : list byte) :
  0 <= le_value bs < 2 ^ (8 * Z.of_nat (List.length bs)).
Proof.
  induction bs as [| b bs IH].
  - simpl. lia.
  - cbn [le_value List.length]. pose proof (u64_range b) as Hb.
    replace (8 * Z.of_nat (S (List.length bs)))
      with (8 + 8 * Z.of_nat (List.length bs)) by lia.
    rewrite Z.pow_add_r by lia. change (2 ^ 8) with 256 in *. nia.
Qed.

(** The shifts and ORs of [binary.LittleEndian.Uint64] compute the
    little-endian value of the first eight bytes. *)
Lemma LittleEndian_Uint64_value (b0 b1 b2 b3 b4 b5 b6 b7 : byte)
    (rest : list byte) :
  LittleEndian_Uint64 (b0 :: b1 :: b2 :: b3 :: b4 :: b5 :: b6 :: b7 :: rest)
  = Ok (le_value [b0; b1; b2; b3; b4; b5; b6; b7]).
Proof.
  cbn [LittleEndian_Uint64 le_value]. f_equal.
  pose proof (u64_range b0). pose proof (u64_range b1).
  pose proof (u64_range b2). pose proof (u64_range b3).
  pose proof (u64_range b4). pose proof (u64_range b5).
  pose proof (u64_range b6). pose proof (u64_range b7).
  rewrite !Z.shiftl_mul_pow2 by lia.
  change (2 ^ 8) with 256 in *.
  replace (u64 b6 * 2 ^ 48) with (u64 b6 * 2 ^ 48 + 0) by lia.
  rewrite (lor_disjoint (u64 b6 * 2 ^ 48 + 0) (u64 b7) 56) by lia.
  replace (u64 b6 * 2 ^ 48 + 0 + u64 b7 * 2 ^ 56)
    with ((u64 b6 + 256 * u64 b7) * 2 ^ 48) by lia.
  rewrite (lor_disjoint (u64 b5 * 2 ^ 40) _ 48) by lia.
  replace (u64 b5 * 2 ^ 40 + (u64 b6 + 256 * u64 b7) * 2 ^ 48)
    with ((u64 b5 + 256 * (u64 b6 + 256 * u64 b7)) * 2 ^ 40) by lia.
  rewrite (lor_disjoint (u64 b4 * 2 ^ 32) _ 40) by lia.
  replace (u64 b4 * 2 ^ 32 + (u64 b5 + 256 * (u64 b6 + 256 * u64 b7)) * 2 ^ 40)
    with ((u64 b4 + 256 * (u64 b5 + 256 * (u64 b6 + 256 * u64 b7))) * 2 ^ 32)
    by lia.
  rewrite (lor_disjoint (u64 b3 * 2 ^ 24) _ 32) by lia.
  replace (u64 b3 * 2 ^ 24
           + (u64 b4 + 256 * (u64 b5 + 256 * (u64 b6 + 256 * u64 b7))) * 2 ^ 32)
    with ((u64 b3 + 256 * (u64 b4 + 256 * (u64 b5
            + 256 * (u64 b6 + 256 * u64 b7)))) * 2 ^ 24) by lia.
  rewrite (lor_disjoint (u64 b2 * 2 ^ 16) _ 24) by lia.
  replace (u64 b2 * 2 ^ 16
           + (u64 b3 + 256 * (u64 b4 + 256 * (u64 b5
               + 256 * (u64 b6 + 256 * u64 b7)))) * 2 ^ 24)
    with ((u64 b2 + 256 * (u64 b3 + 256 * (u64 b4 + 256 * (u64 b5
            + 256 * (u64 b6 + 256 * u64 b7))))) * 2 ^ 16) by lia.
  rewrite (lor_disjoint (u64 b1 * 2 ^ 8) _ 16) by lia.
  replace (u64 b1 * 2 ^ 8
           + (u64 b2 + 256 * (u64 b3 + 256 * (u64 b4 + 256 * (u64 b5
               + 256 * (u64 b6 + 256 * u64 b7))))) * 2 ^ 16)
    with ((u64 b1 + 256 * (u64 b2 + 256 * (u64 b3 + 256 * (u64 b4
            + 256 * (u64 b5 + 256 * (u64 b6 + 256 * u64 b7)))))) * 2 ^ 8)
    by lia.
  rewrite (lor_disjoint (u64 b0) _ 8) by lia.
  lia.
Qed.

Ltac split_byte data :=
  destruct data as [| ? data]; [cbn [List.length] in *; lia |].

Lemma decodeReserves_short (data : list byte) :
  (List.length data < 24)%nat -> decodeReserves data = Err InsufficientDataError.
Proof.
  intros H. unfold decodeReserves.
  destruct (Nat.ltb_spec (List.length data) 24); [reflexivity | lia].
Qed.

Lemma decodeReserves_long (data : list byte) :
  (24 <= List.length data)%nat ->
  decodeReserves data
  = Ok {| RealTokenReserves := le_uint64_at data 0;
          VirtualTokenReserves := le_uint64_at data 8;
          VirtualSolReserves := le_uint64_at data 16 |}.
Proof.
  intros H. do 24 split_byte data.
  unfold decodeReserves, slice, le_uint64_at.
  cbn [List.length Nat.ltb Nat.leb firstn skipn Nat.sub bind].
  rewrite !LittleEndian_Uint64_value. reflexivity.
Qed.

Lemma le_uint64_at_range (data : list byte) (off : nat) :
  GoInt.is_uint64 (le_uint64_at data off).
Proof.
  unfold GoInt.is_uint64, le_uint64_at.
  pose proof (le_value_range (firstn 8 (skipn off data))) as [H0 H1].
  split; [assumption|].
  eapply Z.lt_le_trans; [exact H1|].
  apply Z.pow_le_mono_r; [lia|].
  pose proof (firstn_le_length 8 (skipn off data)). lia.
Qed.

Lemma le_uint64_at_app (data extra : list byte) (off : nat) :
  (off + 8 <= List.length data)%nat ->
  le_uint64_at (data ++ extra) off = le_uint64_at data off.
Proof.
  intros H. unfold le_uint64_at. f_equal.
  rewrite skipn_app, firstn_app.
  rewrite length_skipn.
  replace (8 - (List.length data - off))%nat with 0%nat by lia.
  cbn [firstn]. apply app_nil_r.
Qed.

(** C5. The decoder fails, with the insufficient-data error, exactly on
    inputs shorter than 24 bytes; on any longer input it returns the three
    unsigned little-endian 64-bit integers at bytes 0-7 (real token
    reserves), 8-15 (virtual token reserves) and 16-23 (virtual SOL
    reserves), whatever follows byte 23; the buffer holding 1, 2, 3
    decodes to real = 1, virtual token = 2, virtual SOL = 3, and its
    first 23 bytes are refused. *)
Theorem decodeReserves_spec :
  (forall data,
      decodeReserves data = Err InsufficientDataError
      <-> (List.length data < 24)%nat)
  /\ (forall data,
      (24 <= List.length data)%nat ->
      decodeReserves data
      = Ok {| RealTokenReserves := le_uint64_at data 0;
              VirtualTokenReserves := le_uint64_at data 8;
              VirtualSolReserves := le_uint64_at data 16 |}
      /\ GoInt.is_uint64 (le_uint64_at data 0)
      /\ GoInt.is_uint64 (le_uint64_at data 8)
      /\ GoInt.is_uint64 (le_uint64_at data 16))
  /\ (forall data extra,
      (24 <= List.length data)%nat ->
      decodeReserves (data ++ extra) = decodeReserves data)
  /\ decodeReserves buffer123 = Ok (mkCurve 1 2 3)
  /\ decodeReserves (firstn 23 buffer123) = Err InsufficientDataError.
Proof.
  split; [| split; [| split; [| split]]].
  - intros data. split.
    + intros H.
      destruct (Nat.lt_ge_cases (List.length data) 24) as [Hlt | Hge];
        [assumption|].
      rewrite decodeReserves_long in H by assumption. discriminate.
    + apply decodeReserves_short.
  - intros data H. split; [now apply decodeReserves_long|].
    repeat split; apply le_uint64_at_range.
  - intros data extra H.
    rewrite !decodeReserves_long by (rewrite ?length_app; lia).
    rewrite !le_uint64_at_app by lia. reflexivity.
  - reflexivity.
  - reflexivity.
Qed.

(** ** The priority-fee estimator *)

(** What the loop and the division of [getComputUnitPriceInstr] compute
    on a non-empty response: the last sample divided by the number of
    samples. *)
Lemma computeUnitPrice_last (out : list PriorizationFeeResult)
    (fee : PriorizationFeeResult) :
  computeUnitPrice (out ++ [fee])
  = Ok (PrioritizationFee fee / Z.of_nat (List.length out + 1)).
Proof.
  unfold computeUnitPrice. rewrite fold_left_app, length_app.
  cbn [fold_left List.length].
  destruct (Z.eqb_spec (Z.of_nat (List.length out + 1)) 0); [lia | reflexivity].
Qed.

(** C3. On the samples 10 and 20 the estimator returns 10, the last
    sample divided by the count, where the arithmetic mean is 15; on the
    empty sequence it divides by zero and panics instead of returning a
    no-fee-data error. *)
Theorem computeUnitPrice_not_mean :
  computeUnitPrice [feeSample 10; feeSample 20] = Ok 10
  /\ estimatePriorityFee [10; 20] = Ok 15
  /\ computeUnitPrice [] = Panic IntegerDivideByZero
  /\ estimatePriorityFee [] = Err NoFeeDataError.
Proof. repeat split. Qed.


(** ** Binary64 arithmetic: structure of the rounding *)

Module F64Facts.

Import Rounding.


Lemma fexp64_eq (e : Z) : fexp64 e = Z.max (e - 53) (-1074).
Proof. reflexivity. Qed.

Lemma digits2_pos_size (p : positive) : digits2_pos p = Pos.size p.
Proof. induction p; simpl; congruence. Qed.

Lemma Zdigits2_log2 (m : Z) : 0 < m -> Zdigits2 m = Z.log2 m + 1.
Proof.
  intros H. destruct m as [| p | p]; try lia.
  unfold Zdigits2. rewrite digits2_pos_size.
  destruct p; simpl; lia.
Qed.

Lemma Zdigits2_0 : Zdigits2 0 = 0.
Proof. reflexivity. Qed.

Lemma Zdigits2_nonneg (m : Z) : 0 <= Zdigits2 m.
Proof. destruct m; simpl; lia. Qed.

(** [m] has at most [d] binary digits exactly when it is below [2^d]. *)
Lemma Zdigits2_le (m d : Z) :
  0 <= m -> 0 <= d -> m < 2 ^ d -> Zdigits2 m <= d.
Proof.
  intros Hm Hd Hlt.
  destruct (Z.eq_dec m 0) as [-> | Hne]; [simpl; lia|].
  rewrite Zdigits2_log2 by lia.
  assert (Z.log2 m < d) by (apply Z.log2_lt_pow2; lia). lia.
Qed.

Lemma Zdigits2_lower (m : Z) : 0 < m -> 2 ^ (Zdigits2 m - 1) <= m.
Proof.
  intros H. rewrite Zdigits2_log2 by lia.
  replace (Z.log2 m + 1 - 1) with (Z.log2 m) by lia.
  apply Z.log2_spec. assumption.
Qed.

Lemma Zdigits2_upper (m : Z) : 0 <= m -> m < 2 ^ Zdigits2 m.
Proof.
  intros H. destruct (Z.eq_dec m 0) as [-> | Hne]; [simpl; lia|].
  rewrite Zdigits2_log2 by lia.
  replace (Z.log2 m + 1) with (Z.succ (Z.log2 m)) by lia.
  apply Z.log2_spec. lia.
Qed.

Lemma Zdigits2_ge (m d : Z) : 0 < m -> 2 ^ (d - 1) <= m -> d <= Zdigits2 m.
Proof.
  intros Hm Hle.
  destruct (Z.lt_ge_cases (Zdigits2 m) d) as [Hlt | Hge]; [| assumption].
  pose proof (Zdigits2_upper m ltac:(lia)) as Hu.
  pose proof (Zdigits2_nonneg m).
  assert (2 ^ Zdigits2 m <= 2 ^ (d - 1)) by (apply Z.pow_le_mono_r; lia).
  lia.
Qed.

(** *** Right shifts of the rounding record *)

Lemma shr_1_m (mrs : shr_record) :
  0 <= shr_m mrs -> shr_m (shr_1 mrs) = shr_m mrs / 2.
Proof.
  destruct mrs as [m r s]. cbn [shr_m]. intros H.
  destruct m as [| p | p]; [reflexivity | | lia].
  destruct p as [p | p |]; cbn [shr_1 shr_m].
  - rewrite Pos2Z.inj_xI. rewrite Z.add_comm, Z.mul_comm, Z.div_add by lia.
    reflexivity.
  - rewrite Pos2Z.inj_xO. rewrite Z.mul_comm, Z.div_mul by lia. reflexivity.
  - reflexivity.
Qed.

Lemma iter_shr_1_m (p : positive) (mrs : shr_record) :
  0 <= shr_m mrs ->
  shr_m (iter_pos shr_1 p mrs) = shr_m mrs / 2 ^ Z.pos p.
Proof.
  revert mrs. induction p as [p IH | p IH |]; intros mrs H; cbn [iter_pos].
  - assert (H1 : 0 <= shr_m (shr_1 mrs)).
    { rewrite shr_1_m by assumption. apply Z.div_pos; lia. }
    assert (H2 : 0 <= shr_m (iter_pos shr_1 p (shr_1 mrs))).
    { rewrite IH by assumption. apply Z.div_pos; [lia|].
      apply Z.pow_pos_nonneg; lia. }
    rewrite IH, IH, shr_1_m by assumption.
    rewrite !Z.div_div by (try apply Z.pow_pos_nonneg; lia).
    f_equal.
    assert (E : Z.pos p~1 = 1 + Z.pos p + Z.pos p) by lia.
    rewrite E, !Z.pow_add_r by lia. lia.
  - assert (H2 : 0 <= shr_m (iter_pos shr_1 p mrs)).
    { rewrite IH by assumption. apply Z.div_pos; [lia|].
      apply Z.pow_pos_nonneg; lia. }
    rewrite IH, IH by assumption.
    rewrite !Z.div_div by (try apply Z.pow_pos_nonneg; lia).
    f_equal.
    assert (E : Z.pos p~0 = Z.pos p + Z.pos p) by lia.
    rewrite E, !Z.pow_add_r by lia. lia.
  - rewrite shr_1_m by assumption. reflexivity.
Qed.

Lemma shr_spec (mrs : shr_record) (e n : Z) :
  0 <= shr_m mrs ->
  shr_m (fst (shr mrs e n)) = shr_m mrs / 2 ^ Z.max 0 n
  /\ snd (shr mrs e n) = e + Z.max 0 n.
Proof.
  intros H. destruct n as [| p | p]; cbn [shr fst snd].
  - rewrite Z.max_id, Z.div_1_r. lia.
  - rewrite Z.max_r by lia. split; [now apply iter_shr_1_m | reflexivity].
  - rewrite Z.max_l by lia. rewrite Z.div_1_r. lia.
Qed.

Lemma shr_record_of_loc_m (m : Z) (l : location) :
  shr_m (shr_record_of_loc m l) = m.
Proof. destruct l as [| []]; reflexivity. Qed.

Lemma round_nearest_even_range (m : Z) (l : location) :
  m <= round_nearest_even m l <= m + 1.
Proof.
  destruct l as [| []]; cbn [round_nearest_even]; try lia.
  destruct (Z.even m); lia.
Qed.

(** *** The two-step rounding [binary_round_aux] *)



Lemma loc_of_shr_record_of_loc (m : Z) (l : location) :
  loc_of_shr_record (shr_record_of_loc m l) = l.
Proof. destruct l as [| []]; reflexivity. Qed.

Lemma shr_nonpos (mrs : shr_record) (e n : Z) :
  n <= 0 -> shr mrs e n = (mrs, e).
Proof. intros H. destruct n; try reflexivity. lia. Qed.

Lemma binary_round_aux_shape (s : bool) (mx ex : Z) (lx : location) :
  0 <= mx ->
  exists mr,
    let n1 := shift_of mx ex in
    let n2 := shift_of mr (ex + n1) in
    mx / 2 ^ n1 <= mr <= mx / 2 ^ n1 + 1
    /\ (n1 = 0 -> mr = round_nearest_even mx lx)
    /\ binary_round_aux 53 1024 s mx ex lx
       = build s (mr / 2 ^ n2) (ex + n1 + n2).
Proof.
  intros Hmx. unfold binary_round_aux, shr_fexp. fold fexp64.
  pose proof (shr_spec (shr_record_of_loc mx lx) ex
                (fexp64 (Zdigits2 mx + ex) - ex)) as H1.
  rewrite shr_record_of_loc_m in H1. specialize (H1 Hmx).
  assert (Hexact : shift_of mx ex = 0 ->
            shr (shr_record_of_loc mx lx) ex (fexp64 (Zdigits2 mx + ex) - ex)
            = (shr_record_of_loc mx lx, ex)).
  { unfold shift_of. intros H0. apply shr_nonpos. lia. }
  destruct (shr (shr_record_of_loc mx lx) ex (fexp64 (Zdigits2 mx + ex) - ex))
    as [mrs' e'] eqn:E1.
  cbn [fst snd] in H1. destruct H1 as [Hm1 He1].
  set (mr := round_nearest_even (shr_m mrs') (loc_of_shr_record mrs')).
  pose proof (round_nearest_even_range (shr_m mrs') (loc_of_shr_record mrs'))
    as Hmr. fold mr in Hmr.
  assert (H2n : 0 < 2 ^ Z.max 0 (fexp64 (Zdigits2 mx + ex) - ex))
    by (apply Z.pow_pos_nonneg; lia).
  assert (Hm1pos : 0 <= shr_m mrs') by (rewrite Hm1; apply Z.div_pos; lia).
  pose proof (shr_spec (shr_record_of_loc mr loc_Exact) e'
                (fexp64 (Zdigits2 mr + e') - e')) as H2.
  rewrite shr_record_of_loc_m in H2. specialize (H2 ltac:(lia)).
  destruct (shr (shr_record_of_loc mr loc_Exact) e'
              (fexp64 (Zdigits2 mr + e') - e')) as [mrs'' e''] eqn:E2.
  cbn [fst snd] in H2. destruct H2 as [Hm2 He2].
  exists mr. cbn zeta. unfold shift_of.
  rewrite <- He1, <- Hm1. split; [exact Hmr|]. split.
  - intros H0. specialize (Hexact H0). injection Hexact as Hrec _.
    unfold mr. rewrite Hrec.
    now rewrite shr_record_of_loc_m, loc_of_shr_record_of_loc.
  - rewrite <- He2, <- Hm2. reflexivity.
Qed.


Lemma div_pow2_bounds (m d n b : Z) :
  0 <= n -> 0 < b -> d = b + n ->
  2 ^ (d - 1) <= m < 2 ^ d -> 2 ^ (b - 1) <= m / 2 ^ n < 2 ^ b.
Proof.
  intros Hn Hb -> [Hlo Hhi].
  assert (H2n : 0 < 2 ^ n) by (apply Z.pow_pos_nonneg; lia).
  split.
  - apply Z.div_le_lower_bound; [lia|].
    rewrite <- Z.pow_add_r by lia.
    replace (n + (b - 1)) with (b + n - 1) by lia. assumption.
  - apply Z.div_lt_upper_bound; [lia|].
    rewrite <- Z.pow_add_r by lia.
    replace (n + b) with (b + n) by lia. assumption.
Qed.

(** Rounding a mantissa of at least 53 bits, in the normal range: the
    result keeps the 53 leading bits, rounded up by at most one unit; a
    carry out of the mantissa moves the exponent up by one. *)
Lemma binary_round_aux_normal (s : bool) (mx ex : Z) (lx : location) :
  let d := Zdigits2 mx in
  let n := d - 53 in
  0 < mx -> 53 <= d -> -1074 <= ex + n -> ex + n + 1 <= 971 ->
  exists m2 e2,
    normal (binary_round_aux 53 1024 s mx ex lx) s m2 e2
    /\ ((e2 = ex + n /\ mx / 2 ^ n <= m2 <= mx / 2 ^ n + 1)
        \/ (e2 = ex + n + 1 /\ m2 = 2 ^ 52 /\ mx / 2 ^ n = 2 ^ 53 - 1))
    /\ (d = 53 -> lx = loc_Exact -> m2 = mx /\ e2 = ex).
Proof.
  intros d n Hmx Hd Hlo Hhi.
  destruct (binary_round_aux_shape s mx ex lx ltac:(lia))
    as (mr & Hmr & Hex & Hres).
  cbn zeta in *.
  assert (Hn1 : shift_of mx ex = n).
  { unfold shift_of. rewrite fexp64_eq. fold d. lia. }
  rewrite Hn1 in *.
  pose proof (Zdigits2_lower mx Hmx) as Hl.
  pose proof (Zdigits2_upper mx ltac:(lia)) as Hu. fold d in Hl, Hu.
  pose proof (div_pow2_bounds mx d n 53 ltac:(lia) ltac:(lia) ltac:(lia)
                (conj Hl Hu)) as Hm1.
  change (2 ^ (53 - 1)) with (2 ^ 52) in Hm1.
  destruct (Z.lt_ge_cases mr (2 ^ 53)) as [Hlt | Hge].
  - assert (Hdr : Zdigits2 mr = 53).
    { apply Z.le_antisymm.
      - apply Zdigits2_le; lia.
      - apply Zdigits2_ge; [lia|]. change (2 ^ (53 - 1)) with (2 ^ 52). lia. }
    assert (Hn2 : shift_of mr (ex + n) = 0).
    { unfold shift_of. rewrite fexp64_eq, Hdr. lia. }
    rewrite Hn2, Z.pow_0_r, Z.div_1_r, Z.add_0_r in Hres.
    exists mr, (ex + n). split; [| split].
    + destruct mr as [| p | p]; try lia.
      exists p. unfold build in Hres.
      destruct (Z.leb_spec (ex + n) (1024 - 53)); [| lia].
      repeat split; try assumption; lia.
    + left. lia.
    + intros Hd53 ->. assert (n = 0) by lia.
      specialize (Hex ltac:(assumption)). cbn [round_nearest_even] in Hex.
      lia.
  - assert (Hmr53 : mr = 2 ^ 53) by lia.
    assert (Hdr : Zdigits2 mr = 54) by (rewrite Hmr53; reflexivity).
    assert (Hn2 : shift_of mr (ex + n) = 1).
    { unfold shift_of. rewrite fexp64_eq, Hdr. lia. }
    rewrite Hn2, Hmr53 in Hres.
    change (2 ^ 53 / 2 ^ 1) with (2 ^ 52) in Hres.
    exists (2 ^ 52), (ex + n + 1). split; [| split].
    + exists (4503599627370496)%positive. unfold build in Hres.
      change (2 ^ 52) with (Z.pos 4503599627370496) in Hres.
      cbv iota in Hres.
      destruct (Z.leb_spec (ex + n + 1) (1024 - 53)); [| lia].
      repeat split; try assumption; lia.
    + right. lia.
    + intros Hd53 ->. assert (n = 0) by lia.
      specialize (Hex ltac:(assumption)). cbn [round_nearest_even] in Hex.
      assert (mx < 2 ^ 53) by (rewrite <- Hd53; exact Hu).
      lia.
Qed.

(** *** Alignment and [binary_round] *)

Lemma iter_xO_pow2 (m d : positive) :
  Z.pos (Pos.iter xO m d) = Z.pos m * 2 ^ Z.pos d.
Proof.
  induction d as [| d IH] using Pos.peano_ind.
  - cbn [Pos.iter]. lia.
  - rewrite Pos.iter_succ, Pos2Z.inj_xO, IH, Pos2Z.inj_succ.
    rewrite Z.pow_succ_r by lia. ring.
Qed.

Lemma shl_align_spec (mx : positive) (ex ex' : Z) :
  let k := Z.max 0 (ex - ex') in
  Z.pos (fst (shl_align mx ex ex')) = Z.pos mx * 2 ^ k
  /\ snd (shl_align mx ex ex') = ex - k.
Proof.
  cbn zeta. unfold shl_align.
  destruct (ex' - ex) as [| d | d] eqn:E; cbn [fst snd].
  - replace (Z.max 0 (ex - ex')) with 0 by lia. rewrite Z.pow_0_r. lia.
  - replace (Z.max 0 (ex - ex')) with 0 by lia. rewrite Z.pow_0_r. lia.
  - replace (Z.max 0 (ex - ex')) with (Z.pos d) by lia.
    rewrite iter_xO_pow2. lia.
Qed.

Lemma Zdigits2_mul_pow2 (m k : Z) :
  0 < m -> 0 <= k -> Zdigits2 (m * 2 ^ k) = Zdigits2 m + k.
Proof.
  intros Hm Hk.
  assert (0 < 2 ^ k) by (apply Z.pow_pos_nonneg; lia).
  rewrite !Zdigits2_log2 by nia.
  rewrite Z.log2_mul_pow2 by lia. lia.
Qed.

(** [binary_round] of a positive integer mantissa in the normal range:
    short mantissas are shifted left to 53 bits, exactly; long ones are
    rounded to 53 bits. *)
Lemma binary_round_normal (s : bool) (p : positive) (ex : Z) :
  let d := Zdigits2 (Z.pos p) in
  -1074 <= ex + d - 53 -> ex + d - 53 + 1 <= 971 ->
  exists m2 e2,
    normal (binary_round 53 1024 s p ex) s m2 e2
    /\ (d <= 53 -> m2 = Z.pos p * 2 ^ (53 - d) /\ e2 = ex + d - 53)
    /\ (53 < d ->
        (e2 = ex + d - 53
         /\ Z.pos p / 2 ^ (d - 53) <= m2 <= Z.pos p / 2 ^ (d - 53) + 1)
        \/ (e2 = ex + d - 53 + 1 /\ m2 = 2 ^ 52
            /\ Z.pos p / 2 ^ (d - 53) = 2 ^ 53 - 1)).
Proof.
  intros d Hlo Hhi. unfold binary_round.
  change (Z.pos (digits2_pos p)) with d. fold fexp64.
  pose proof (shl_align_spec p ex (fexp64 (d + ex))) as [Hm He].
  destruct (shl_align p ex (fexp64 (d + ex))) as [mz ez].
  cbn [fst snd] in Hm, He. rewrite fexp64_eq in Hm, He.
  assert (Hd1 : 1 <= d).
  { unfold d. rewrite Zdigits2_log2 by lia.
    pose proof (Z.log2_nonneg (Z.pos p)). lia. }
  destruct (Z.le_gt_cases d 53) as [Hle | Hgt].
  - replace (Z.max 0 (ex - Z.max (d + ex - 53) (-1074))) with (53 - d)
      in Hm, He by lia.
    assert (Hdz : Zdigits2 (Z.pos mz) = 53).
    { rewrite Hm, Zdigits2_mul_pow2 by lia. fold d. lia. }
    destruct (binary_round_aux_normal s (Z.pos mz) ez loc_Exact)
      as (m2 & e2 & Hn & _ & Hex); rewrite ?Hdz; try lia.
    specialize (Hex Hdz eq_refl). destruct Hex as [-> ->].
    exists (Z.pos mz), ez. split; [assumption|]. split; [| lia].
    intros _. lia.
  - replace (Z.max 0 (ex - Z.max (d + ex - 53) (-1074))) with 0
      in Hm, He by lia.
    rewrite Z.pow_0_r, Z.mul_1_r in Hm. injection Hm as ->.
    rewrite Z.sub_0_r in He. subst ez.
    destruct (binary_round_aux_normal s (Z.pos p) ex loc_Exact)
      as (m2 & e2 & Hn & Hcase & _); fold d; try lia.
    exists m2, e2. split; [assumption|]. split; [lia|].
    intros _. fold d in Hcase.
    destruct Hcase as [[? ?] | [? [? ?]]]; [left | right]; repeat split; lia.
Qed.

(** The float [10e3] of the conversion. *)
Lemma ten_e3_eq :
  F64.of_literal 10 3 = S754_finite false 5497558138880000 (-39).
Proof. reflexivity. Qed.

(** [float64(bp)] for a positive [uint64]: a normal float whose value
    is [bp] when [bp] has at most 53 bits, and at least 2^53 otherwise. *)
Lemma of_uint_normal (bp : Z) :
  1 <= bp < 2 ^ 64 ->
  exists m e,
    normal (F64.of_uint bp) false m e
    /\ -52 <= e <= 12
    /\ (e <= 0 -> m = bp * 2 ^ (- e)).
Proof.
  intros [H1 H64]. unfold F64.of_uint, F64.prec, F64.emax.
  destruct bp as [| p | p]; try lia.
  cbn [binary_normalize].
  assert (Hd : 1 <= Zdigits2 (Z.pos p) <= 64).
  { split.
    - rewrite Zdigits2_log2 by lia. pose proof (Z.log2_nonneg (Z.pos p)). lia.
    - apply Zdigits2_le; lia. }
  destruct (binary_round_normal false p 0) as (m & e & Hn & Hsmall & Hbig);
    try lia.
  exists m, e. split; [assumption|].
  destruct (Z.le_gt_cases (Zdigits2 (Z.pos p)) 53) as [Hle | Hgt].
  - destruct (Hsmall Hle) as [-> ->]. split; [lia|].
    intros _. do 2 f_equal. lia.
  - destruct (Hbig Hgt) as [[-> _] | [-> _]]; split; lia.
Qed.

(** *** Division by [10e3] *)


Lemma ten4_eq : ten4 = 10000 * 2 ^ 39.
Proof. reflexivity. Qed.

Lemma SFdiv_core_ten4 (m e : Z) :
  Zdigits2 m = 53 -> -1000 <= e ->
  SFdiv_core_binary 53 1024 m e ten4 (-39)
  = (m * 2 ^ 53 / ten4, e - 14, new_location ten4 ((m * 2 ^ 53) mod ten4)).
Proof.
  intros Hd He. unfold SFdiv_core_binary. rewrite Hd.
  change (Zdigits2 ten4) with 53. fold fexp64. rewrite fexp64_eq.
  replace (Z.min (Z.max (53 + e - (53 + -39) - 53) (-1074)) (e - -39))
    with (e - 14) by lia.
  replace (e - -39 - (e - 14)) with 53 by lia.
  rewrite Z.shiftl_mul_pow2 by lia.
  unfold Z.div, Z.modulo.
  destruct (Z.div_eucl (m * 2 ^ 53) ten4) as [q r]. reflexivity.
Qed.


(** Dividing a positive normal float by [10e3]: the quotient is a
    positive normal float, and it is above one when the dividend is at
    least 10001. *)
Lemma div_ten4_normal (x : spec_float) (m e : Z) :
  normal x false m e -> -52 <= e <= 12 ->
  exists mq eq,
    normal (F64.div x (F64.of_literal 10 3)) false mq eq
    /\ e - 14 <= eq <= e - 12
    /\ ((e <= 0 -> 10001 * 2 ^ (- e) <= m) -> above_one mq eq).
Proof.
  intros (p & -> & -> & Hm) He. rewrite ten_e3_eq.
  unfold F64.div, F64.prec, F64.emax. cbn [SFdiv xorb].
  change (Z.pos 5497558138880000) with ten4.
  assert (Hd : Zdigits2 (Z.pos p) = 53).
  { apply Z.le_antisymm.
    - apply Zdigits2_le; lia.
    - apply Zdigits2_ge; [lia|]. change (2 ^ (53 - 1)) with (2 ^ 52). lia. }
  rewrite SFdiv_core_ten4 by lia.
  set (qin := Z.pos p * 2 ^ 53 / ten4).
  assert (Hq : 2 ^ 52 <= qin < 2 ^ 54).
  { unfold qin, ten4. split.
    - apply Z.div_le_lower_bound; lia.
    - apply Z.div_lt_upper_bound; lia. }
  assert (Hdq : 53 <= Zdigits2 qin <= 54).
  { split.
    - apply Zdigits2_ge; [lia|]. change (2 ^ (53 - 1)) with (2 ^ 52). lia.
    - apply Zdigits2_le; lia. }
  destruct (binary_round_aux_normal false qin (e - 14)
              (new_location ten4 ((Z.pos p * 2 ^ 53) mod ten4)))
    as (m2 & e2 & Hn & Hcase & _); try lia.
  exists m2, e2. split; [exact Hn|].
  destruct Hn as (p2 & _ & _ & Hm2).
  split; [destruct Hcase as [[? ?] | [? [? ?]]]; lia|].
  intros Hval. unfold above_one.
  destruct (Z.le_gt_cases 0 e2) as [Hnn | Hneg]; [left; assumption | right].
  destruct (Z.le_gt_cases (- e2) 51) as [Hsmall | Hlarge].
  - assert (2 ^ (- e2) <= 2 ^ 51) by (apply Z.pow_le_mono_r; lia). lia.
  - (* only the two lowest binades of the dividend remain *)
    assert (He38 : e <= -38) by (destruct Hcase as [[? ?] | [? [? ?]]]; lia).
    specialize (Hval ltac:(lia)).
    assert (Hem : -39 <= e).
    { destruct (Z.le_gt_cases (-39) e) as [|Hlt]; [assumption|].
      assert (2 ^ 40 <= 2 ^ (- e)) by (apply Z.pow_le_mono_r; lia). lia. }
    assert (Hcases : e = -39 \/ e = -38) by lia.
    destruct Hcases as [-> | ->].
    + change (2 ^ (- -39)) with (2 ^ 39) in Hval.
      assert (Hq53 : 2 ^ 53 + 2 ^ 39 <= qin).
      { unfold qin, ten4. apply Z.div_le_lower_bound; lia. }
      assert (Hdq54 : Zdigits2 qin = 54).
      { apply Z.le_antisymm; [lia|].
        apply Zdigits2_ge; [lia|]. change (2 ^ (54 - 1)) with (2 ^ 53). lia. }
      rewrite Hdq54 in Hcase. change (54 - 53) with 1 in Hcase.
      assert (Hhalf : 2 ^ 52 + 2 ^ 38 <= qin / 2 ^ 1).
      { apply Z.div_le_lower_bound; lia. }
      destruct Hcase as [[-> Hb] | [-> [-> _]]].
      * change (2 ^ (- (-39 - 14 + 1))) with (2 ^ 52). lia.
      * change (2 ^ (- (-39 - 14 + 1 + 1))) with (2 ^ 51). lia.
    + assert (Hqlow : 2 ^ 52 + 2 ^ 51 <= qin).
      { unfold qin, ten4. apply Z.div_le_lower_bound; lia. }
      destruct (Z.eq_dec (Zdigits2 qin) 53) as [Hd53 | Hd54].
      * rewrite Hd53 in Hcase. change (53 - 53) with 0 in Hcase.
        rewrite Z.pow_0_r, Z.div_1_r in Hcase.
        destruct Hcase as [[-> Hb] | [-> [-> _]]].
        -- change (2 ^ (- (-38 - 14 + 0))) with (2 ^ 52). lia.
        -- change (2 ^ (- (-38 - 14 + 0 + 1))) with (2 ^ 51). lia.
      * assert (Hd54' : Zdigits2 qin = 54) by lia.
        rewrite Hd54' in Hcase. change (54 - 53) with 1 in Hcase.
        destruct Hcase as [[-> Hb] | [-> [-> _]]].
        -- change (2 ^ (- (-38 - 14 + 1))) with (2 ^ 51). lia.
        -- change (2 ^ (- (-38 - 14 + 1 + 1))) with (2 ^ 50). lia.
Qed.

(** *** Subtraction from one *)



Lemma normal_is_number (x : spec_float) (s : bool) (m e : Z) :
  normal x s m e -> is_number x.
Proof. intros (p & -> & _). exact I. Qed.

Lemma binary_round_number (s : bool) (p : positive) (ex : Z) :
  -66 <= ex <= 0 -> Z.pos p < 2 ^ 120 ->
  exists m e, normal (binary_round 53 1024 s p ex) s m e.
Proof.
  intros He Hp.
  assert (Hd : 1 <= Zdigits2 (Z.pos p) <= 120).
  { split.
    - rewrite Zdigits2_log2 by lia. pose proof (Z.log2_nonneg (Z.pos p)). lia.
    - apply Zdigits2_le; lia. }
  destruct (binary_round_normal s p ex) as (m & e & Hn & _); try lia.
  now exists m, e.
Qed.

(** [1.0 - q] for a positive normal [q]: always a number, and a
    negative one when [q] is above one. *)
Lemma sub_one_normal (q : spec_float) (mq eq : Z) :
  normal q false mq eq -> -66 <= eq <= 0 ->
  is_number (F64.sub F64.one q)
  /\ (above_one mq eq -> is_negative (F64.sub F64.one q)).
Proof.
  intros (p & -> & -> & Hm) He. rewrite F64_one_eq.
  unfold F64.sub, F64.prec, F64.emax. cbn [SFsub cond_Zopp].
  set (ez := Z.min (-52) eq).
  pose proof (shl_align_spec 4503599627370496 (-52) ez) as [Ha _].
  pose proof (shl_align_spec p eq ez) as [Hb _].
  set (a := Z.pos (fst (shl_align 4503599627370496 (-52) ez))) in *.
  set (b := Z.pos (fst (shl_align p eq ez))) in *.
  change (Z.pos 4503599627370496) with (2 ^ 52) in Ha.
  assert (Ha' : a = 2 ^ (- ez)).
  { rewrite Ha, <- Z.pow_add_r by lia. f_equal. lia. }
  assert (Hpow : 0 < 2 ^ Z.max 0 (eq - ez)) by (apply Z.pow_pos_nonneg; lia).
  assert (Ha120 : 0 < a < 2 ^ 120).
  { rewrite Ha'. split; [apply Z.pow_pos_nonneg; lia|].
    apply Z.pow_lt_mono_r; lia. }
  assert (Hb120 : 0 < b < 2 ^ 120).
  { split; [lia|]. rewrite Hb.
    assert (2 ^ Z.max 0 (eq - ez) <= 2 ^ 66) by (apply Z.pow_le_mono_r; lia).
    change (2 ^ 120) with (2 ^ 54 * 2 ^ 66). nia. }
  assert (Hneg : above_one (Z.pos p) eq -> a - b < 0).
  { intros [H0 | Hgt].
    - assert (eq = 0) by lia. subst eq.
      replace ez with (-52) in * by lia.
      change (2 ^ (- -52)) with (2 ^ 52) in Ha'.
      change (Z.max 0 (0 - -52)) with 52 in Hb. lia.
    - destruct (Z.le_gt_cases eq (-52)) as [Hle | Hgt52].
      + replace ez with eq in * by lia.
        replace (Z.max 0 (eq - eq)) with 0 in Hb by lia.
        rewrite Z.pow_0_r in Hb. lia.
      + replace ez with (-52) in * by lia.
        change (2 ^ (- -52)) with (2 ^ 52) in Ha'.
        assert (2 ^ 1 <= 2 ^ Z.max 0 (eq - -52))
          by (apply Z.pow_le_mono_r; lia).
        nia. }
  assert (Hez : -66 <= ez <= 0) by lia.
  destruct (a - b) as [| d | d] eqn:Ed; cbn [binary_normalize].
  - split; [exact I | intros H; specialize (Hneg H); lia].
  - destruct (binary_round_number false d ez Hez ltac:(lia)) as (m & e & Hn).
    split; [eapply normal_is_number; eassumption|].
    intros H. specialize (Hneg H). lia.
  - destruct (binary_round_number true d ez Hez ltac:(lia))
      as (m & e & (p2 & -> & _)).
    split; [exact I | intros _; exact I].
Qed.

(** *** The slippage conversion *)

Lemma convert_number (bp : Z) :
  0 <= bp < 2 ^ 64 -> is_number (convertSlippageBasisPointsToPercentage bp).
Proof.
  intros Hbp. destruct (Z.eq_dec bp 0) as [-> | Hne]; [exact I|].
  unfold convertSlippageBasisPointsToPercentage.
  destruct (of_uint_normal bp ltac:(lia)) as (m & e & Hx & He & _).
  destruct (div_ten4_normal _ m e Hx He) as (mq & eq & Hq & Heq & _).
  apply (sub_one_normal _ mq eq Hq). lia.
Qed.

Lemma convert_negative (bp : Z) :
  10000 < bp < 2 ^ 64 ->
  is_negative (convertSlippageBasisPointsToPercentage bp).
Proof.
  intros Hbp.
  unfold convertSlippageBasisPointsToPercentage.
  destruct (of_uint_normal bp ltac:(lia)) as (m & e & Hx & He & Hval).
  destruct (div_ten4_normal _ m e Hx He) as (mq & eq & Hq & Heq & Habove).
  apply (sub_one_normal _ mq eq Hq); [lia|].
  apply Habove. intros He0. rewrite (Hval He0).
  assert (0 < 2 ^ (- e)) by (apply Z.pow_pos_nonneg; lia). nia.
Qed.

End F64Facts.


(** ** The instruction assembler *)

Lemma wrap_Ok {A : Type} (msg : string) (r : result A) (a : A) :
  wrap msg r = Ok a <-> r = Ok a.
Proof. destruct r; cbn; split; intros H; congruence. Qed.

Lemma bind_Ok {A B : Type} (r : result A) (k : A -> result B) (b : B) :
  bind r k = Ok b <-> exists a, r = Ok a /\ k a = Ok b.
Proof.
  destruct r as [a | e | p]; cbn; split.
  - intros H. now exists a.
  - intros (a' & [= <-] & H). exact H.
  - discriminate.
  - intros (a' & H & _). discriminate.
  - discriminate.
  - intros (a' & H & _). discriminate.
Qed.

Lemma Uint64_Ok (x : option Z) (v : Z) :
  Uint64 x = Ok v <-> exists q, x = Some q /\ v = GoInt.big_Uint64 q.
Proof.
  destruct x as [q |]; cbn; split.
  - intros [= <-]. now exists q.
  - intros (q' & [= <-] & ->). reflexivity.
  - discriminate.
  - intros (q' & H & _). discriminate.
Qed.

Section FlowFacts.

Context {L : Solana} {B : Builders}.

Lemma shouldCreateAta_spec (rpcClient : rpc_Client) (ata : PublicKey) :
  shouldCreateAta rpcClient ata
  = Ok (match GetAccountInfo rpcClient ata with
        | RpcError _ => true
        | Response _ => false
        end).
Proof. unfold shouldCreateAta. now destruct (GetAccountInfo rpcClient ata). Qed.

(** What [getBuyInstructions] returns when it returns a list. *)
Lemma getBuyInstructions_Ok (rpcClient : rpc_Client)
    (fee mint user : PublicKey) (solAmount bp : Z) (l : list Instruction) :
  getBuyInstructions rpcClient fee mint user solAmount bp = Ok l
  <-> exists keys ata bump bc quote,
      getBondingCurveAndAssociatedBondingCurve mint = Ok keys
      /\ FindAssociatedTokenAddress user mint = Ok (ata, bump)
      /\ ((exists e, GetAccountInfo rpcClient ata = RpcError e) ->
          associatedtokenaccount_Validate user user mint = None)
      /\ fetchBondingCurve rpcClient (BondingCurve keys) = Ok bc
      /\ calculateBuyQuote solAmount bc
           (convertSlippageBasisPointsToPercentage bp) = Ok (Some quote)
      /\ l = createAtaStep (GetAccountInfo rpcClient ata) user mint
             ++ [PumpBuy (GoInt.big_Uint64 quote) solAmount
                   (buyAccounts fee mint keys ata user)].
Proof.
  unfold getBuyInstructions. split.
  - intros H.
    apply bind_Ok in H. destruct H as (keys & Hk & H). apply wrap_Ok in Hk.
    apply bind_Ok in H. destruct H as ([ata bump] & Ha & H). apply wrap_Ok in Ha.
    rewrite shouldCreateAta_spec in H. cbn [wrap bind] in H.
    apply bind_Ok in H. destruct H as (instrs & Hi & H).
    apply bind_Ok in H. destruct H as (bc & Hbc & H). apply wrap_Ok in Hbc.
    apply bind_Ok in H. destruct H as (buy & Hq & H).
    apply bind_Ok in H. destruct H as (amt & Hu & H).
    apply Uint64_Ok in Hu. destruct Hu as (quote & -> & ->).
    injection H as <-.
    exists keys, ata, bump, bc, quote.
    repeat split; try assumption.
    + intros (e & He). rewrite He in Hi.
      apply bind_Ok in Hi. destruct Hi as (i & Hv & _). apply wrap_Ok in Hv.
      unfold ValidateAndBuild in Hv.
      now destruct (associatedtokenaccount_Validate user user mint).
    + f_equal. destruct (GetAccountInfo rpcClient ata) as [info | e];
        cbn [createAtaStep].
      * now injection Hi as <-.
      * apply bind_Ok in Hi. destruct Hi as (i & Hv & Hi). apply wrap_Ok in Hv.
        unfold ValidateAndBuild in Hv.
        destruct (associatedtokenaccount_Validate user user mint);
          [discriminate|].
        injection Hv as <-. now injection Hi as <-.
  - intros (keys & ata & bump & bc & quote & Hk & Ha & Hv & Hbc & Hq & ->).
    rewrite Hk, Ha. cbn [wrap bind]. rewrite shouldCreateAta_spec.
    cbn [wrap bind].
    destruct (GetAccountInfo rpcClient ata) as [info | e];
      cbn [createAtaStep].
    + cbn [bind]. rewrite Hbc. cbn [wrap bind]. rewrite Hq. reflexivity.
    + rewrite (Hv (ex_intro _ e eq_refl)). cbn [ValidateAndBuild wrap bind].
      rewrite Hbc. cbn [wrap bind]. rewrite Hq. reflexivity.
Qed.

(** C7, amended. The buy flow assembles a list exactly when the address
    derivations, the fetch of the curve and the quote succeed (and the
    account-creation instruction validates when it is needed), and the
    list is then
    [computeUnitLimit(250000), computeUnitPrice(100000)], the
    account-creation step, the buy instruction, in this order; the
    account-creation step is present exactly when the lookup of the
    buyer's associated token account returned an error, of whatever kind,
    and absent when the lookup returned a response. *)
Theorem buy_flow_instructions (rpcClient : rpc_Client) (fee : PublicKey)
    (user : PrivateKey) (mint : PublicKey) (solAmount bp : Z)
    (l : list Instruction) :
  BuyToken_instructions rpcClient fee user mint solAmount bp = Ok l
  <-> exists keys ata bump bc quote,
      getBondingCurveAndAssociatedBondingCurve mint = Ok keys
      /\ FindAssociatedTokenAddress (PrivateKey_PublicKey user) mint
         = Ok (ata, bump)
      /\ ((exists e, GetAccountInfo rpcClient ata = RpcError e) ->
          associatedtokenaccount_Validate (PrivateKey_PublicKey user)
            (PrivateKey_PublicKey user) mint = None)
      /\ fetchBondingCurve rpcClient (BondingCurve keys) = Ok bc
      /\ calculateBuyQuote solAmount bc
           (convertSlippageBasisPointsToPercentage bp) = Ok (Some quote)
      /\ l = [SetComputeUnitLimit 250000; SetComputeUnitPrice 100000]
             ++ createAtaStep (GetAccountInfo rpcClient ata)
                  (PrivateKey_PublicKey user) mint
             ++ [PumpBuy (GoInt.big_Uint64 quote) solAmount
                   (buyAccounts fee mint keys ata (PrivateKey_PublicKey user))].
Proof.
  unfold BuyToken_instructions. rewrite bind_Ok. split.
  - intros (buyInstructions & Hb & [= <-]).
    apply wrap_Ok, getBuyInstructions_Ok in Hb.
    destruct Hb as (keys & ata & bump & bc & quote & Hk & Ha & Hv & Hbc & Hq & ->).
    exists keys, ata, bump, bc, quote. repeat split; assumption.
  - intros (keys & ata & bump & bc & quote & Hk & Ha & Hv & Hbc & Hq & ->).
    eexists. split; [| reflexivity].
    apply wrap_Ok, getBuyInstructions_Ok.
    exists keys, ata, bump, bc, quote. repeat split; assumption.
Qed.


(** What [getSellInstructions] returns when it returns an instruction. *)
Lemma getSellInstructions_Ok (rpcClient : rpc_Client) (fee : PublicKey)
    (user : PrivateKey) (mint : PublicKey) (amount bp : Z) (all : bool)
    (i : Instruction) :
  getSellInstructions rpcClient fee user mint amount bp all = Ok i
  <-> exists ata bump sold keys bc quote,
      FindAssociatedTokenAddress (PrivateKey_PublicKey user) mint
      = Ok (ata, bump)
      /\ sellAmount rpcClient ata amount all = Ok sold
      /\ getBondingCurveAndAssociatedBondingCurve mint = Ok keys
      /\ fetchBondingCurve rpcClient (BondingCurve keys) = Ok bc
      /\ calculateSellQuote sold bc
           (convertSlippageBasisPointsToPercentage bp) = Ok (Some quote)
      /\ i = PumpSell sold (GoInt.big_Uint64 quote)
               (sellAccounts fee mint keys ata (PrivateKey_PublicKey user))
      /\ pump_Sell_Validate i = None.
Proof.
  unfold getSellInstructions. split.
  - intros H.
    apply bind_Ok in H. destruct H as ([ata bump] & Ha & H). apply wrap_Ok in Ha.
    apply bind_Ok in H. destruct H as (sold & Hs & H).
    apply bind_Ok in H. destruct H as (keys & Hk & H). apply wrap_Ok in Hk.
    apply bind_Ok in H. destruct H as (bc & Hbc & H). apply wrap_Ok in Hbc.
    apply bind_Ok in H. destruct H as (q & Hq & H).
    apply bind_Ok in H. destruct H as (minSol & Hu & H).
    apply Uint64_Ok in Hu. destruct Hu as (quote & -> & ->).
    apply wrap_Ok in H. unfold ValidateAndBuild in H.
    destruct (pump_Sell_Validate _) eqn:Hv; [discriminate|].
    injection H as <-.
    exists ata, bump, sold, keys, bc, quote. repeat split; assumption.
  - intros (ata & bump & sold & keys & bc & quote
            & Ha & Hs & Hk & Hbc & Hq & -> & Hv).
    rewrite Ha. cbn [wrap bind]. rewrite Hs. cbn [bind].
    rewrite Hk. cbn [wrap bind]. rewrite Hbc. cbn [wrap bind].
    rewrite Hq. cbn [bind Uint64]. rewrite Hv. reflexivity.
Qed.

Lemma Atoi_range (s : string) (n : Z) :
  Atoi s = Ok n -> - 2 ^ 63 <= n < 2 ^ 63.
Proof.
  unfold Atoi.
  destruct (match s with
            | String "-"%char rest => (true, rest)
            | String "+"%char rest => (false, rest)
            | _ => (false, s)
            end) as [neg body].
  destruct body as [| c rest]; [discriminate|].
  destruct (parse_digits 0 (String c rest)) as [v |]; [| discriminate].
  destruct (Z.leb_spec (- 2 ^ 63) (if neg then - v else v));
    destruct (Z.ltb_spec (if neg then - v else v) (2 ^ 63));
    cbn [andb]; intros [= <-] || discriminate; lia.
Qed.

Lemma uint64_of_int_nonneg (n : Z) :
  0 <= n < 2 ^ 63 -> GoInt.uint64_of_int n = n.
Proof. intros H. unfold GoInt.uint64_of_int. apply Z.mod_small. lia. Qed.

Lemma sellAmount_zero_balance (rpcClient : rpc_Client) (ata : PublicKey)
    (amount : Z) :
  GetTokenAccountBalance rpcClient ata = Response "0"%string ->
  sellAmount rpcClient ata amount true = Ok 0.
Proof. intros H. unfold sellAmount. rewrite H. reflexivity. Qed.

(** The sell quote of a zero amount on a snapshot with positive virtual
    token reserves is zero, for every multiplier that is a number. *)
Lemma calculateSellQuote_zero (bc : BondingCurveData) (m : spec_float) :
  0 < VirtualTokenReserves bc -> Rounding.is_number m ->
  calculateSellQuote 0 bc m = Ok (Some 0).
Proof.
  intros HT Hm. unfold calculateSellQuote, sellQuoteBig.
  change (GoInt.int64_of_uint64 0) with 0.
  rewrite Z.mul_0_r, Z.add_0_r, big_Div_nonzero by lia.
  cbn [bind]. unfold euclid_div. rewrite Z.div_0_l, Z.mul_0_r by lia.
  apply applyPercentage_zero.
  - intros ->. exact Hm.
  - intros s ->. exact Hm.
Qed.

(** C8. The sell flow assembles a list exactly when the address
    derivations, the amount, the fetch of the curve, the quote and the
    validation of the instruction succeed, and the list is then
    [computeUnitLimit(250000), computeUnitPrice(10000), sell] with no
    account-creation step; the amount sold and quoted is the caller's
    without "sell all" and, with it, the balance of the seller's
    associated token account as the ledger client reports it (a decimal
    string, read with [strconv.Atoi]); and with "sell all" on a balance
    of 0, against a snapshot with positive virtual token reserves, the
    flow does not fail: it quotes 0 and emits the sell of 0 tokens for at
    least 0. *)
Theorem sell_flow_instructions (rpcClient : rpc_Client) (fee : PublicKey)
    (user : PrivateKey) (mint : PublicKey) (amount bp : Z) (all : bool) :
  (forall l,
      SellToken_instructions rpcClient fee user mint amount bp all = Ok l
      <-> exists ata bump sold keys bc quote,
          FindAssociatedTokenAddress (PrivateKey_PublicKey user) mint
          = Ok (ata, bump)
          /\ sellAmount rpcClient ata amount all = Ok sold
          /\ getBondingCurveAndAssociatedBondingCurve mint = Ok keys
          /\ fetchBondingCurve rpcClient (BondingCurve keys) = Ok bc
          /\ calculateSellQuote sold bc
               (convertSlippageBasisPointsToPercentage bp) = Ok (Some quote)
          /\ pump_Sell_Validate
               (PumpSell sold (GoInt.big_Uint64 quote)
                  (sellAccounts fee mint keys ata (PrivateKey_PublicKey user)))
             = None
          /\ l = [SetComputeUnitLimit 250000; SetComputeUnitPrice 10000;
                  PumpSell sold (GoInt.big_Uint64 quote)
                    (sellAccounts fee mint keys ata
                       (PrivateKey_PublicKey user))])
  /\ (forall ata, sellAmount rpcClient ata amount false = Ok amount)
  /\ (forall ata balance n,
      GetTokenAccountBalance rpcClient ata = Response balance ->
      Atoi balance = Ok n ->
      sellAmount rpcClient ata amount true = Ok (GoInt.uint64_of_int n)
      /\ (0 <= n -> GoInt.uint64_of_int n = n))
  /\ (forall ata bump keys bc,
      FindAssociatedTokenAddress (PrivateKey_PublicKey user) mint
      = Ok (ata, bump) ->
      GetTokenAccountBalance rpcClient ata = Response "0"%string ->
      getBondingCurveAndAssociatedBondingCurve mint = Ok keys ->
      fetchBondingCurve rpcClient (BondingCurve keys) = Ok bc ->
      0 < VirtualTokenReserves bc ->
      0 <= bp < 2 ^ 64 ->
      pump_Sell_Validate
        (PumpSell 0 0
           (sellAccounts fee mint keys ata (PrivateKey_PublicKey user)))
      = None ->
      calculateSellQuote 0 bc (convertSlippageBasisPointsToPercentage bp)
      = Ok (Some 0)
      /\ SellToken_instructions rpcClient fee user mint amount bp true
         = Ok [SetComputeUnitLimit 250000; SetComputeUnitPrice 10000;
               PumpSell 0 0
                 (sellAccounts fee mint keys ata (PrivateKey_PublicKey user))]).
Proof.
  split; [| split; [| split]].
  - intros l. unfold SellToken_instructions. rewrite bind_Ok. split.
    + intros (i & Hi & [= <-]).
      apply wrap_Ok, getSellInstructions_Ok in Hi.
      destruct Hi as (ata & bump & sold & keys & bc & quote
                      & Ha & Hs & Hk & Hbc & Hq & -> & Hv).
      exists ata, bump, sold, keys, bc, quote. repeat split; assumption.
    + intros (ata & bump & sold & keys & bc & quote
              & Ha & Hs & Hk & Hbc & Hq & Hv & ->).
      eexists. split; [| reflexivity].
      apply wrap_Ok, getSellInstructions_Ok.
      exists ata, bump, sold, keys, bc, quote. repeat split; assumption.
  - reflexivity.
  - intros ata balance n Hb Hn. split.
    + unfold sellAmount.
      rewrite Hb. cbn [of_response wrap bind]. rewrite Hn. reflexivity.
    + intros H0. apply uint64_of_int_nonneg.
      pose proof (Atoi_range balance n Hn). lia.
  - intros ata bump keys bc Ha Hb Hk Hbc HT Hbp Hv.
    assert (Hq : calculateSellQuote 0 bc
                   (convertSlippageBasisPointsToPercentage bp) = Ok (Some 0)).
    { apply calculateSellQuote_zero; [assumption|].
      now apply F64Facts.convert_number. }
    split; [exact Hq|].
    unfold SellToken_instructions.
    assert (Hi : getSellInstructions rpcClient fee user mint amount bp true
                 = Ok (PumpSell 0 0
                         (sellAccounts fee mint keys ata
                            (PrivateKey_PublicKey user)))).
    { apply getSellInstructions_Ok.
      exists ata, bump, 0, keys, bc, 0.
      repeat split; try assumption.
      now apply sellAmount_zero_balance. }
    rewrite Hi. reflexivity.
Qed.

End FlowFacts.

(** C7 as stated fails: a lookup that ends in an error other than "not
    found" adds the account-creation step all the same. *)
Lemma buy_flow_counterexample :
  ~ (forall (L' : Solana) (B' : Builders) (rpcClient : rpc_Client)
       (fee : PublicKey) (user : PrivateKey) (mint ata : PublicKey)
       (bump solAmount bp : Z) (l : list Instruction),
        FindAssociatedTokenAddress (PrivateKey_PublicKey user) mint
        = Ok (ata, bump) ->
        BuyToken_instructions rpcClient fee user mint solAmount bp = Ok l ->
        (In (CreateAssociatedTokenAccount (PrivateKey_PublicKey user)
               (PrivateKey_PublicKey user) mint) l
         <-> reportsNotFound (GetAccountInfo rpcClient ata))).
Proof.
  intros H.
  specialize (H Demo.solana Demo.builders
                (Demo.client (RpcError Demo.connectionRefused) "0")
                initialFeeRecipient Demo.user Demo.mint
                Demo.userAta 255 1000 100 _ eq_refl eq_refl).
  destruct H as [H _].
  assert (Hin : reportsNotFound
                  (GetAccountInfo
                     (Demo.client (RpcError Demo.connectionRefused) "0")
                     Demo.userAta)).
  { apply H. cbn. right. right. left. reflexivity. }
  unfold reportsNotFound in Hin. cbn in Hin. discriminate Hin.
Qed.


Lemma buy_flow_instructions_witness :
  exists keys ata bump bc quote,
    getBondingCurveAndAssociatedBondingCurve Demo.mint = Ok keys
    /\ FindAssociatedTokenAddress (PrivateKey_PublicKey Demo.user) Demo.mint
       = Ok (ata, bump)
    /\ ((exists e,
            GetAccountInfo (Demo.client (RpcError ErrNotFound) "0") ata
            = RpcError e) ->
        associatedtokenaccount_Validate (Builders := Demo.builders)
          (PrivateKey_PublicKey Demo.user)
          (PrivateKey_PublicKey Demo.user) Demo.mint = None)
    /\ fetchBondingCurve (Demo.client (RpcError ErrNotFound) "0")
         (BondingCurve keys) = Ok bc
    /\ calculateBuyQuote 1000 bc (convertSlippageBasisPointsToPercentage 100)
       = Ok (Some quote)
    /\ [SetComputeUnitLimit 250000; SetComputeUnitPrice 100000;
        CreateAssociatedTokenAccount (PrivateKey_PublicKey Demo.user)
          (PrivateKey_PublicKey Demo.user) Demo.mint;
        PumpBuy 1 1000
          (buyAccounts initialFeeRecipient Demo.mint Demo.curveKeys
             Demo.userAta (PrivateKey_PublicKey Demo.user))]
       = [SetComputeUnitLimit 250000; SetComputeUnitPrice 100000]
         ++ createAtaStep
              (GetAccountInfo (Demo.client (RpcError ErrNotFound) "0") ata)
              (PrivateKey_PublicKey Demo.user) Demo.mint
         ++ [PumpBuy (GoInt.big_Uint64 quote) 1000
               (buyAccounts initialFeeRecipient Demo.mint keys ata
                  (PrivateKey_PublicKey Demo.user))].
Proof.
  apply (proj1 (buy_flow_instructions (B := Demo.builders)
                  (Demo.client (RpcError ErrNotFound) "0")
                  initialFeeRecipient Demo.user Demo.mint 1000 100 _)).
  reflexivity.
Defined.

Lemma sell_flow_instructions_witness :
  SellToken_instructions (B := Demo.builders)
    (Demo.client (Response None) "0")
    initialFeeRecipient Demo.user Demo.mint 500 100 true
  = Ok [SetComputeUnitLimit 250000; SetComputeUnitPrice 10000;
        PumpSell 0 0
          (sellAccounts initialFeeRecipient Demo.mint Demo.curveKeys
             Demo.userAta (PrivateKey_PublicKey Demo.user))].
Proof.
  apply (proj2 (proj2 (proj2 (sell_flow_instructions (B := Demo.builders)
                  (Demo.client (Response None) "0") initialFeeRecipient
                  Demo.user Demo.mint 500 100 true)))
           Demo.userAta 255 Demo.curveKeys (mkCurve 1 2 3));
    try reflexivity; cbn; lia.
Defined.


(** ** The slippage conversion *)

(** C9. The conversion is [1.0 - bp / 10000.0] computed in binary64: it
    maps 0 to 1.0, 100 to 0.99 and 10000 to 0.0, and every basis-point
    value above 10000 (up to the largest 64-bit value) to a negative
    number, which it returns like any other: the result is never a NaN or
    an infinity. *)
Theorem convertSlippage_spec :
  (forall bp,
      convertSlippageBasisPointsToPercentage bp = basisPointsToMultiplier bp)
  /\ convertSlippageBasisPointsToPercentage 0 = F64.of_uint 1
  /\ convertSlippageBasisPointsToPercentage 100 = F64.of_ratio 99 100
  /\ convertSlippageBasisPointsToPercentage 10000 = S754_zero false
  /\ (forall bp,
      10000 < bp < 2 ^ 64 ->
      Rounding.is_negative (convertSlippageBasisPointsToPercentage bp))
  /\ (forall bp,
      0 <= bp < 2 ^ 64 ->
      Rounding.is_number (convertSlippageBasisPointsToPercentage bp)).
Proof.
  split; [| split; [| split; [| split; [| split]]]].
  - intros bp. reflexivity.
  - reflexivity.
  - reflexivity.
  - reflexivity.
  - exact F64Facts.convert_negative.
  - exact F64Facts.convert_number.
Qed.


(** * Further properties of the quote engine *)

Lemma calculateBuyQuote_one (solIn : Z) (bc : BondingCurveData) :
  0 < VirtualSolReserves bc -> 0 < VirtualTokenReserves bc ->
  0 <= solIn < 2 ^ 63 ->
  calculateBuyQuote solIn bc F64.one = Ok (Some (rawTokensOut solIn bc)).
Proof.
  intros HV HT Hs. rewrite calculateBuyQuote_formula by assumption.
  unfold quoteBuy, rawTokensOut.
  destruct (Z.eqb_spec (VirtualSolReserves bc + solIn) 0); [lia|].
  rewrite applyPercentage_one, Z.quot_div_nonneg by nia. reflexivity.
Qed.

Lemma calculateSellQuote_one (tokensIn : Z) (bc : BondingCurveData) :
  0 < VirtualTokenReserves bc -> 0 <= tokensIn < 2 ^ 63 ->
  calculateSellQuote tokensIn bc F64.one = Ok (Some (rawSolOut tokensIn bc)).
Proof.
  intros HT Ht. rewrite calculateSellQuote_formula by assumption.
  unfold quoteSell, rawSolOut.
  destruct (Z.eqb_spec (VirtualTokenReserves bc + tokensIn) 0); [lia|].
  now rewrite applyPercentage_one.
Qed.

(** X1. At multiplier 1.0 the buy quote keeps the constant product up to
    the rounding of one division: the quote is between 0 and the virtual
    token reserves, and the product of the reserves after the trade is at
    most the invariant and misses it by less than the new virtual SOL
    reserves. *)
Theorem buy_quote_constant_product (solIn : Z) (bc : BondingCurveData) :
  0 < VirtualSolReserves bc -> 0 < VirtualTokenReserves bc ->
  0 <= solIn < 2 ^ 63 ->
  exists q,
    calculateBuyQuote solIn bc F64.one = Ok (Some q)
    /\ 0 <= q <= VirtualTokenReserves bc
    /\ VirtualSolReserves bc * VirtualTokenReserves bc
       - (VirtualSolReserves bc + solIn)
       < (VirtualSolReserves bc + solIn) * (VirtualTokenReserves bc - q)
       <= VirtualSolReserves bc * VirtualTokenReserves bc.
Proof.
  intros HV HT Hs. exists (rawTokensOut solIn bc).
  split; [now apply calculateBuyQuote_one|].
  unfold rawTokensOut.
  set (V := VirtualSolReserves bc) in *. set (T := VirtualTokenReserves bc) in *.
  pose proof (Z.div_mod (V * T) (V + solIn) ltac:(lia)) as Hdm.
  pose proof (Z.mod_pos_bound (V * T) (V + solIn) ltac:(lia)) as Hr.
  assert (0 <= V * T / (V + solIn)) by (apply Z.div_pos; nia).
  assert (V * T / (V + solIn) <= T) by (apply Z.div_le_upper_bound; nia).
  replace (T - (T - V * T / (V + solIn))) with (V * T / (V + solIn)) by lia.
  lia.
Qed.

Lemma buy_quote_constant_product_witness :
  exists q,
    calculateBuyQuote 1000 (mkCurve 0 1000000000 1000000) F64.one = Ok (Some q)
    /\ 0 <= q <= 1000000000
    /\ 1000000 * 1000000000 - (1000000 + 1000)
       < (1000000 + 1000) * (1000000000 - q)
       <= 1000000 * 1000000000.
Proof.
  apply (buy_quote_constant_product 1000 (mkCurve 0 1000000000 1000000));
    cbn [VirtualSolReserves VirtualTokenReserves mkCurve]; lia.
Defined.

(** X2. At multiplier 1.0 the buy quote grows with the SOL put in: a
    larger amount never buys fewer tokens. *)
Theorem buy_quote_monotone (s1 s2 : Z) (bc : BondingCurveData) :
  0 < VirtualSolReserves bc -> 0 < VirtualTokenReserves bc ->
  0 <= s1 -> s1 <= s2 -> s2 < 2 ^ 63 ->
  exists q1 q2,
    calculateBuyQuote s1 bc F64.one = Ok (Some q1)
    /\ calculateBuyQuote s2 bc F64.one = Ok (Some q2)
    /\ q1 <= q2.
Proof.
  intros HV HT H1 H12 H2.
  exists (rawTokensOut s1 bc), (rawTokensOut s2 bc).
  split; [apply calculateBuyQuote_one; lia|].
  split; [apply calculateBuyQuote_one; lia|].
  unfold rawTokensOut.
  assert (VirtualSolReserves bc * VirtualTokenReserves bc
          / (VirtualSolReserves bc + s2)
          <= VirtualSolReserves bc * VirtualTokenReserves bc
             / (VirtualSolReserves bc + s1)).
  { apply Z.div_le_compat_l; nia. }
  lia.
Qed.

Lemma buy_quote_monotone_witness :
  exists q1 q2,
    calculateBuyQuote 1000 (mkCurve 0 1000000000 1000000) F64.one = Ok (Some q1)
    /\ calculateBuyQuote 5000 (mkCurve 0 1000000000 1000000) F64.one
       = Ok (Some q2)
    /\ q1 <= q2.
Proof.
  apply (buy_quote_monotone 1000 5000 (mkCurve 0 1000000000 1000000));
    cbn [VirtualSolReserves VirtualTokenReserves mkCurve]; lia.
Defined.

(** X3. At multiplier 1.0 the sell quote is the exact constant-product
    output rounded down: it is at least 0 and below the virtual SOL
    reserves, and the product of the reserves after the trade is at least
    the invariant and exceeds it by less than the new virtual token
    reserves. *)
Theorem sell_quote_constant_product (tokensIn : Z) (bc : BondingCurveData) :
  0 < VirtualSolReserves bc -> 0 < VirtualTokenReserves bc ->
  0 <= tokensIn < 2 ^ 63 ->
  exists a,
    calculateSellQuote tokensIn bc F64.one = Ok (Some a)
    /\ 0 <= a < VirtualSolReserves bc
    /\ VirtualSolReserves bc * VirtualTokenReserves bc
       <= (VirtualSolReserves bc - a) * (VirtualTokenReserves bc + tokensIn)
       < VirtualSolReserves bc * VirtualTokenReserves bc
         + (VirtualTokenReserves bc + tokensIn).
Proof.
  intros HV HT Ht. exists (rawSolOut tokensIn bc).
  split; [apply calculateSellQuote_one; lia|].
  unfold rawSolOut.
  set (V := VirtualSolReserves bc) in *. set (T := VirtualTokenReserves bc) in *.
  pose proof (Z.div_mod (V * tokensIn) (T + tokensIn) ltac:(lia)) as Hdm.
  pose proof (Z.mod_pos_bound (V * tokensIn) (T + tokensIn) ltac:(lia)) as Hr.
  assert (0 <= V * tokensIn / (T + tokensIn)) by (apply Z.div_pos; nia).
  assert (V * tokensIn / (T + tokensIn) < V)
    by (apply Z.div_lt_upper_bound; nia).
  nia.
Qed.

Lemma sell_quote_constant_product_witness :
  exists a,
    calculateSellQuote 999001 (mkCurve 0 1000000000 1000000) F64.one
    = Ok (Some a)
    /\ 0 <= a < 1000000
    /\ 1000000 * 1000000000
       <= (1000000 - a) * (1000000000 + 999001)
       < 1000000 * 1000000000 + (1000000000 + 999001).
Proof.
  apply (sell_quote_constant_product 999001 (mkCurve 0 1000000000 1000000));
    cbn [VirtualSolReserves VirtualTokenReserves mkCurve]; lia.
Defined.

(** X4. At multiplier 1.0 the sell quote grows with the tokens sold. *)
Theorem sell_quote_monotone (t1 t2 : Z) (bc : BondingCurveData) :
  0 <= VirtualSolReserves bc -> 0 < VirtualTokenReserves bc ->
  0 <= t1 -> t1 <= t2 -> t2 < 2 ^ 63 ->
  exists a1 a2,
    calculateSellQuote t1 bc F64.one = Ok (Some a1)
    /\ calculateSellQuote t2 bc F64.one = Ok (Some a2)
    /\ a1 <= a2.
Proof.
  intros HV HT H1 H12 H2.
  exists (rawSolOut t1 bc), (rawSolOut t2 bc).
  split; [apply calculateSellQuote_one; lia|].
  split; [apply calculateSellQuote_one; lia|].
  unfold rawSolOut.
  set (V := VirtualSolReserves bc) in *. set (T := VirtualTokenReserves bc) in *.
  apply Z.div_le_lower_bound; [lia|].
  pose proof (Z.div_mod (V * t1) (T + t1) ltac:(lia)) as Hdm.
  pose proof (Z.mod_pos_bound (V * t1) (T + t1) ltac:(lia)) as Hr.
  assert (0 <= V * t1 / (T + t1)) by (apply Z.div_pos; nia).
  (* (T + t2) * a1 <= V * t2, from (T + t1) * a1 <= V * t1 *)
  assert (Hk : (T + t1) * ((T + t2) * (V * t1 / (T + t1)))
               <= (T + t1) * (V * t2)).
  { replace ((T + t1) * ((T + t2) * (V * t1 / (T + t1))))
      with ((T + t2) * ((T + t1) * (V * t1 / (T + t1)))) by ring.
    assert ((T + t1) * (V * t1 / (T + t1)) <= V * t1) by lia.
    assert (HVT : V * T * t1 <= V * T * t2)
      by (apply Z.mul_le_mono_nonneg_l; [nia | lia]).
    assert ((T + t2) * (V * t1) <= (T + t1) * (V * t2)).
    { replace ((T + t2) * (V * t1)) with (V * T * t1 + V * t1 * t2) by ring.
      replace ((T + t1) * (V * t2)) with (V * T * t2 + V * t1 * t2) by ring.
      lia. }
    apply Z.le_trans with ((T + t2) * (V * t1)); [| assumption].
    apply Z.mul_le_mono_nonneg_l; lia. }
  apply Z.mul_le_mono_pos_l in Hk; lia.
Qed.

Lemma sell_quote_monotone_witness :
  exists a1 a2,
    calculateSellQuote 10 (mkCurve 0 1000000000 1000000) F64.one = Ok (Some a1)
    /\ calculateSellQuote 7000 (mkCurve 0 1000000000 1000000) F64.one
       = Ok (Some a2)
    /\ a1 <= a2.
Proof.
  apply (sell_quote_monotone 10 7000 (mkCurve 0 1000000000 1000000));
    cbn [VirtualSolReserves VirtualTokenReserves mkCurve]; lia.
Defined.

(** X5. A valid snapshot does not protect the quotes from the signed
    conversion of the amount: for virtual reserves [r] between 1 and 2^63
    the well-formed amount [2^64 - r] is converted to [-r], the divisor
    becomes zero and the quote panics. *)
Theorem quote_panics_on_wrapped_amount (bc : BondingCurveData)
    (m : spec_float) :
  (1 <= VirtualSolReserves bc <= 2 ^ 63 ->
   GoInt.is_uint64 (2 ^ 64 - VirtualSolReserves bc)
   /\ calculateBuyQuote (2 ^ 64 - VirtualSolReserves bc) bc m
      = Panic DivisionByZero)
  /\ (1 <= VirtualTokenReserves bc <= 2 ^ 63 ->
      GoInt.is_uint64 (2 ^ 64 - VirtualTokenReserves bc)
      /\ calculateSellQuote (2 ^ 64 - VirtualTokenReserves bc) bc m
         = Panic DivisionByZero).
Proof.
  split; intros H.
  - split; [unfold GoInt.is_uint64; lia|].
    unfold calculateBuyQuote. rewrite int64_of_uint64_large by lia.
    apply buyQuoteBig_zero_divisor. lia.
  - split; [unfold GoInt.is_uint64; lia|].
    unfold calculateSellQuote. rewrite int64_of_uint64_large by lia.
    apply sellQuoteBig_zero_divisor. lia.
Qed.


(** ** The float step of the quotes, for multipliers of either sign *)

Lemma BitLen_le (x y : Z) : 0 < x -> x <= y -> BigFloat.BitLen x <= BigFloat.BitLen y.
Proof.
  intros Hx Hxy. rewrite !BitLen_pos by lia.
  pose proof (Z.log2_le_mono x y Hxy). lia.
Qed.

(** The rounded mantissa is the quotient by [2^k] or its successor, and it
    is the successor only when bits were lost. *)
Lemma round_cases (prec m e : Z) :
  0 < m ->
  exists k q,
    BigFloat.round prec m e = (q, e + k)
    /\ 0 <= k /\ k = Z.max 0 (BigFloat.BitLen m - prec)
    /\ (q = m / 2 ^ k \/ (q = m / 2 ^ k + 1 /\ 0 < m mod 2 ^ k)).
Proof.
  intros Hm. unfold BigFloat.round.
  destruct (Z.leb_spec (BigFloat.BitLen m - prec) 0) as [Hle | Hgt].
  - exists 0, m. rewrite Z.add_0_r, Z.pow_0_r, Z.div_1_r.
    repeat split; lia.
  - set (k := BigFloat.BitLen m - prec) in *.
    assert (H2k : 0 < 2 ^ (k - 1)) by (apply Z.pow_pos_nonneg; lia).
    rewrite Z.shiftr_div_pow2 by lia.
    eexists k, _. split; [reflexivity|]. split; [lia|]. split; [lia|].
    destruct (Z.ltb_spec (m mod 2 ^ k) (2 ^ (k - 1))); [now left|].
    destruct (Z.ltb_spec (2 ^ (k - 1)) (m mod 2 ^ k)); [right; lia|].
    destruct (Z.even (m / 2 ^ k)); [now left | right; lia].
Qed.

(** A multiplier that is a number always yields an integer: no panic and
    no nil. *)
Lemma applyPercentage_number (a : Z) (m : spec_float) :
  Rounding.is_number m -> exists q, applyPercentage a m = Ok (Some q).
Proof.
  intros Hm. unfold applyPercentage.
  destruct m as [s | s | | s M e]; try contradiction; cbn [BigFloat.NewFloat bind];
    unfold BigFloat.SetInt; destruct (a =? 0); cbn [BigFloat.Mul bind].
  - eexists; reflexivity.
  - eexists; reflexivity.
  - eexists; reflexivity.
  - destruct (BigFloat.round _ _ _) as [mm ee]. eexists; reflexivity.
Qed.

(** With a multiplier between 0 and 1 the result is between 0 and the
    integer: the rounding of the product to the precision of the integer
    never carries it above the integer. *)
Lemma applyPercentage_at_most_one (a : Z) (m : spec_float) :
  0 <= a -> Multiplier.at_most_one m ->
  exists q, applyPercentage a m = Ok (Some q) /\ 0 <= q <= a.
Proof.
  intros Ha [-> | (M & e & -> & He & HM)].
  - exists 0. split; [| lia].
    unfold applyPercentage, BigFloat.SetInt. cbn [BigFloat.NewFloat bind].
    destruct (a =? 0); reflexivity.
  - unfold applyPercentage, BigFloat.SetInt. cbn [BigFloat.NewFloat bind].
    destruct (Z.eqb_spec a 0) as [-> | Hne].
    { exists 0. split; [reflexivity | lia]. }
    cbn [BigFloat.Mul BigFloat.prec_of].
    rewrite Z.abs_eq by lia.
    set (P := Z.max (Z.max (BigFloat.BitLen a) 64) 53).
    set (j := - e) in *.
    assert (H2j : 0 < 2 ^ j) by (apply Z.pow_pos_nonneg; lia).
    assert (HN : 0 < a * Z.pos M) by nia.
    assert (HNle : a * Z.pos M <= a * 2 ^ j) by nia.
    destruct (round_cases P (a * Z.pos M) (0 + e) HN)
      as (k & q & Hr & Hk0 & Hk & Hq).
    rewrite Hr. cbn [bind BigFloat.Int xorb].
    destruct (Z.ltb_spec a 0); [lia|]. cbn [xorb].
    assert (Hkj : k <= j).
    { pose proof (BitLen_le _ _ HN HNle) as Hb.
      rewrite BitLen_mul_pow2 in Hb by lia. lia. }
    assert (H2k : 0 < 2 ^ k) by (apply Z.pow_pos_nonneg; lia).
    assert (H2jk : 0 < 2 ^ (j - k)) by (apply Z.pow_pos_nonneg; lia).
    assert (Hsplit : a * 2 ^ j = 2 ^ k * (a * 2 ^ (j - k))).
    { replace j with (k + (j - k)) at 1 by lia.
      rewrite Z.pow_add_r by lia. ring. }
    remember (a * 2 ^ (j - k)) as Bd eqn:HBd.
    remember (a * Z.pos M) as N eqn:HNdef.
    rewrite Hsplit in HNle.
    pose proof (Z.div_mod N (2 ^ k) ltac:(lia)) as Hdm.
    pose proof (Z.mod_pos_bound N (2 ^ k) H2k) as Hmod.
    assert (Hq0 : 0 <= N / 2 ^ k) by (apply Z.div_pos; lia).
    assert (HqB : 0 <= q <= Bd).
    { destruct Hq as [-> | [-> Hpos]]; split; try lia.
      - apply Z.div_le_upper_bound; lia.
      - assert (N / 2 ^ k < Bd); [| lia].
        apply Z.div_lt_upper_bound; [lia|].
        destruct (Z.eq_dec N (2 ^ k * Bd)) as [E | E]; [| lia].
        rewrite E, Z.mul_comm, Z.mod_mul in Hpos by lia. lia. }
    eexists. split; [reflexivity|].
    destruct (Z.leb_spec 0 (0 + e + k)).
    + assert (j = k) by lia.
      rewrite Z.shiftl_mul_pow2 by lia.
      replace (0 + e + k) with 0 by lia.
      replace (j - k) with 0 in HBd by lia.
      rewrite Z.pow_0_r in *. lia.
    + rewrite Z.shiftr_div_pow2 by lia.
      replace (- (0 + e + k)) with (j - k) by lia.
      split; [apply Z.div_pos; lia|].
      apply Z.div_le_upper_bound; [lia|]. rewrite Z.mul_comm, <- HBd. lia.
Qed.

(** With a negative multiplier the result is at most 0. *)
Lemma applyPercentage_negative (a : Z) (m : spec_float) :
  0 <= a -> Rounding.is_negative m ->
  exists q, applyPercentage a m = Ok (Some q) /\ q <= 0.
Proof.
  intros Ha Hm. destruct m as [s | s | | s M e]; try contradiction.
  destruct s; [| contradiction].
  unfold applyPercentage, BigFloat.SetInt. cbn [BigFloat.NewFloat bind].
  destruct (Z.eqb_spec a 0) as [-> | Hne].
  { exists 0. split; [reflexivity | lia]. }
  cbn [BigFloat.Mul BigFloat.prec_of]. rewrite Z.abs_eq by lia.
  assert (HN : 0 < a * Z.pos M) by nia.
  destruct (round_cases (Z.max (Z.max (BigFloat.BitLen a) 64) 53)
              (a * Z.pos M) (0 + e) HN) as (k & q & Hr & Hk0 & Hk & Hq).
  rewrite Hr. cbn [bind BigFloat.Int].
  destruct (Z.ltb_spec a 0); [lia|]. cbn [xorb].
  eexists. split; [reflexivity|].
  assert (H2k : 0 < 2 ^ k) by (apply Z.pow_pos_nonneg; lia).
  assert (Hq0 : 0 <= a * Z.pos M / 2 ^ k) by (apply Z.div_pos; lia).
  assert (0 <= q) by (destruct Hq as [-> | [-> _]]; lia).
  destruct (Z.leb_spec 0 (0 + e + k)).
  - pose proof (Z.shiftl_nonneg q (0 + e + k)). lia.
  - pose proof (Z.shiftr_nonneg q (- (0 + e + k))). lia.
Qed.


(** ** Binary64 arithmetic: basis points up to 10000 *)

Module F64Unit.

Import Rounding.

(** [float64(bp)] below 2^53 is exact. *)
Lemma of_uint_exact (bp : Z) :
  1 <= bp < 2 ^ 53 ->
  exists m e,
    normal (F64.of_uint bp) false m e
    /\ -52 <= e <= 0 /\ m = bp * 2 ^ (- e).
Proof.
  intros [H1 H53]. unfold F64.of_uint, F64.prec, F64.emax.
  destruct bp as [| p | p]; try lia.
  cbn [binary_normalize].
  assert (Hd : 1 <= Zdigits2 (Z.pos p) <= 53).
  { split.
    - rewrite F64Facts.Zdigits2_log2 by lia.
      pose proof (Z.log2_nonneg (Z.pos p)). lia.
    - apply F64Facts.Zdigits2_le; lia. }
  destruct (F64Facts.binary_round_normal false p 0)
    as (m & e & Hn & Hsmall & _); try lia.
  destruct (Hsmall ltac:(lia)) as [-> ->].
  eexists _, _. split; [exact Hn|]. split; [lia|].
  do 2 f_equal. lia.
Qed.

Lemma pow2_split (a b : Z) : 0 <= a -> 0 <= b -> 2 ^ (a + b) = 2 ^ a * 2 ^ b.
Proof. intros. now apply Z.pow_add_r. Qed.

(** Dividing a positive normal float below 10000 by [10e3]: the
    quotient is a positive normal float of value at most one. *)
Lemma div_ten4_at_most_one (x : spec_float) (m e : Z) :
  normal x false m e -> -52 <= e <= -39 -> m < 10000 * 2 ^ (- e) ->
  exists mq eq,
    normal (F64.div x (F64.of_literal 10 3)) false mq eq
    /\ e - 14 <= eq <= e - 12
    /\ mq <= 2 ^ (- eq).
Proof.
  intros (p & -> & -> & Hm) He Hval. rewrite F64Facts.ten_e3_eq.
  unfold F64.div, F64.prec, F64.emax. cbn [SFdiv xorb].
  change (Z.pos 5497558138880000) with ten4.
  assert (Hd : Zdigits2 (Z.pos p) = 53).
  { apply Z.le_antisymm.
    - apply F64Facts.Zdigits2_le; lia.
    - apply F64Facts.Zdigits2_ge; [lia|].
      change (2 ^ (53 - 1)) with (2 ^ 52). lia. }
  rewrite F64Facts.SFdiv_core_ten4 by lia.
  set (qin := Z.pos p * 2 ^ 53 / ten4).
  assert (Hq : 2 ^ 52 <= qin < 2 ^ 54).
  { unfold qin, ten4. split.
    - apply Z.div_le_lower_bound; lia.
    - apply Z.div_lt_upper_bound; lia. }
  assert (Hdq : 53 <= Zdigits2 qin <= 54).
  { split.
    - apply F64Facts.Zdigits2_ge; [lia|].
      change (2 ^ (53 - 1)) with (2 ^ 52). lia.
    - apply F64Facts.Zdigits2_le; lia. }
  (* the quotient before rounding is below 2^(14 - e) *)
  set (j := 14 - e).
  assert (Hj : 53 <= j <= 66) by (unfold j; lia).
  assert (HW : 2 ^ j = 2 ^ 14 * 2 ^ (- e)).
  { unfold j. replace (14 - e) with (14 + - e) by lia.
    apply pow2_split; lia. }
  assert (Hqin : qin < 2 ^ j).
  { unfold qin, ten4. apply Z.div_lt_upper_bound; [lia|].
    rewrite HW. lia. }
  assert (Hj1 : 2 ^ j = 2 * 2 ^ (j - 1)).
  { replace j with (1 + (j - 1)) at 1 by lia.
    rewrite pow2_split by lia. reflexivity. }
  assert (H52 : 2 ^ 52 <= 2 ^ (j - 1)) by (apply Z.pow_le_mono_r; lia).
  destruct (F64Facts.binary_round_aux_normal false qin (e - 14)
              (new_location ten4 ((Z.pos p * 2 ^ 53) mod ten4)))
    as (m2 & e2 & Hn & Hcase & _); try lia.
  exists m2, e2. split; [exact Hn|].
  split; [destruct Hcase as [[? ?] | [? [? ?]]]; lia|].
  destruct (Z.eq_dec (Zdigits2 qin) 53) as [Hd53 | Hd54].
  - rewrite Hd53 in Hcase. change (53 - 53) with 0 in Hcase.
    rewrite Z.pow_0_r, Z.div_1_r in Hcase.
    destruct Hcase as [[-> Hb] | [-> [-> Hmax]]].
    + replace (- (e - 14 + 0)) with j by (unfold j; lia). lia.
    + replace (- (e - 14 + 0 + 1)) with (j - 1) by (unfold j; lia). lia.
  - assert (Hd54' : Zdigits2 qin = 54) by lia.
    rewrite Hd54' in Hcase. change (54 - 53) with 1 in Hcase.
    assert (Hhalf : qin / 2 ^ 1 < 2 ^ (j - 1)).
    { apply Z.div_lt_upper_bound; lia. }
    destruct Hcase as [[-> Hb] | [-> [-> Hmax]]].
    + replace (- (e - 14 + 1)) with (j - 1) by (unfold j; lia). lia.
    + (* a carry would need a quotient of at least 2^54 - 2 *)
      replace (- (e - 14 + 1 + 1)) with (j - 2) by (unfold j; lia).
      assert (Hj2 : 2 ^ (j - 1) = 2 * 2 ^ (j - 2)).
      { replace (j - 1) with (1 + (j - 2)) by lia.
        rewrite pow2_split by lia. reflexivity. }
      lia.
Qed.

(** [1.0 - q] for a positive normal [q] of value at most one is [+0] or
    a positive float of value at most one. *)
Lemma sub_one_at_most_one (q : spec_float) (mq eq : Z) :
  normal q false mq eq -> -66 <= eq -> mq <= 2 ^ (- eq) ->
  Multiplier.at_most_one (F64.sub F64.one q).
Proof.
  intros (p & -> & -> & Hm) He Hval. rewrite F64_one_eq.
  assert (Heq : eq <= -52).
  { destruct (Z.le_gt_cases eq (-52)) as [|Hgt]; [assumption|].
    assert (2 ^ (- eq) <= 2 ^ 51) by (apply Z.pow_le_mono_r; lia). lia. }
  unfold F64.sub, F64.prec, F64.emax. cbn [SFsub cond_Zopp].
  replace (Z.min (-52) eq) with eq by lia.
  pose proof (F64Facts.shl_align_spec 4503599627370496 (-52) eq) as [Ha _].
  pose proof (F64Facts.shl_align_spec p eq eq) as [Hb _].
  set (a := Z.pos (fst (shl_align 4503599627370496 (-52) eq))) in *.
  set (b := Z.pos (fst (shl_align p eq eq))) in *.
  change (Z.pos 4503599627370496) with (2 ^ 52) in Ha.
  assert (Ha' : a = 2 ^ (- eq)).
  { rewrite Ha, <- Z.pow_add_r by lia. f_equal. lia. }
  replace (Z.max 0 (eq - eq)) with 0 in Hb by lia.
  rewrite Z.pow_0_r, Z.mul_1_r in Hb.
  assert (Hab : 0 <= a - b < 2 ^ (- eq)) by lia.
  destruct (a - b) as [| d | d] eqn:Ed; cbn [binary_normalize]; [| | lia].
  - now left.
  - right.
    set (dd := Zdigits2 (Z.pos d)).
    assert (Hdd : 1 <= dd <= - eq).
    { unfold dd. split.
      - rewrite F64Facts.Zdigits2_log2 by lia.
        pose proof (Z.log2_nonneg (Z.pos d)). lia.
      - apply F64Facts.Zdigits2_le; lia. }
    destruct (F64Facts.binary_round_normal false d eq)
      as (m2 & e2 & (p2 & Hres & -> & Hm2) & Hsmall & Hbig); fold dd; try lia.
    fold dd in Hsmall, Hbig.
    exists p2, e2. split; [exact Hres|].
    destruct (Z.le_gt_cases dd 53) as [Hle | Hgt].
    + destruct (Hsmall Hle) as [Hm2eq ->]. split; [lia|].
      rewrite Hm2eq.
      replace (- (eq + dd - 53)) with (- eq + (53 - dd)) by lia.
      rewrite pow2_split by lia.
      assert (0 < 2 ^ (53 - dd)) by (apply Z.pow_pos_nonneg; lia).
      nia.
    + assert (H2n : 0 < 2 ^ (dd - 53)) by (apply Z.pow_pos_nonneg; lia).
      assert (Hdiv : Z.pos d / 2 ^ (dd - 53) < 2 ^ (- eq - (dd - 53))).
      { apply Z.div_lt_upper_bound; [lia|].
        rewrite <- pow2_split by lia.
        replace (dd - 53 + (- eq - (dd - 53))) with (- eq) by lia. lia. }
      destruct (Hbig Hgt) as [[-> Hb2] | [-> [Hm2eq _]]].
      * split; [lia|].
        replace (- (eq + dd - 53)) with (- eq - (dd - 53)) by lia. lia.
      * split; [lia|]. rewrite Hm2eq.
        apply Z.pow_le_mono_r; lia.
Qed.

(** The multiplier of a slippage of at most 10000 basis points is
    between 0 and 1. *)
Lemma convert_at_most_one (bp : Z) :
  0 <= bp <= 10000 ->
  Multiplier.at_most_one (convertSlippageBasisPointsToPercentage bp).
Proof.
  intros Hbp.
  destruct (Z.eq_dec bp 0) as [-> | Hne0].
  { right. exists 4503599627370496%positive, (-52).
    split; [reflexivity|]. split; [lia|]. cbn. lia. }
  destruct (Z.eq_dec bp 10000) as [-> | Hne].
  { left. reflexivity. }
  unfold convertSlippageBasisPointsToPercentage.
  destruct (of_uint_exact bp ltac:(lia)) as (m & e & Hx & He & Hm).
  assert (He39 : e <= -39).
  { destruct (Z.le_gt_cases e (-39)) as [|Hgt]; [assumption|].
    destruct Hx as (p & _ & Hp & Hrange).
    assert (2 ^ (- e) <= 2 ^ 38) by (apply Z.pow_le_mono_r; lia).
    nia. }
  assert (H2e : 0 < 2 ^ (- e)) by (apply Z.pow_pos_nonneg; lia).
  destruct (div_ten4_at_most_one _ m e Hx ltac:(lia) ltac:(nia))
    as (mq & eq & Hq & Heq & Hval).
  apply (sub_one_at_most_one _ mq eq Hq); [lia | assumption].
Qed.

End F64Unit.


(** ** The quotes under the slippage conversion *)

Lemma rawTokensOut_range (solIn : Z) (bc : BondingCurveData) :
  0 < VirtualSolReserves bc -> 0 < VirtualTokenReserves bc -> 0 <= solIn ->
  0 <= rawTokensOut solIn bc <= VirtualTokenReserves bc.
Proof.
  intros HV HT Hs. unfold rawTokensOut.
  pose proof (buy_tokens_range (VirtualSolReserves bc)
                (VirtualTokenReserves bc) solIn HV HT Hs) as H.
  rewrite Z.quot_div_nonneg in H by nia. exact H.
Qed.

Lemma rawSolOut_nonneg (tokensIn : Z) (bc : BondingCurveData) :
  0 <= VirtualSolReserves bc -> 0 < VirtualTokenReserves bc -> 0 <= tokensIn ->
  0 <= rawSolOut tokensIn bc.
Proof. intros HV HT Ht. unfold rawSolOut. apply Z.div_pos; nia. Qed.

(** The quotes, for any multiplier, from the raw amounts. *)
Lemma calculateBuyQuote_raw (solIn : Z) (bc : BondingCurveData)
    (m : spec_float) :
  0 < VirtualSolReserves bc -> 0 < VirtualTokenReserves bc ->
  0 <= solIn < 2 ^ 63 ->
  calculateBuyQuote solIn bc m = applyPercentage (rawTokensOut solIn bc) m.
Proof.
  intros HV HT Hs. rewrite calculateBuyQuote_formula by assumption.
  unfold quoteBuy, rawTokensOut.
  destruct (Z.eqb_spec (VirtualSolReserves bc + solIn) 0); [lia|].
  now rewrite Z.quot_div_nonneg by nia.
Qed.

Lemma calculateSellQuote_raw (tokensIn : Z) (bc : BondingCurveData)
    (m : spec_float) :
  0 < VirtualTokenReserves bc -> 0 <= tokensIn < 2 ^ 63 ->
  calculateSellQuote tokensIn bc m = applyPercentage (rawSolOut tokensIn bc) m.
Proof.
  intros HT Ht. rewrite calculateSellQuote_formula by assumption.
  unfold quoteSell, rawSolOut.
  now destruct (Z.eqb_spec (VirtualTokenReserves bc + tokensIn) 0); [lia|].
Qed.

(** X6. For a slippage of 0 to 10000 basis points, on a valid snapshot
    and an amount below 2^63, both quotes return an integer between 0 and
    the raw constant-product amount: the float multiplication never
    carries the minimum above the raw quote. *)
Theorem quotes_within_raw (amount bp : Z) (bc : BondingCurveData) :
  0 < VirtualSolReserves bc -> 0 < VirtualTokenReserves bc ->
  0 <= amount < 2 ^ 63 -> 0 <= bp <= 10000 ->
  (exists q,
      calculateBuyQuote amount bc (convertSlippageBasisPointsToPercentage bp)
      = Ok (Some q)
      /\ 0 <= q <= rawTokensOut amount bc)
  /\ (exists a,
      calculateSellQuote amount bc (convertSlippageBasisPointsToPercentage bp)
      = Ok (Some a)
      /\ 0 <= a <= rawSolOut amount bc).
Proof.
  intros HV HT Ha Hbp.
  pose proof (F64Unit.convert_at_most_one bp Hbp) as Hm.
  split.
  - rewrite calculateBuyQuote_raw by assumption.
    apply applyPercentage_at_most_one; [| exact Hm].
    apply rawTokensOut_range; lia.
  - rewrite calculateSellQuote_raw by assumption.
    apply applyPercentage_at_most_one; [| exact Hm].
    apply rawSolOut_nonneg; lia.
Qed.

Lemma quotes_within_raw_witness :
  (exists q,
      calculateBuyQuote 1000 (mkCurve 0 1000000000 1000000)
        (convertSlippageBasisPointsToPercentage 100) = Ok (Some q)
      /\ 0 <= q <= rawTokensOut 1000 (mkCurve 0 1000000000 1000000))
  /\ (exists a,
      calculateSellQuote 1000 (mkCurve 0 1000000000 1000000)
        (convertSlippageBasisPointsToPercentage 100) = Ok (Some a)
      /\ 0 <= a <= rawSolOut 1000 (mkCurve 0 1000000000 1000000)).
Proof.
  apply (quotes_within_raw 1000 100 (mkCurve 0 1000000000 1000000));
    cbn [VirtualSolReserves VirtualTokenReserves mkCurve]; lia.
Defined.

(** X7. The two ends of the slippage range, on a valid snapshot and an
    amount below 2^63: at 0 basis points both quotes are the raw
    constant-product amounts, without any loss in the float step whatever
    the size of the reserves; at 10000 basis points both quotes are 0. *)
Theorem quotes_at_slippage_ends (amount : Z) (bc : BondingCurveData) :
  0 < VirtualSolReserves bc -> 0 < VirtualTokenReserves bc ->
  0 <= amount < 2 ^ 63 ->
  calculateBuyQuote amount bc (convertSlippageBasisPointsToPercentage 0)
  = Ok (Some (rawTokensOut amount bc))
  /\ calculateSellQuote amount bc (convertSlippageBasisPointsToPercentage 0)
     = Ok (Some (rawSolOut amount bc))
  /\ calculateBuyQuote amount bc (convertSlippageBasisPointsToPercentage 10000)
     = Ok (Some 0)
  /\ calculateSellQuote amount bc (convertSlippageBasisPointsToPercentage 10000)
     = Ok (Some 0).
Proof.
  intros HV HT Ha.
  change (convertSlippageBasisPointsToPercentage 0) with F64.one.
  change (convertSlippageBasisPointsToPercentage 10000) with (S754_zero false).
  rewrite calculateBuyQuote_one, calculateSellQuote_one by lia.
  rewrite calculateBuyQuote_raw, calculateSellQuote_raw by lia.
  repeat split.
  - unfold applyPercentage, BigFloat.SetInt. cbn [BigFloat.NewFloat bind].
    now destruct (rawTokensOut amount bc =? 0).
  - unfold applyPercentage, BigFloat.SetInt. cbn [BigFloat.NewFloat bind].
    now destruct (rawSolOut amount bc =? 0).
Qed.

Lemma quotes_at_slippage_ends_witness :
  calculateBuyQuote 1000 (mkCurve 0 1000000000 1000000)
    (convertSlippageBasisPointsToPercentage 0)
  = Ok (Some (rawTokensOut 1000 (mkCurve 0 1000000000 1000000)))
  /\ calculateSellQuote 1000 (mkCurve 0 1000000000 1000000)
       (convertSlippageBasisPointsToPercentage 0)
     = Ok (Some (rawSolOut 1000 (mkCurve 0 1000000000 1000000)))
  /\ calculateBuyQuote 1000 (mkCurve 0 1000000000 1000000)
       (convertSlippageBasisPointsToPercentage 10000) = Ok (Some 0)
  /\ calculateSellQuote 1000 (mkCurve 0 1000000000 1000000)
       (convertSlippageBasisPointsToPercentage 10000) = Ok (Some 0).
Proof.
  apply (quotes_at_slippage_ends 1000 (mkCurve 0 1000000000 1000000));
    cbn [VirtualSolReserves VirtualTokenReserves mkCurve]; lia.
Defined.

(** X8. A slippage above 10000 basis points is not refused: on a valid
    snapshot and an amount below 2^63 both quotes return an integer that
    is at most 0, and the conversion [Uint64] that places it in the trade
    instruction turns it into its absolute value (modulo 2^64). *)
Theorem quotes_above_full_slippage (amount bp : Z) (bc : BondingCurveData) :
  0 < VirtualSolReserves bc -> 0 < VirtualTokenReserves bc ->
  0 <= amount < 2 ^ 63 -> 10000 < bp < 2 ^ 64 ->
  (exists q,
      calculateBuyQuote amount bc (convertSlippageBasisPointsToPercentage bp)
      = Ok (Some q)
      /\ q <= 0 /\ Uint64 (Some q) = Ok ((- q) mod 2 ^ 64))
  /\ (exists a,
      calculateSellQuote amount bc (convertSlippageBasisPointsToPercentage bp)
      = Ok (Some a)
      /\ a <= 0 /\ Uint64 (Some a) = Ok ((- a) mod 2 ^ 64)).
Proof.
  intros HV HT Ha Hbp.
  pose proof (F64Facts.convert_negative bp Hbp) as Hm.
  assert (Habs : forall q, q <= 0 -> Uint64 (Some q) = Ok ((- q) mod 2 ^ 64)).
  { intros q Hq. cbn [Uint64]. unfold GoInt.big_Uint64.
    now rewrite Z.abs_neq by lia. }
  split.
  - rewrite calculateBuyQuote_raw by assumption.
    destruct (applyPercentage_negative (rawTokensOut amount bc) _
                ltac:(apply rawTokensOut_range; lia) Hm) as (q & Hq & Hle).
    exists q. auto.
  - rewrite calculateSellQuote_raw by assumption.
    destruct (applyPercentage_negative (rawSolOut amount bc) _
                ltac:(apply rawSolOut_nonneg; lia) Hm) as (q & Hq & Hle).
    exists q. auto.
Qed.

Lemma quotes_above_full_slippage_witness :
  (exists q,
      calculateBuyQuote 1000 (mkCurve 0 1000000000 1000000)
        (convertSlippageBasisPointsToPercentage 20000) = Ok (Some q)
      /\ q <= 0 /\ Uint64 (Some q) = Ok ((- q) mod 2 ^ 64))
  /\ (exists a,
      calculateSellQuote 1000 (mkCurve 0 1000000000 1000000)
        (convertSlippageBasisPointsToPercentage 20000) = Ok (Some a)
      /\ a <= 0 /\ Uint64 (Some a) = Ok ((- a) mod 2 ^ 64)).
Proof.
  apply (quotes_above_full_slippage 1000 20000 (mkCurve 0 1000000000 1000000));
    cbn [VirtualSolReserves VirtualTokenReserves mkCurve]; lia.
Defined.


(** * Further properties of the decoder and the estimator *)

Lemma u64_inj (b1 b2 : byte) : u64 b1 = u64 b2 -> b1 = b2.
Proof.
  unfold u64. intros H. apply N2Z.inj in H.
  pose proof (Byte.of_to_N b1) as H1. pose proof (Byte.of_to_N b2) as H2.
  rewrite H in H1. congruence.
Qed.

(** Byte strings of one length with one little-endian value are equal. *)
Lemma le_value_inj (l1 l2 : list byte) :
  List.length l1 = List.length l2 -> le_value l1 = le_value l2 -> l1 = l2.
Proof.
  revert l2. induction l1 as [| b1 l1 IH]; intros [| b2 l2] Hlen Hval;
    try discriminate; [reflexivity|].
  cbn [le_value] in Hval. cbn [List.length] in Hlen.
  pose proof (u64_range b1). pose proof (u64_range b2).
  change (2 ^ 8) with 256 in *.
  assert (u64 b1 = u64 b2 /\ le_value l1 = le_value l2) as [Hb Hv] by lia.
  f_equal; [now apply u64_inj | apply IH; [lia | assumption]].
Qed.

Lemma decodeReserves_Ok_length (data : list byte) (bc : BondingCurveData) :
  decodeReserves data = Ok bc -> (24 <= List.length data)%nat.
Proof.
  intros H. destruct (Nat.lt_ge_cases (List.length data) 24) as [Hlt | Hge];
    [| assumption].
  rewrite decodeReserves_short in H by assumption. discriminate.
Qed.

(** X9. The decoder loses nothing of the 24 bytes it reads: two buffers
    that decode to the same snapshot agree on their first 24 bytes. *)
Theorem decodeReserves_injective (d1 d2 : list byte) (bc : BondingCurveData) :
  decodeReserves d1 = Ok bc -> decodeReserves d2 = Ok bc ->
  firstn 24 d1 = firstn 24 d2.
Proof.
  intros H1 H2.
  pose proof (decodeReserves_Ok_length d1 bc H1) as L1.
  pose proof (decodeReserves_Ok_length d2 bc H2) as L2.
  rewrite decodeReserves_long in H1, H2 by assumption.
  rewrite <- H2 in H1. injection H1 as Hr Ht Hs.
  do 24 split_byte d1. do 24 split_byte d2.
  unfold le_uint64_at in Hr, Ht, Hs. cbn [firstn skipn] in Hr, Ht, Hs.
  apply le_value_inj in Hr; [| reflexivity].
  apply le_value_inj in Ht; [| reflexivity].
  apply le_value_inj in Hs; [| reflexivity].
  cbn [firstn]. congruence.
Qed.

Lemma decodeReserves_injective_witness :
  firstn 24 (buffer123 ++ [x2a]) = firstn 24 buffer123.
Proof.
  apply (decodeReserves_injective (buffer123 ++ [x2a]) buffer123 (mkCurve 1 2 3));
    reflexivity.
Defined.

Section FetchFacts.

Context {L : Solana}.


(** X11. [getComputUnitPriceInstr] on a non-empty answer of the ledger
    client sets the price to the last sample divided by the number of
    samples: the other samples do not matter, and the price is at most the
    last sample. An error of the client comes back wrapped, and an empty
    answer is a division by zero. *)
Theorem getComputUnitPriceInstr_outcomes (rpcClient : rpc_Client)
    (user : PrivateKey) :
  let keys :=
    [PrivateKey_PublicKey user; pump_ProgramID; pumpFunMintAuthority;
     globalPumpFunAddress; TokenMetadataProgramID; system_ProgramID;
     token_ProgramID; associatedtokenaccount_ProgramID; SysVarRentPubkey;
     pumpFunEventAuthority] in
  (forall out fee,
      GetRecentPrioritizationFees rpcClient keys = Response (out ++ [fee]) ->
      getComputUnitPriceInstr rpcClient user
      = Ok (SetComputeUnitPrice
              (PrioritizationFee fee / Z.of_nat (List.length out + 1)))
      /\ (0 <= PrioritizationFee fee ->
          0 <= PrioritizationFee fee / Z.of_nat (List.length out + 1)
            <= PrioritizationFee fee))
  /\ (GetRecentPrioritizationFees rpcClient keys = Response [] ->
      getComputUnitPriceInstr rpcClient user = Panic IntegerDivideByZero)
  /\ (forall err,
      GetRecentPrioritizationFees rpcClient keys = RpcError err ->
      getComputUnitPriceInstr rpcClient user
      = Err (Wrap "failed to get recent prioritization fees" err)).
Proof.
  cbn zeta. unfold getComputUnitPriceInstr. split; [| split].
  - intros out fee H. rewrite H. cbn [of_response wrap bind].
    rewrite computeUnitPrice_last. cbn [bind]. split; [reflexivity|].
    intros Hfee. split.
    + apply Z.div_pos; lia.
    + apply Z.div_le_upper_bound; [lia|]. nia.
  - intros H. rewrite H. reflexivity.
  - intros err H. rewrite H. reflexivity.
Qed.

End FetchFacts.


(** * Further properties of the flows *)

Lemma applyPercentage_no_error (a : Z) (m : spec_float) (e : error) :
  applyPercentage a m <> Err e.
Proof.
  unfold applyPercentage.
  destruct (BigFloat.NewFloat m) as [f | e' | p] eqn:Ef; cbn [bind];
    [| destruct m; discriminate | discriminate].
  destruct (BigFloat.Mul (BigFloat.SetInt a) f) as [g | e' | p] eqn:Eg;
    cbn [bind]; [discriminate | | discriminate].
  unfold BigFloat.Mul in Eg.
  destruct (BigFloat.SetInt a), f; try discriminate.
  destruct (BigFloat.round _ _ _); discriminate.
Qed.

(** The quotes have no error result: they return or panic. *)
Lemma calculateBuyQuote_no_error (s : Z) (bc : BondingCurveData)
    (m : spec_float) (e : error) :
  calculateBuyQuote s bc m <> Err e.
Proof.
  unfold calculateBuyQuote, buyQuoteBig, big_Div.
  destruct (_ =? 0); cbn [bind]; [discriminate|].
  apply applyPercentage_no_error.
Qed.

Lemma calculateSellQuote_no_error (t : Z) (bc : BondingCurveData)
    (m : spec_float) (e : error) :
  calculateSellQuote t bc m <> Err e.
Proof.
  unfold calculateSellQuote, sellQuoteBig, big_Div.
  destruct (_ =? 0); cbn [bind]; [discriminate|].
  apply applyPercentage_no_error.
Qed.

Section MoreFlowFacts.

Context {L : Solana} {B : Builders}.

(** X12. The error "can't check if we should create ATA" of
    [getBuyInstructions] is dead: [shouldCreateAta] never returns an
    error, so whatever the ledger client answers the buy instructions
    never fail with it. *)
Theorem getBuyInstructions_never_check_error (rpcClient : rpc_Client)
    (fee mint user : PublicKey) (solAmount bp : Z) (e : error) :
  getBuyInstructions rpcClient fee mint user solAmount bp
  <> Err (Wrap "can't check if we should create ATA" e).
Proof.
  unfold getBuyInstructions.
  destruct (getBondingCurveAndAssociatedBondingCurve mint) as [keys | e1 | p1];
    cbn [wrap bind]; [| discriminate | discriminate].
  destruct (FindAssociatedTokenAddress user mint) as [[ata bump] | e2 | p2];
    cbn [wrap bind]; [| discriminate | discriminate].
  rewrite shouldCreateAta_spec. cbn [wrap bind].
  assert (Hrest : forall instructions : list Instruction,
    (bondingCurve <-
       wrap "can't fetch bonding curve"
         (fetchBondingCurve rpcClient (BondingCurve keys)) ;;
     buy <- calculateBuyQuote solAmount bondingCurve
              (convertSlippageBasisPointsToPercentage bp) ;;
     buyAmount <- Uint64 buy ;;
     Ok (instructions
           ++ [PumpBuy buyAmount solAmount
                 (buyAccounts fee mint keys ata user)]))%go
    <> Err (Wrap "can't check if we should create ATA" e)).
  { intros instructions.
    destruct (fetchBondingCurve rpcClient (BondingCurve keys))
      as [bc | e3 | p3]; cbn [wrap bind]; [| discriminate | discriminate].
    destruct (calculateBuyQuote solAmount bc
                (convertSlippageBasisPointsToPercentage bp))
      as [buy | e4 | p4] eqn:Eq; cbn [bind];
      [| now apply calculateBuyQuote_no_error in Eq | discriminate].
    destruct buy; cbn [Uint64 bind]; discriminate. }
  destruct (GetAccountInfo rpcClient ata) as [info | err].
  - cbn [bind]. apply Hrest.
  - unfold ValidateAndBuild.
    destruct (associatedtokenaccount_Validate user user mint);
      cbn [wrap bind]; [discriminate | apply Hrest].
Qed.

Lemma NewTransaction_Ok (l : list Instruction) (recent : Hash)
    (payer : PublicKey) :
  l <> [] ->
  NewTransaction l recent payer
  = Ok {| tx_instructions := l; tx_blockhash := recent;
          tx_payer := payer; tx_signers := [] |}.
Proof. destruct l; [contradiction | reflexivity]. Qed.

(** The callback of the buy and sell flows only ever hands out the user's
    key, and only for a key equal to the user's. *)
Lemma userGetter_collect (user : PrivateKey) (keys : list PublicKey)
    (privs : list PrivateKey) :
  collectSigners (userGetter user) keys = Ok privs ->
  Forall (fun key => PublicKey_Equals (PrivateKey_PublicKey user) key = true)
    keys
  /\ privs = repeat user (List.length keys).
Proof.
  revert privs. induction keys as [| key keys IH]; intros privs H.
  - cbn in H. injection H as <-. split; [constructor | reflexivity].
  - cbn [collectSigners] in H. unfold userGetter in H at 1.
    destruct (PublicKey_Equals (PrivateKey_PublicKey user) key) eqn:Ek;
      [| discriminate].
    apply bind_Ok in H. destruct H as (ps & Hps & [= <-]).
    destruct (IH ps Hps) as [Hall ->].
    split; [constructor; assumption | reflexivity].
Qed.

Lemma userGetter_collect_all (user : PrivateKey) (keys : list PublicKey) :
  Forall (fun key => PublicKey_Equals (PrivateKey_PublicKey user) key = true)
    keys ->
  collectSigners (userGetter user) keys
  = Ok (repeat user (List.length keys)).
Proof.
  induction 1 as [| key keys Hk Hall IH]; [reflexivity|].
  cbn [collectSigners List.length repeat]. unfold userGetter at 1.
  rewrite Hk, IH. reflexivity.
Qed.

Lemma submit_Ok (rpcClient : rpc_Client) (user : PrivateKey)
    (l : list Instruction) (sig : string) :
  l <> [] ->
  submit rpcClient user l = Ok sig
  <-> exists recent,
      GetLatestBlockhash rpcClient = Response recent
      /\ Forall (fun key =>
                   PublicKey_Equals (PrivateKey_PublicKey user) key = true)
           (requiredSigners l (PrivateKey_PublicKey user))
      /\ SendTransaction rpcClient
           {| tx_instructions := l;
              tx_blockhash := recent;
              tx_payer := PrivateKey_PublicKey user;
              tx_signers :=
                repeat user
                  (List.length
                     (requiredSigners l (PrivateKey_PublicKey user))) |}
         = Response sig.
Proof.
  intros Hl. unfold submit. split.
  - intros H.
    apply bind_Ok in H. destruct H as (recent & Hr & H). apply wrap_Ok in Hr.
    rewrite NewTransaction_Ok in H by assumption. cbn [wrap bind] in H.
    apply bind_Ok in H. destruct H as (tx & Hs & H). apply wrap_Ok in Hs.
    unfold Sign in Hs. cbn [tx_instructions tx_payer tx_blockhash] in Hs.
    apply bind_Ok in Hs. destruct Hs as (privs & Hp & [= <-]).
    apply userGetter_collect in Hp. destruct Hp as [Hall ->].
    apply bind_Ok in H. destruct H as (sg & Hsend & [= <-]). apply wrap_Ok in Hsend.
    exists recent.
    destruct (GetLatestBlockhash rpcClient); [| discriminate].
    injection Hr as ->.
    destruct (SendTransaction rpcClient _) eqn:Es; [| discriminate].
    injection Hsend as ->. repeat split; assumption.
  - intros (recent & Hr & Hall & Hsend).
    rewrite Hr. cbn [of_response wrap bind].
    rewrite NewTransaction_Ok by assumption. cbn [wrap bind].
    unfold Sign. cbn [tx_instructions tx_payer tx_blockhash].
    rewrite (userGetter_collect_all user _ Hall). cbn [wrap bind].
    rewrite Hsend. reflexivity.
Qed.

(** X13. [BuyToken] and [SellToken] return a signature exactly when the
    instruction list is assembled, the latest block hash is obtained,
    every key that has to sign the message equals the user's key, and the
    ledger client accepts the transaction; the transaction submitted
    carries the assembled list, that block hash, the user as fee payer and
    signatures of the user only, and the signature returned is the
    client's answer. *)
Theorem trade_flows_submit (rpcClient : rpc_Client) (fee : PublicKey)
    (user : PrivateKey) (mint : PublicKey) (amount bp : Z) (all : bool)
    (sig : string) :
  let submitted l recent :=
    Forall (fun key =>
              PublicKey_Equals (PrivateKey_PublicKey user) key = true)
      (requiredSigners l (PrivateKey_PublicKey user))
    /\ SendTransaction rpcClient
         {| tx_instructions := l;
            tx_blockhash := recent;
            tx_payer := PrivateKey_PublicKey user;
            tx_signers :=
              repeat user
                (List.length (requiredSigners l (PrivateKey_PublicKey user))) |}
       = Response sig in
  (BuyToken rpcClient fee user mint amount bp = Ok sig
   <-> exists l recent,
       BuyToken_instructions rpcClient fee user mint amount bp = Ok l
       /\ GetLatestBlockhash rpcClient = Response recent
       /\ submitted l recent)
  /\ (SellToken rpcClient fee user mint amount bp all = Ok sig
      <-> exists l recent,
          SellToken_instructions rpcClient fee user mint amount bp all = Ok l
          /\ GetLatestBlockhash rpcClient = Response recent
          /\ submitted l recent).
Proof.
  cbn zeta. split.
  - unfold BuyToken. rewrite bind_Ok. split.
    + intros (l & Hl & Hs).
      assert (Hne : l <> []).
      { unfold BuyToken_instructions in Hl. apply bind_Ok in Hl.
        destruct Hl as (b & _ & [= <-]). discriminate. }
      apply submit_Ok in Hs; [| assumption].
      destruct Hs as (recent & Hr & Hall & Hsend). now exists l, recent.
    + intros (l & recent & Hl & Hr & Hall & Hsend).
      exists l. split; [assumption|].
      apply submit_Ok; [| now exists recent].
      unfold BuyToken_instructions in Hl. apply bind_Ok in Hl.
      destruct Hl as (b & _ & [= <-]). discriminate.
  - unfold SellToken. rewrite bind_Ok. split.
    + intros (l & Hl & Hs).
      assert (Hne : l <> []).
      { unfold SellToken_instructions in Hl. apply bind_Ok in Hl.
        destruct Hl as (b & _ & [= <-]). discriminate. }
      apply submit_Ok in Hs; [| assumption].
      destruct Hs as (recent & Hr & Hall & Hsend). now exists l, recent.
    + intros (l & recent & Hl & Hr & Hall & Hsend).
      exists l. split; [assumption|].
      apply submit_Ok; [| now exists recent].
      unfold SellToken_instructions in Hl. apply bind_Ok in Hl.
      destruct Hl as (b & _ & [= <-]). discriminate.
Qed.

End MoreFlowFacts.


(** ** Sell-all and the balance *)

Lemma digit_of_not_sign (c : ascii) (d : Z) :
  digit_of c = Some d -> c <> "-"%char /\ c <> "+"%char.
Proof.
  intros H. split; intros ->; cbn in H; discriminate.
Qed.

Lemma parse_digits_ge (s : string) (acc n : Z) :
  0 <= acc -> parse_digits acc s = Some n -> acc <= n.
Proof.
  revert acc. induction s as [| c s IH]; intros acc Hacc H; cbn in H.
  - injection H as <-. lia.
  - destruct (digit_of c) as [d |] eqn:Ed; [| discriminate].
    assert (0 <= d).
    { unfold digit_of in Ed.
      destruct (Z.leb_spec 48 (Z.of_N (N_of_ascii c)));
        destruct (Z.leb_spec (Z.of_N (N_of_ascii c)) 57);
        cbn [andb] in Ed; try discriminate.
      injection Ed as <-. lia. }
    specialize (IH (10 * acc + d) ltac:(lia) H). lia.
Qed.

(** [strconv.Atoi] on a non-empty string of decimal digits. *)
Lemma Atoi_digits (s : string) (n : Z) :
  s <> EmptyString -> parse_digits 0 s = Some n ->
  0 <= n
  /\ (n < 2 ^ 63 -> Atoi s = Ok n)
  /\ (2 ^ 63 <= n -> exists e, Atoi s = Err e).
Proof.
  intros Hne Hp.
  pose proof (parse_digits_ge s 0 n ltac:(lia) Hp) as Hn.
  split; [assumption|].
  destruct s as [| c rest]; [contradiction|].
  assert (Hc : exists d, digit_of c = Some d).
  { cbn in Hp. destruct (digit_of c) as [d |]; [now exists d | discriminate]. }
  destruct Hc as (d & Hd). apply digit_of_not_sign in Hd. destruct Hd as [Hm Hpl].
  assert (Hbody : (match String c rest with
                   | String "-"%char r => (true, r)
                   | String "+"%char r => (false, r)
                   | _ => (false, String c rest)
                   end) = (false, String c rest)).
  { destruct c as [[] [] [] [] [] [] [] []]; try reflexivity; congruence. }
  unfold Atoi. rewrite Hbody, Hp.
  split; intros H.
  - destruct (Z.leb_spec (- 2 ^ 63) n); [| lia].
    destruct (Z.ltb_spec n (2 ^ 63)); [reflexivity | lia].
  - destruct (Z.leb_spec (- 2 ^ 63) n); [| lia].
    destruct (Z.ltb_spec n (2 ^ 63)); [lia|]. eexists; reflexivity.
Qed.

Section SellAllFacts.

Context {L : Solana} {B : Builders}.

(** X14. With "sell all" the amount passed by the caller plays no part,
    and the balance is read through the signed 64-bit [int]: a balance
    written with decimal digits is sold as it is when it is below 2^63,
    and from 2^63 on, though a valid token amount, it makes the flow fail
    with the error "can't convert token amount to integer". *)
Theorem sell_all_balance (rpcClient : rpc_Client) (fee : PublicKey)
    (user : PrivateKey) (mint : PublicKey) (bp : Z)
    (ata : PublicKey) (bump : Z) (balance : string) (n : Z) :
  FindAssociatedTokenAddress (PrivateKey_PublicKey user) mint = Ok (ata, bump) ->
  GetTokenAccountBalance rpcClient ata = Response balance ->
  balance <> EmptyString -> parse_digits 0 balance = Some n ->
  (forall a1 a2,
      SellToken_instructions rpcClient fee user mint a1 bp true
      = SellToken_instructions rpcClient fee user mint a2 bp true)
  /\ (n < 2 ^ 63 -> forall a, sellAmount rpcClient ata a true = Ok n)
  /\ (2 ^ 63 <= n ->
      forall a, exists e,
        SellToken_instructions rpcClient fee user mint a bp true
        = Err (Wrap "failed to get sell instructions"
                 (Wrap "can't convert token amount to integer" e))).
Proof.
  intros Ha Hb Hne Hp.
  destruct (Atoi_digits balance n Hne Hp) as (Hn & Hsmall & Hlarge).
  split; [| split].
  - intros a1 a2. unfold SellToken_instructions, getSellInstructions.
    rewrite Ha. reflexivity.
  - intros Hlt a. unfold sellAmount. rewrite Hb. cbn [of_response wrap bind].
    rewrite (Hsmall Hlt). cbn [wrap bind]. f_equal.
    apply uint64_of_int_nonneg. lia.
  - intros Hge a. destruct (Hlarge Hge) as (e & He). exists e.
    unfold SellToken_instructions, getSellInstructions, sellAmount.
    rewrite Ha. cbn [wrap bind]. rewrite Hb. cbn [of_response wrap bind].
    rewrite He. reflexivity.
Qed.

End SellAllFacts.

Lemma sell_all_balance_witness :
  sellAmount (Demo.client (Response None) "17") Demo.userAta 500 true
  = Ok 17.
Proof.
  refine (proj1 (proj2 (sell_all_balance (B := Demo.builders)
            (Demo.client (Response None) "17") initialFeeRecipient
            Demo.user Demo.mint 100 Demo.userAta 255 "17" 17
            eq_refl eq_refl _ eq_refl)) _ 500).
  - discriminate.
  - lia.
Defined.

(** * The create flow *)

Section CreateFacts.

Context {L : Solana} {B : Builders} {C : CreateLibrary}.

Lemma getComputUnitPriceInstr_Ok (rpcClient : rpc_Client) (user : PrivateKey)
    (i : Instruction) :
  getComputUnitPriceInstr rpcClient user = Ok i
  <-> exists out price,
      GetRecentPrioritizationFees rpcClient
        [PrivateKey_PublicKey user; pump_ProgramID; pumpFunMintAuthority;
         globalPumpFunAddress; TokenMetadataProgramID; system_ProgramID;
         token_ProgramID; associatedtokenaccount_ProgramID; SysVarRentPubkey;
         pumpFunEventAuthority] = Response out
      /\ computeUnitPrice out = Ok price
      /\ i = SetComputeUnitPrice price.
Proof.
  unfold getComputUnitPriceInstr. rewrite bind_Ok. split.
  - intros (out & Ho & H). apply wrap_Ok in Ho.
    apply bind_Ok in H. destruct H as (price & Hp & [= <-]).
    exists out, price.
    destruct (GetRecentPrioritizationFees rpcClient _); [| discriminate].
    injection Ho as ->. auto.
  - intros (out & price & Ho & Hp & ->). exists out. rewrite Ho.
    split; [reflexivity|]. rewrite Hp. reflexivity.
Qed.

(** The callback of the create flow hands out the user's key or the
    mint's, one per key to sign for. *)
Lemma createGetter_collect (user mint : PrivateKey) (keys : list PublicKey)
    (privs : list PrivateKey) :
  collectSigners (createGetter user mint) keys = Ok privs ->
  List.length privs = List.length keys
  /\ Forall (fun priv => priv = user \/ priv = mint) privs.
Proof.
  revert privs. induction keys as [| key keys IH]; intros privs H.
  - cbn in H. injection H as <-. split; [reflexivity | constructor].
  - cbn [collectSigners] in H.
    destruct (createGetter user mint key) as [priv |] eqn:Eg; [| discriminate].
    apply bind_Ok in H. destruct H as (ps & Hps & [= <-]).
    destruct (IH ps Hps) as [Hlen Hall].
    split; [cbn; lia|]. constructor; [| assumption].
    unfold createGetter in Eg.
    destruct (PublicKey_Equals (PrivateKey_PublicKey user) key);
      [injection Eg as <-; now left|].
    destruct (PublicKey_Equals (PrivateKey_PublicKey mint) key);
      [injection Eg as <-; now right | discriminate].
Qed.

(** X15. [CreateToken] returns a signature exactly when the addresses are
    derived, the fee samples give a price, the latest block hash is
    obtained, the buy instructions (asked for only when the initial buy
    amount is positive) are assembled, every key to sign for is the
    user's or the mint's, and the ledger client confirms the
    transaction. The transaction carries, in this order,
    [computeUnitLimit(250000)], [computeUnitPrice] of the estimated price,
    the create instruction and then the buy instructions, with the user
    as fee payer; its signatures are the user's or the mint's. *)
Theorem CreateToken_submits (rpcClient : rpc_Client) (fee : PublicKey)
    (user mint : PrivateKey) (name symbol uri : string) (amount bp : Z)
    (sig : string) :
  CreateToken rpcClient fee user mint name symbol uri amount bp = Ok sig
  <-> exists keys metadata bump out price recent buyInstructions signers,
      getBondingCurveAndAssociatedBondingCurve (PrivateKey_PublicKey mint)
      = Ok keys
      /\ FindTokenMetadataAddress (PrivateKey_PublicKey mint)
         = Ok (metadata, bump)
      /\ GetRecentPrioritizationFees rpcClient
           [PrivateKey_PublicKey user; pump_ProgramID; pumpFunMintAuthority;
            globalPumpFunAddress; TokenMetadataProgramID; system_ProgramID;
            token_ProgramID; associatedtokenaccount_ProgramID;
            SysVarRentPubkey; pumpFunEventAuthority] = Response out
      /\ computeUnitPrice out = Ok price
      /\ GetLatestBlockhash rpcClient = Response recent
      /\ (if 0 <? amount
          then getBuyInstructions rpcClient fee (PrivateKey_PublicKey mint)
                 (PrivateKey_PublicKey user) amount bp = Ok buyInstructions
          else buyInstructions = [])
      /\ let l :=
           [FlowInstruction (SetComputeUnitLimit 250000);
            FlowInstruction (SetComputeUnitPrice price);
            PumpCreate name symbol uri
              (createAccounts (PrivateKey_PublicKey mint) keys metadata
                 (PrivateKey_PublicKey user))]
           ++ map FlowInstruction buyInstructions in
         collectSigners (createGetter user mint)
           (createRequiredSigners l (PrivateKey_PublicKey user)) = Ok signers
         /\ Forall (fun priv => priv = user \/ priv = mint) signers
         /\ SendAndConfirmTransaction
              {| ctx_instructions := l;
                 ctx_blockhash := recent;
                 ctx_payer := PrivateKey_PublicKey user;
                 ctx_signers := signers |} = Response sig.
Proof.
  unfold CreateToken. split.
  - intros H.
    apply bind_Ok in H. destruct H as (keys & Hk & H). apply wrap_Ok in Hk.
    apply bind_Ok in H. destruct H as ([metadata bump] & Hm & H).
    apply wrap_Ok in Hm.
    apply bind_Ok in H. destruct H as (cup & Hc & H). apply wrap_Ok in Hc.
    apply getComputUnitPriceInstr_Ok in Hc.
    destruct Hc as (out & price & Ho & Hp & ->).
    apply bind_Ok in H. destruct H as (recent & Hr & H). apply wrap_Ok in Hr.
    apply bind_Ok in H. destruct H as (l & Hl & H).
    assert (Hbuy : exists buyInstructions,
      (if 0 <? amount
       then getBuyInstructions rpcClient fee (PrivateKey_PublicKey mint)
              (PrivateKey_PublicKey user) amount bp = Ok buyInstructions
       else buyInstructions = [])
      /\ l = [FlowInstruction (SetComputeUnitLimit 250000);
              FlowInstruction (SetComputeUnitPrice price);
              PumpCreate name symbol uri
                (createAccounts (PrivateKey_PublicKey mint) keys metadata
                   (PrivateKey_PublicKey user))]
             ++ map FlowInstruction buyInstructions).
    { destruct (0 <? amount).
      - apply bind_Ok in Hl. destruct Hl as (b & Hb & [= <-]).
        apply wrap_Ok in Hb. now exists b.
      - injection Hl as <-. exists []. split; reflexivity. }
    destruct Hbuy as (buyInstructions & Hb & ->).
    cbn [app NewCreateTransaction wrap bind] in H.
    apply bind_Ok in H. destruct H as (tx & Hs & H). apply wrap_Ok in Hs.
    unfold SignCreate in Hs.
    cbn [ctx_instructions ctx_payer ctx_blockhash] in Hs.
    apply bind_Ok in Hs. destruct Hs as (signers & Hsg & [= <-]).
    apply bind_Ok in H. destruct H as (sg & Hsend & [= <-]).
    apply wrap_Ok in Hsend.
    exists keys, metadata, bump, out, price, recent, buyInstructions, signers.
    destruct (GetLatestBlockhash rpcClient); [| discriminate].
    injection Hr as ->.
    destruct (SendAndConfirmTransaction _) eqn:Es; [| discriminate].
    injection Hsend as ->.
    repeat split; try assumption.
    eapply createGetter_collect; eassumption.
  - intros (keys & metadata & bump & out & price & recent & buyInstructions
            & signers & Hk & Hm & Ho & Hp & Hr & Hb & Hsg & _ & Hsend).
    rewrite Hk, Hm. cbn [wrap bind].
    assert (Hc : getComputUnitPriceInstr rpcClient user
                 = Ok (SetComputeUnitPrice price)).
    { apply getComputUnitPriceInstr_Ok. now exists out, price. }
    rewrite Hc, Hr. cbn [of_response wrap bind].
    destruct (0 <? amount).
    + rewrite Hb. cbn [app NewCreateTransaction wrap bind].
      unfold SignCreate. cbn [ctx_instructions ctx_payer ctx_blockhash].
      cbn [app] in Hsg, Hsend. rewrite Hsg. cbn [wrap bind].
      rewrite Hsend. reflexivity.
    + subst buyInstructions. cbn [app map NewCreateTransaction wrap bind].
      unfold SignCreate. cbn [ctx_instructions ctx_payer ctx_blockhash].
      cbn [app map] in Hsg, Hsend. rewrite Hsg. cbn [wrap bind].
      rewrite Hsend. reflexivity.
Qed.

(** X16. [CreateToken] panics when the ledger client has no fee sample
    to report: once the addresses are derived, an empty answer to
    [GetRecentPrioritizationFees] ends in an integer division by zero,
    whatever the token, the amount and the slippage. *)
Theorem CreateToken_panics_without_fees (rpcClient : rpc_Client)
    (fee : PublicKey) (user mint : PrivateKey) (name symbol uri : string)
    (amount bp : Z) (keys : BondingCurvePublicKeys)
    (metadata : PublicKey * Z) :
  getBondingCurveAndAssociatedBondingCurve (PrivateKey_PublicKey mint)
  = Ok keys ->
  FindTokenMetadataAddress (PrivateKey_PublicKey mint) = Ok metadata ->
  GetRecentPrioritizationFees rpcClient
    [PrivateKey_PublicKey user; pump_ProgramID; pumpFunMintAuthority;
     globalPumpFunAddress; TokenMetadataProgramID; system_ProgramID;
     token_ProgramID; associatedtokenaccount_ProgramID; SysVarRentPubkey;
     pumpFunEventAuthority] = Response [] ->
  CreateToken rpcClient fee user mint name symbol uri amount bp
  = Panic IntegerDivideByZero.
Proof.
  intros Hk Hm Ho. unfold CreateToken.
  rewrite Hk, Hm. destruct metadata as [md bump]. cbn [wrap bind].
  unfold getComputUnitPriceInstr. rewrite Ho. reflexivity.
Qed.

End CreateFacts.

Lemma CreateToken_submits_witness :
  exists keys metadata bump out price recent buyInstructions signers,
    getBondingCurveAndAssociatedBondingCurve (PrivateKey_PublicKey DemoCreate.mintKey)
    = Ok keys
    /\ FindTokenMetadataAddress (CreateLibrary := DemoCreate.library)
         (PrivateKey_PublicKey DemoCreate.mintKey) = Ok (metadata, bump)
    /\ GetRecentPrioritizationFees
         (DemoCreate.client [feeSample 10; feeSample 20])
         [PrivateKey_PublicKey Demo.user; pump_ProgramID; pumpFunMintAuthority;
          globalPumpFunAddress; TokenMetadataProgramID; system_ProgramID;
          token_ProgramID; associatedtokenaccount_ProgramID;
          SysVarRentPubkey; pumpFunEventAuthority] = Response out
    /\ computeUnitPrice out = Ok price
    /\ GetLatestBlockhash (DemoCreate.client [feeSample 10; feeSample 20])
       = Response recent
    /\ (if 0 <? 1000
        then getBuyInstructions (B := Demo.builders)
               (DemoCreate.client [feeSample 10; feeSample 20])
               initialFeeRecipient (PrivateKey_PublicKey DemoCreate.mintKey)
               (PrivateKey_PublicKey Demo.user) 1000 100 = Ok buyInstructions
        else buyInstructions = [])
    /\ let l :=
         [FlowInstruction (SetComputeUnitLimit 250000);
          FlowInstruction (SetComputeUnitPrice price);
          PumpCreate "N" "S" "U"
            (createAccounts (PrivateKey_PublicKey DemoCreate.mintKey) keys metadata
               (PrivateKey_PublicKey Demo.user))]
         ++ map FlowInstruction buyInstructions in
       collectSigners (createGetter Demo.user DemoCreate.mintKey)
         (createRequiredSigners (CreateLibrary := DemoCreate.library) l
            (PrivateKey_PublicKey Demo.user)) = Ok signers
       /\ Forall (fun priv => priv = Demo.user \/ priv = DemoCreate.mintKey) signers
       /\ SendAndConfirmTransaction (CreateLibrary := DemoCreate.library)
            {| ctx_instructions := l;
               ctx_blockhash := recent;
               ctx_payer := PrivateKey_PublicKey Demo.user;
               ctx_signers := signers |} = Response "confirmed"%string.
Proof.
  apply (proj1 (CreateToken_submits (B := Demo.builders)
                  (C := DemoCreate.library)
                  (DemoCreate.client [feeSample 10; feeSample 20])
                  initialFeeRecipient Demo.user DemoCreate.mintKey "N" "S" "U"
                  1000 100 "confirmed")).
  reflexivity.
Defined.

Lemma CreateToken_panics_without_fees_witness :
  CreateToken (B := Demo.builders) (C := DemoCreate.library)
    (DemoCreate.client []) initialFeeRecipient Demo.user DemoCreate.mintKey
    "N" "S" "U" 1000 100
  = Panic IntegerDivideByZero.
Proof.
  apply (CreateToken_panics_without_fees (B := Demo.builders)
           (C := DemoCreate.library) (DemoCreate.client [])
           initialFeeRecipient Demo.user DemoCreate.mintKey "N" "S" "U" 1000 100
           Demo.curveKeys ("metadata/mint"%string, 255));
    reflexivity.
Defined.


(** * The flows on the demo ledger *)

Lemma quote_panics_on_wrapped_amount_witness :
  calculateBuyQuote (2 ^ 64 - 1000000) (mkCurve 0 1000000000 1000000) F64.one
  = Panic DivisionByZero.
Proof.
  refine (proj2 (proj1 (quote_panics_on_wrapped_amount
                          (mkCurve 0 1000000000 1000000) F64.one) _)).
  cbn [VirtualSolReserves mkCurve]. lia.
Defined.


Lemma getComputUnitPriceInstr_outcomes_witness :
  getComputUnitPriceInstr (DemoCreate.client [feeSample 10; feeSample 20])
    Demo.user
  = Ok (SetComputeUnitPrice 10).
Proof.
  refine (proj1 (proj1 (getComputUnitPriceInstr_outcomes
                          (DemoCreate.client [feeSample 10; feeSample 20])
                          Demo.user)
                   [feeSample 10] (feeSample 20) _)).
  reflexivity.
Defined.

Lemma getBuyInstructions_never_check_error_witness :
  getBuyInstructions (B := Demo.builders)
    (Demo.client (RpcError Demo.connectionRefused) "0") initialFeeRecipient
    Demo.mint (PrivateKey_PublicKey Demo.user) 1000 100
  <> Err (Wrap "can't check if we should create ATA" Demo.connectionRefused).
Proof.
  exact (getBuyInstructions_never_check_error (B := Demo.builders)
           (Demo.client (RpcError Demo.connectionRefused) "0")
           initialFeeRecipient Demo.mint (PrivateKey_PublicKey Demo.user)
           1000 100 Demo.connectionRefused).
Defined.

Lemma trade_flows_submit_witness :
  exists l recent,
    BuyToken_instructions (B := Demo.builders)
      (DemoCreate.client [feeSample 10; feeSample 20]) initialFeeRecipient
      Demo.user Demo.mint 1000 100 = Ok l
    /\ GetLatestBlockhash (DemoCreate.client [feeSample 10; feeSample 20])
       = Response recent
    /\ Forall (fun key =>
                 PublicKey_Equals (PrivateKey_PublicKey Demo.user) key = true)
         (requiredSigners (Builders := Demo.builders) l
            (PrivateKey_PublicKey Demo.user))
    /\ SendTransaction (DemoCreate.client [feeSample 10; feeSample 20])
         {| tx_instructions := l;
            tx_blockhash := recent;
            tx_payer := PrivateKey_PublicKey Demo.user;
            tx_signers :=
              repeat Demo.user
                (List.length
                   (requiredSigners (Builders := Demo.builders) l
                      (PrivateKey_PublicKey Demo.user))) |}
       = Response "signature"%string.
Proof.
  refine (proj1 (proj1 (trade_flows_submit (B := Demo.builders)
                          (DemoCreate.client [feeSample 10; feeSample 20])
                          initialFeeRecipient Demo.user Demo.mint 1000 100
                          false "signature")) _).
  reflexivity.
Defined.
